(** * caldav-mcp: account resolution, URL normalisation and event tools

    A shallow embedding of [caldav_mcp/client.py],
    [caldav_mcp/tools/events.py], [caldav_mcp/tools/calendars.py],
    [Settings.parse_accounts] of [caldav_mcp/config.py] and the account
    registry of [caldav_mcp/server.py], with the properties of the
    account resolver, the URL normaliser, the event operations, the
    configuration and the start-up proved over it.

    Python values are modelled as follows.
    - [str] is [string]; the operations of [str] that the code uses
      ([startswith], [replace], [find], slicing, [join]) are the
      functions of module [PyStr].
    - An exception is a value of [exn]; a call that may raise returns a
      [result].
    - [urllib.parse.urlparse], which [_normalize_url] calls, is
      transcribed from CPython's [urllib/parse.py] in module [Urllib].
    - The CalDAV server, the date parser and the other services the code
      calls outside the repository are the fields of [Platform], the
      URL join of the caldav library that builds a calendar object
      included; what the code sends to them and what it logs is recorded
      as a list of [effect]s.
    - The environment variables and the answers of the servers while an
      account connects are the fields of [Host]; the global list of
      accounts of [server.py] is passed in and out of the functions that
      read and assign it. *)

From Stdlib Require Import String Ascii List Bool Arith ZArith Lia.
From Stdlib Require Import DecimalString.
Import ListNotations.

Open Scope list_scope.
Open Scope string_scope.

(** ** Exceptions and results *)

Inductive exn : Type :=
| ValueError (msg : string)
| OverflowError (msg : string)
| AttributeError (msg : string)
| TypeError (msg : string)
| DAVError (msg : string).

Inductive result (A : Type) : Type :=
| Ok (a : A)
| Raise (e : exn).

Arguments Ok {A} a.
Arguments Raise {A} e.

Definition bind {A B : Type} (r : result A) (k : A -> result B) : result B :=
  match r with
  | Ok a => k a
  | Raise e => Raise e
  end.

Notation "x <- r ;; k" := (bind r (fun x => k))
  (at level 61, r at next level, right associativity).
Notation "' pat <- r ;; k" := (bind r (fun x => match x with pat => k end))
  (at level 61, pat pattern, r at next level, right associativity).

(** [str(e)] of an exception: its message. *)
Definition exn_str (e : exn) : string :=
  match e with
  | ValueError m | OverflowError m | AttributeError m
  | TypeError m | DAVError m => m
  end.

(** ** The operations of Python's [str] used by the code *)

Module PyStr.

(** [c in s] for a one-character [c]. *)
Fixpoint contains (c : ascii) (s : string) : bool :=
  match s with
  | EmptyString => false
  | String a r => Ascii.eqb a c || contains c r
  end.

(** [s.startswith(p)]. *)
Fixpoint startswith (p s : string) : bool :=
  match p, s with
  | EmptyString, _ => true
  | String _ _, EmptyString => false
  | String a p', String b s' => Ascii.eqb a b && startswith p' s'
  end.

(** [s[-1:] == c]: the last character of [s] is [c]. *)
Fixpoint endswith_char (c : ascii) (s : string) : bool :=
  match s with
  | EmptyString => false
  | String a EmptyString => Ascii.eqb a c
  | String _ r => endswith_char c r
  end.

(** [s[:n]] and [s[n:]]. *)
Fixpoint take (n : nat) (s : string) : string :=
  match n, s with
  | O, _ => EmptyString
  | S _, EmptyString => EmptyString
  | S n', String a r => String a (take n' r)
  end.

Fixpoint drop (n : nat) (s : string) : string :=
  match n, s with
  | O, _ => s
  | S _, EmptyString => EmptyString
  | S n', String _ r => drop n' r
  end.

(** [s.find(c)]: [None] stands for Python's [-1]. *)
Fixpoint find (c : ascii) (s : string) : option nat :=
  match s with
  | EmptyString => None
  | String a r => if Ascii.eqb a c then Some O else option_map S (find c r)
  end.

(** [s.find(c, start)]. *)
Fixpoint find_from (c : ascii) (start : nat) (s : string) : option nat :=
  match start, s with
  | O, _ => find c s
  | S _, EmptyString => None
  | S k, String _ r => option_map S (find_from c k r)
  end.

(** [s.rfind(c)]. *)
Fixpoint rfind (c : ascii) (s : string) : option nat :=
  match s with
  | EmptyString => None
  | String a r =>
      match rfind c r with
      | Some i => Some (S i)
      | None => if Ascii.eqb a c then Some O else None
      end
  end.

(** [s.replace(old, new)] for a one-character [old]. *)
Fixpoint replace (old : ascii) (new : string) (s : string) : string :=
  match s with
  | EmptyString => EmptyString
  | String a r =>
      if Ascii.eqb a old then new ++ replace old new r
      else String a (replace old new r)
  end.

(** [s.split(c, 1)] when [c in s]: the text before the first [c] and
    the text after it. *)
Definition split_once (c : ascii) (s : string) : string * string :=
  match find c s with
  | Some i => (take i s, drop (S i) s)
  | None => (s, EmptyString)
  end.

(** [all(p(c) for c in s)]. *)
Fixpoint all (p : ascii -> bool) (s : string) : bool :=
  match s with
  | EmptyString => true
  | String a r => p a && all p r
  end.

Definition between (lo hi c : ascii) : bool :=
  (N_of_ascii lo <=? N_of_ascii c)%N && (N_of_ascii c <=? N_of_ascii hi)%N.

Definition is_upper (c : ascii) : bool := between "A" "Z" c.
Definition is_lower (c : ascii) : bool := between "a" "z" c.

(** [c.isascii() and c.isalpha()]. *)
Definition is_ascii_alpha (c : ascii) : bool := is_upper c || is_lower c.

(** [c.isascii()]. *)
Definition is_ascii (c : ascii) : bool := (N_of_ascii c <? 128)%N.

Definition lower_char (c : ascii) : ascii :=
  if is_upper c then ascii_of_N (N_of_ascii c + 32) else c.

(** [s.lower()] on ASCII letters. *)
Fixpoint lower (s : string) : string :=
  match s with
  | EmptyString => EmptyString
  | String a r => String (lower_char a) (lower r)
  end.

(** [sep.join(l)]. *)
Definition join (sep : string) (l : list string) : string :=
  String.concat sep l.

(** [sub in s] for strings. *)
Fixpoint has_substring (sub s : string) : bool :=
  startswith sub s ||
  match s with
  | EmptyString => false
  | String _ r => has_substring sub r
  end.

End PyStr.

(** ** [urllib.parse]: [urlsplit], [_splitparams] and [urlparse] *)

Module Urllib.

Import PyStr.

Definition scheme_chars : string :=
  "abcdefghijklmnopqrstuvwxyzABCDEFGHIJKLMNOPQRSTUVWXYZ0123456789+-.".

Definition uses_params : list string :=
  [""; "ftp"; "hdl"; "prospero"; "http"; "imap"; "https"; "shttp"; "rtsp";
   "rtspu"; "sip"; "sips"; "mms"; "sftp"; "tel"].

(** The characters 0x00..0x20. *)
Definition is_c0_control_or_space (c : ascii) : bool :=
  (N_of_ascii c <=? 32)%N.

Fixpoint lstrip_c0 (s : string) : string :=
  match s with
  | EmptyString => EmptyString
  | String a r => if is_c0_control_or_space a then lstrip_c0 r else s
  end.

Definition TAB : ascii := ascii_of_N 9.
Definition LF : ascii := ascii_of_N 10.
Definition CR : ascii := ascii_of_N 13.

(** [for b in _UNSAFE_URL_BYTES_TO_REMOVE: url = url.replace(b, "")]. *)
Definition remove_unsafe (url : string) : string :=
  replace LF "" (replace CR "" (replace TAB "" url)).

Record SplitResult : Type := mkSplit {
  sr_scheme : string;
  sr_netloc : string;
  sr_path : string;
  sr_query : string;
  sr_fragment : string
}.

Record ParseResult : Type := mkParse {
  scheme : string;
  netloc : string;
  path : string;
  params : string;
  query : string;
  fragment : string
}.

(** The scheme step of [urlsplit]: with [i = url.find(':')], when
    [i > 0], the first character is an ASCII letter and every character
    of [url[:i]] is in [scheme_chars], the scheme is [url[:i].lower()]
    and the rest is [url[i+1:]]. *)
Definition split_scheme (url : string) : string * string :=
  match find ":" url, url with
  | Some (S i'), String c0 _ =>
      if is_ascii_alpha c0 && all (fun c => contains c scheme_chars) (take (S i') url)
      then (lower (take (S i') url), drop (S (S i')) url)
      else (EmptyString, url)
  | _, _ => (EmptyString, url)
  end.

Definition is_netloc_delim (c : ascii) : bool :=
  Ascii.eqb c "/" || Ascii.eqb c "?" || Ascii.eqb c "#".

(** The position of the earliest of '/', '?', '#' in [s], or [len(s)]. *)
Fixpoint delim_pos (s : string) : nat :=
  match s with
  | EmptyString => O
  | String a r => if is_netloc_delim a then O else S (delim_pos r)
  end.

(** [_splitnetloc(url, start)]: [(url[start:delim], url[delim:])] with
    [delim] the earliest position at or after [start] of one of '/',
    '?', '#', or the length of [url]. *)
Definition splitnetloc (url : string) (start : nat) : string * string :=
  let tail := drop start url in
  let d := delim_pos tail in
  (take d tail, drop d tail).

(** [_splitparams(url)]. When [url] has a slash, [rfind] finds it; when
    it has none and no ';' either, [i] is [-1] and the result is
    [(url[:-1], url[0:])]. *)
Definition splitparams (url : string) : string * string :=
  if contains "/" url then
    match rfind "/" url with
    | Some k =>
        match find_from ";" k url with
        | Some i => (take i url, drop (S i) url)
        | None => (url, EmptyString)
        end
    | None => (url, EmptyString)
    end
  else
    match find ";" url with
    | Some i => (take i url, drop (S i) url)
    | None => (take (String.length url - 1) url, url)
    end.

Section Checks.

(** The two validations of the authority whose outcome depends on the
    Python version and on Unicode tables: [_check_bracketed_netloc]
    (called when the authority has both '[' and ']') and the NFKC part of
    [_checknetloc] (reached when the authority is not ASCII). *)
Variable check_bracketed_netloc : string -> result unit.
Variable checknetloc_nfkc : string -> result unit.

(** [_checknetloc(netloc)]. *)
Definition checknetloc (netloc : string) : result unit :=
  if (String.eqb netloc "" || all is_ascii netloc)%bool then Ok tt
  else checknetloc_nfkc netloc.

(** [urlsplit(url)] with the defaults [scheme=''] and
    [allow_fragments=True]. *)
Definition urlsplit (url : string) : result SplitResult :=
  let url := lstrip_c0 url in
  let url := remove_unsafe url in
  let '(scheme, url) := split_scheme url in
  '(netloc, url) <-
    (if startswith "//" url then
       let '(netloc, url) := splitnetloc url 2 in
       if (contains "[" netloc && negb (contains "]" netloc))
          || (contains "]" netloc && negb (contains "[" netloc))
       then Raise (ValueError "Invalid IPv6 URL")
       else
         _ <- (if contains "[" netloc && contains "]" netloc
               then check_bracketed_netloc netloc else Ok tt) ;;
         Ok (netloc, url)
     else Ok (EmptyString, url)) ;;
  let '(url, fragment) :=
    if contains "#" url then split_once "#" url else (url, EmptyString) in
  let '(url, query) :=
    if contains "?" url then split_once "?" url else (url, EmptyString) in
  _ <- checknetloc netloc ;;
  Ok (mkSplit scheme netloc url query fragment).

(** [urlparse(url)]. *)
Definition urlparse (url : string) : result ParseResult :=
  sr <- urlsplit url ;;
  let '(url', params) :=
    if existsb (String.eqb (sr_scheme sr)) uses_params && contains ";" (sr_path sr)
    then splitparams (sr_path sr)
    else (sr_path sr, EmptyString) in
  Ok (mkParse (sr_scheme sr) (sr_netloc sr) url' params
              (sr_query sr) (sr_fragment sr)).

(** The fragment step and the query step of [urlsplit], on the path
    alone. *)
Definition cut (c : ascii) (url : string) : string :=
  fst (if contains c url then split_once c url else (url, "")).

(** What [urlsplit] does once the scheme and the two slashes are read:
    [r] is the text after them. *)
Definition after_slashes (sch r : string) : result SplitResult :=
  let '(netloc, url) := splitnetloc (String "/" (String "/" r)) 2 in
  '(netloc, url) <-
    (if (contains "[" netloc && negb (contains "]" netloc))
        || (contains "]" netloc && negb (contains "[" netloc))
     then Raise (ValueError "Invalid IPv6 URL")
     else
       _ <- (if contains "[" netloc && contains "]" netloc
             then check_bracketed_netloc netloc else Ok tt) ;;
       Ok (netloc, url)) ;;
  let '(url, fragment) :=
    if contains "#" url then split_once "#" url else (url, "") in
  let '(url, query) :=
    if contains "?" url then split_once "?" url else (url, "") in
  _ <- checknetloc netloc ;;
  Ok (mkSplit sch netloc url query fragment).

End Checks.

End Urllib.

(** ** Dates and times

    A [date] is represented by its proleptic Gregorian ordinal
    ([date.toordinal()]): 1 is 0001-01-01 and [MAXORDINAL] is
    9999-12-31. *)

Definition date : Type := Z.
Bind Scope Z_scope with date.

Definition MAXORDINAL : Z := 3652059.

Record time : Type := mkTime {
  hour : Z;
  minute : Z;
  second : Z;
  microsecond : Z
}.

Inductive tzinfo : Type :=
| FixedOffset (seconds : Z)
| NamedZone (key : string).

Record datetime : Type := mkDatetime {
  dt_date : date;
  dt_time : time;
  dt_tzinfo : option tzinfo
}.

(** [datetime.min.time()]. *)
Definition min_time : time := mkTime 0 0 0 0.

(** [datetime.combine(d, t)] for a naive [t]. *)
Definition combine (d : date) (t : time) : datetime := mkDatetime d t None.

(** [dt + timedelta(days=n)]. *)
Definition add_days (dt : datetime) (n : Z) : result datetime :=
  let d := (dt_date dt + n)%Z in
  if ((0 <? d) && (d <=? MAXORDINAL))%Z
  then Ok (mkDatetime d (dt_time dt) (dt_tzinfo dt))
  else Raise (OverflowError "date value out of range").

(** ** iCalendar components *)

(** The [.dt] of a date-valued property: a [datetime], a [date], or a
    value of another type (a duration, a period), of which the name of
    the type is kept, as [datetime.combine] prints it in its error
    ("datetime.timedelta", "tuple"). *)
Inductive dt_value : Type :=
| DtDateTime (dt : datetime)
| DtDate (d : date)
| DtOther (type_name : string).

(** A component as [ical.walk()] yields it, with the properties the code
    reads; a field is [None] when [component.get(key)] is. *)
Module Component.
Record t : Type := mk {
  name : string;
  uid : option string;
  summary : option string;
  dtstart : option dt_value;
  dtend : option dt_value;
  description : option string;
  location : option string
}.
End Component.

(** ** The data classes of [client.py] *)

Module CalendarInfo.
Record t : Type := mk {
  name : string;
  url : string;
  account_name : string
}.
End CalendarInfo.

Module EventInfo.
Record t : Type := mk {
  uid : string;
  summary : string;
  start : datetime;
  end_ : datetime;
  calendar_url : string;
  description : option string;
  location : option string
}.
End EventInfo.

(** ** Objects of the [caldav] library *)

Record DAVClient : Type := mkClient {
  client_url : string;
  client_username : string;
  client_password : string
}.

Record Principal : Type := mkPrincipal {
  principal_client : DAVClient
}.

(** The object that [client.calendar(url=u)] returns, when it returns,
    is [mkCalendar client u]: the object is determined by the client and
    by the argument. *)
Record Calendar : Type := mkCalendar {
  calendar_client : DAVClient;
  calendar_url : string
}.

(** A calendar object resource. [ical] is the outcome of
    [Calendar.from_ical(event.data)] followed by [walk()]: the
    components in walk order, or the exception of the decoder. *)
Record Event : Type := mkEvent {
  event_url : string;
  ical : result (list Component.t)
}.

(** The event that [create_event] serialises and saves. *)
Record NewEvent : Type := mkNewEvent {
  new_uid : string;
  new_summary : string;
  new_dtstart : datetime;
  new_dtend : datetime;
  new_description : option string;
  new_location : option string;
  new_dtstamp : datetime
}.

(** ** The platform and the effects *)

Record Platform : Type := mkPlatform {
  (* urllib.parse *)
  check_bracketed_netloc : string -> result unit;
  checknetloc_nfkc : string -> result unit;
  (* datetime *)
  fromisoformat : string -> result datetime;
  isoformat : datetime -> string;
  now : datetime;
  (* uuid *)
  uuid4 : string;
  (* the caldav library: [client.url.join(u)], which the constructor
     of a calendar object evaluates; it raises ValueError when [u] names
     another scheme, host or port than the client's URL *)
  join_url : DAVClient -> string -> result unit;
  (* the CalDAV server, through the caldav library *)
  date_search : Calendar -> datetime -> datetime -> result (list Event);
  events : Calendar -> result (list Event);
  delete : Event -> result unit;
  save_event : Calendar -> NewEvent -> result unit
}.

Inductive level : Type := INFO | WARNING | ERROR.

Inductive effect : Type :=
| Log (lvl : level) (msg : string)
| DateSearch (cal : Calendar) (start end_ : datetime)
| Events (cal : Calendar)
| Delete (ev : Event)
| SaveEvent (cal : Calendar) (ev : NewEvent).

(** A computation: the effects it performed, in order, and its outcome. *)
Definition M (A : Type) : Type := (list effect * result A)%type.

Definition ret {A : Type} (a : A) : M A := ([], Ok a).
Definition raise {A : Type} (e : exn) : M A := ([], Raise e).
Definition lift {A : Type} (r : result A) : M A := ([], r).
Definition perform {A : Type} (ef : effect) (r : result A) : M A := ([ef], r).
Definition log (lvl : level) (msg : string) : M unit := ([Log lvl msg], Ok tt).

Definition mbind {A B : Type} (m : M A) (k : A -> M B) : M B :=
  match m with
  | (t, Ok a) => let '(t', r) := k a in ((t ++ t')%list, r)
  | (t, Raise e) => (t, Raise e)
  end.

(** [try: m  except Exception as e: h e]. *)
Definition try_except {A : Type} (m : M A) (h : exn -> M A) : M A :=
  match m with
  | (t, Raise e) => let '(t', r) := h e in ((t ++ t')%list, r)
  | (t, Ok a) => (t, Ok a)
  end.

Notation "x <~ m ;; k" := (mbind m (fun x => k))
  (at level 61, m at next level, right associativity).
Notation "m ;;; k" := (mbind m (fun _ => k))
  (at level 61, right associativity).

(** Python truthiness of a [str]. *)
Definition truthy (s : string) : bool := negb (String.eqb s "").

(** Truthiness of an optional [str]: [None] and [""] are false. *)
Definition truthy_opt (o : option string) : bool :=
  match o with
  | Some s => truthy s
  | None => false
  end.

(** ** [class CalDAVAccount] *)

Module CalDAVAccount.

Record t : Type := mk {
  name : string;
  base_url : string;
  username : string;
  password : string;
  client : option DAVClient;
  principal : option Principal;
  calendars : list CalendarInfo.t
}.

Section Methods.

Variable py : Platform.

(** [_normalize_url(url)]. *)
Definition _normalize_url (url : string) : result string :=
  if PyStr.startswith "http://" url || PyStr.startswith "https://" url then
    parsed <- Urllib.urlparse (check_bracketed_netloc py) (checknetloc_nfkc py) url ;;
    Ok (Urllib.path parsed)
  else Ok url.

(** [client.calendar(url=u)]. *)
Definition client_calendar (c : DAVClient) (u : string) : result Calendar :=
  _ <- join_url py c u ;;
  Ok (mkCalendar c u).

(** The loop of [get_calendar_by_url]. *)
Fixpoint find_calendar (c : DAVClient) (normalized_url : string)
    (cals : list CalendarInfo.t) : result (option Calendar) :=
  match cals with
  | [] => Ok None
  | cal_info :: rest =>
      n <- _normalize_url (CalendarInfo.url cal_info) ;;
      if String.eqb n normalized_url
      then calendar <- client_calendar c (CalendarInfo.url cal_info) ;;
           Ok (Some calendar)
      else find_calendar c normalized_url rest
  end.

(** [get_calendar_by_url(self, url)]. The handles of the caldav library
    are plain objects, so [not self.client] holds only for [None]; the
    same goes for the calendar that the callers test with
    [if not calendar]. *)
Definition get_calendar_by_url (self : t) (url : string) : M (option Calendar) :=
  match client self, principal self with
  | Some c, Some _ =>
      try_except
        (lift (normalized_url <- _normalize_url url ;;
               find_calendar c normalized_url (calendars self)))
        (fun e =>
           log ERROR ("Error getting calendar by URL " ++ url ++ ": " ++ exn_str e) ;;;
           ret None)
  | _, _ => ret None
  end.

(** [component.get(key, "")] followed by [str]. *)
Definition str_or_empty (o : option string) : string :=
  match o with
  | Some s => s
  | None => ""
  end.

(** [component.get(key).dt]. *)
Definition get_dt (o : option dt_value) : result dt_value :=
  match o with
  | Some v => Ok v
  | None => Raise (AttributeError "'NoneType' object has no attribute 'dt'")
  end.

(** Lines 169-178: a [datetime] is kept, a [date] is combined with
    midnight. *)
Definition as_datetime (v : dt_value) : result datetime :=
  match v with
  | DtDateTime dt => Ok dt
  | DtDate d => Ok (combine d min_time)
  | DtOther type_name =>
      Raise (TypeError ("combine() argument 1 must be datetime.date, not "
                        ++ type_name))
  end.

(** [str(x) if x else None]. *)
Definition str_if_truthy (o : option string) : option string :=
  if truthy_opt o then o else None.

(** The body of [if component.name == "VEVENT":] in [list_events]. *)
Definition event_info (calendar_url : string) (component : Component.t)
  : result EventInfo.t :=
  let uid := str_or_empty (Component.uid component) in
  let summary := str_or_empty (Component.summary component) in
  event_start <- get_dt (Component.dtstart component) ;;
  event_end <- get_dt (Component.dtend component) ;;
  let description := Component.description component in
  let location := Component.location component in
  start_dt <- as_datetime event_start ;;
  end_dt <- as_datetime event_end ;;
  Ok (EventInfo.mk uid summary start_dt end_dt calendar_url
        (str_if_truthy description) (str_if_truthy location)).

Definition is_vevent (component : Component.t) : bool :=
  String.eqb (Component.name component) "VEVENT".

(** [for component in ical.walk():] of [list_events]. [acc] is the list
    [result] of the source, which keeps what was appended when an
    exception leaves the loop. *)
Fixpoint walk_components (calendar_url : string) (comps : list Component.t)
    (acc : list EventInfo.t) : list EventInfo.t * result unit :=
  match comps with
  | [] => (acc, Ok tt)
  | component :: rest =>
      if is_vevent component then
        match event_info calendar_url component with
        | Ok info => walk_components calendar_url rest (acc ++ [info])
        | Raise e => (acc, Raise e)
        end
      else walk_components calendar_url rest acc
  end.

(** The body of the inner [try] of [list_events] for one [event]. *)
Definition parse_event (calendar_url : string) (event : Event)
    (acc : list EventInfo.t) : list EventInfo.t * result unit :=
  match ical event with
  | Ok comps => walk_components calendar_url comps acc
  | Raise e => (acc, Raise e)
  end.

(** [for event in events:] of [list_events]. *)
Fixpoint list_events_loop (calendar_url : string) (evs : list Event)
    (acc : list EventInfo.t) : M (list EventInfo.t) :=
  match evs with
  | [] => ret acc
  | event :: rest =>
      match parse_event calendar_url event acc with
      | (acc', Ok _) => list_events_loop calendar_url rest acc'
      | (acc', Raise e) =>
          log WARNING ("Failed to parse event: " ++ exn_str e) ;;;
          list_events_loop calendar_url rest acc'
      end
  end.

(** The outer [try] of [list_events], entered once the calendar is
    found. *)
Definition list_events_in (calendar : Calendar) (calendar_url : string)
    (start end_ : datetime) : M (list EventInfo.t) :=
  try_except
    (evs <~ perform (DateSearch calendar start end_)
                    (date_search py calendar start end_) ;;
     list_events_loop calendar_url evs [])
    (fun e => log ERROR ("Failed to list events: " ++ exn_str e) ;;; raise e).

(** [list_events(self, calendar_url, start, end)]. *)
Definition list_events (self : t) (calendar_url : string)
    (start end_ : datetime) : M (list EventInfo.t) :=
  calendar <~ get_calendar_by_url self calendar_url ;;
  match calendar with
  | None => raise (ValueError ("Calendar not found: " ++ calendar_url))
  | Some calendar => list_events_in calendar calendar_url start end_
  end.

(** The outer [try] of [create_event]. *)
Definition create_event_in (calendar : Calendar) (calendar_url summary : string)
    (start end_ : datetime) (description location : option string) : M string :=
  try_except
    (let uid := uuid4 py in
     let event :=
       mkNewEvent uid summary start end_
         (if truthy_opt description then description else None)
         (if truthy_opt location then location else None)
         (now py) in
     perform (SaveEvent calendar event) (save_event py calendar event) ;;;
     log INFO ("Created event " ++ uid ++ " in calendar " ++ calendar_url) ;;;
     ret uid)
    (fun e => log ERROR ("Failed to create event: " ++ exn_str e) ;;; raise e).

(** [create_event(self, calendar_url, summary, start, end, description,
    location)]. *)
Definition create_event (self : t) (calendar_url summary : string)
    (start end_ : datetime) (description location : option string) : M string :=
  calendar <~ get_calendar_by_url self calendar_url ;;
  match calendar with
  | None => raise (ValueError ("Calendar not found: " ++ calendar_url))
  | Some calendar =>
      create_event_in calendar calendar_url summary start end_ description location
  end.

(** A VEVENT whose [str(component.get("uid", ""))] is [uid]. *)
Definition has_uid (uid : string) (component : Component.t) : bool :=
  is_vevent component && String.eqb (str_or_empty (Component.uid component)) uid.

(** The body of the inner [try] of [delete_event] for one [event]:
    [true] when it deleted the event and returned from the function. *)
Definition delete_if_match (calendar_url uid : string) (event : Event) : M bool :=
  comps <~ lift (ical event) ;;
  if existsb (has_uid uid) comps then
    perform (Delete event) (delete py event) ;;;
    log INFO ("Deleted event " ++ uid ++ " from calendar " ++ calendar_url) ;;;
    ret true
  else ret false.

(** [for event in events:] of [delete_event], with the [raise] that
    follows the loop. *)
Fixpoint delete_event_loop (calendar_url uid : string) (evs : list Event)
  : M unit :=
  match evs with
  | [] => raise (ValueError ("Event with UID " ++ uid ++ " not found in calendar"))
  | event :: rest =>
      returned <~
        try_except (delete_if_match calendar_url uid event)
          (fun e =>
             log WARNING ("Failed to parse event during deletion: " ++ exn_str e) ;;;
             ret false) ;;
      if returned then ret tt
      else delete_event_loop calendar_url uid rest
  end.

(** The outer [try] of [delete_event]. *)
Definition delete_event_in (calendar : Calendar) (calendar_url uid : string)
  : M unit :=
  try_except
    (evs <~ perform (Events calendar) (events py calendar) ;;
     delete_event_loop calendar_url uid evs)
    (fun e => log ERROR ("Failed to delete event: " ++ exn_str e) ;;; raise e).

(** [delete_event(self, calendar_url, uid)]. *)
Definition delete_event (self : t) (calendar_url uid : string) : M unit :=
  calendar <~ get_calendar_by_url self calendar_url ;;
  match calendar with
  | None => raise (ValueError ("Calendar not found: " ++ calendar_url))
  | Some calendar => delete_event_in calendar calendar_url uid
  end.

End Methods.

End CalDAVAccount.

(** ** [tools/events.py] *)

Section Tools.

Variable py : Platform.

(** The inner loop of [find_account_for_calendar]: does a calendar of
    the account normalise to [normalized_url]? *)
Fixpoint has_calendar (normalized_url : string) (cals : list CalendarInfo.t)
  : result bool :=
  match cals with
  | [] => Ok false
  | calendar :: rest =>
      n <- CalDAVAccount._normalize_url py (CalendarInfo.url calendar) ;;
      if String.eqb n normalized_url then Ok true
      else has_calendar normalized_url rest
  end.

(** The outer loop of [find_account_for_calendar]. *)
Fixpoint find_account_loop (normalized_url : string)
    (accounts : list CalDAVAccount.t) : result (option CalDAVAccount.t) :=
  match accounts with
  | [] => Ok None
  | account :: rest =>
      found <- has_calendar normalized_url (CalDAVAccount.calendars account) ;;
      if found then Ok (Some account)
      else find_account_loop normalized_url rest
  end.

(** [find_account_for_calendar(accounts, calendar_url)]. The call of
    [_normalize_url] on the input comes before the loops and is not
    inside a [try]. *)
Definition find_account_for_calendar (accounts : list CalDAVAccount.t)
    (calendar_url : string) : result (option CalDAVAccount.t) :=
  normalized_url <- CalDAVAccount._normalize_url py calendar_url ;;
  find_account_loop normalized_url accounts.

(** [datetime.fromisoformat(s.replace("Z", "+00:00"))], the expression
    that parses every date argument of the tools (lines 58, 60, 113 and
    114). *)
Definition parse_date (s : string) : result datetime :=
  fromisoformat py (PyStr.replace "Z" "+00:00" s).

(** [c.url for a in accounts for c in a.calendars]. *)
Definition available_urls (accounts : list CalDAVAccount.t) : list string :=
  flat_map (fun a => map CalendarInfo.url (CalDAVAccount.calendars a)) accounts.

(** The dict that [list_events_tool] builds for one event. *)
Record EventDict : Type := mkEventDict {
  d_uid : string;
  d_summary : string;
  d_start : string;
  d_end : string;
  d_description : option string;
  d_location : option string
}.

Definition to_dict (event : EventInfo.t) : EventDict :=
  mkEventDict (EventInfo.uid event) (EventInfo.summary event)
    (isoformat py (EventInfo.start event))
    (isoformat py (EventInfo.end_ event))
    (EventInfo.description event) (EventInfo.location event).

(** [list_events_tool(accounts, calendar_url, start, end)]. *)
Definition list_events_tool (accounts : list CalDAVAccount.t)
    (calendar_url start : string) (end_ : option string) : M (list EventDict) :=
  account <~ lift (find_account_for_calendar accounts calendar_url) ;;
  match account with
  | None =>
      raise (ValueError
        ("No account found for calendar URL: " ++ calendar_url ++ ". "
         ++ "Available URLs: " ++ PyStr.join ", " (available_urls accounts)))
  | Some account =>
      start_dt <~ lift (parse_date start) ;;
      end_dt <~ lift (match end_ with
                      | Some e => if truthy e then parse_date e
                                  else add_days start_dt 30
                      | None => add_days start_dt 30
                      end) ;;
      evs <~ CalDAVAccount.list_events py account calendar_url start_dt end_dt ;;
      ret (map to_dict evs)
  end.

(** [create_event_tool(accounts, calendar_url, summary, start, end,
    description, location)]. *)
Definition create_event_tool (accounts : list CalDAVAccount.t)
    (calendar_url summary start end_ : string)
    (description location : option string) : M string :=
  account <~ lift (find_account_for_calendar accounts calendar_url) ;;
  match account with
  | None =>
      raise (ValueError ("No account found for calendar URL: " ++ calendar_url))
  | Some account =>
      start_dt <~ lift (parse_date start) ;;
      end_dt <~ lift (parse_date end_) ;;
      CalDAVAccount.create_event py account calendar_url summary
        start_dt end_dt description location
  end.

(** [delete_event_tool(accounts, calendar_url, uid)]. *)
Definition delete_event_tool (accounts : list CalDAVAccount.t)
    (calendar_url uid : string) : M string :=
  account <~ lift (find_account_for_calendar accounts calendar_url) ;;
  match account with
  | None =>
      raise (ValueError ("No account found for calendar URL: " ++ calendar_url))
  | Some account =>
      CalDAVAccount.delete_event py account calendar_url uid ;;;
      ret ("Event " ++ uid ++ " deleted successfully")
  end.

End Tools.

(** ** Sample values

    A platform whose date parser is a table of values of
    [datetime.fromisoformat], two accounts whose calendars normalise to
    the same path, and a calendar with four object resources. *)

Definition sample_fromisoformat (s : string) : result datetime :=
  if String.eqb s "2025-11-27T09:00:00" then
    Ok (mkDatetime 739582 (mkTime 9 0 0 0) None)
  else if String.eqb s "2025-11-27T00:00:00+00:00" then
    Ok (mkDatetime 739582 (mkTime 0 0 0 0) (Some (FixedOffset 0)))
  else if String.eqb s "2025-11-27Z10:00:00" then
    Ok (mkDatetime 739582 (mkTime 10 0 0 0) None)
  else if String.eqb s "2025-11-27" then
    Ok (mkDatetime 739582 (mkTime 0 0 0 0) None)
  else Raise (ValueError ("Invalid isoformat string: '" ++ s ++ "'")).

Definition work_component : Component.t :=
  Component.mk "VEVENT" (Some "uid-standup") (Some "Standup")
    (Some (DtDateTime (mkDatetime 739582 (mkTime 9 0 0 0) None)))
    (Some (DtDateTime (mkDatetime 739582 (mkTime 9 15 0 0) None)))
    None (Some "Room 1").

Definition allday_component : Component.t :=
  Component.mk "VEVENT" (Some "uid-holiday") (Some "Holiday")
    (Some (DtDate 739586)) (Some (DtDate 739587)) (Some "") None.

Definition vcalendar_component : Component.t :=
  Component.mk "VCALENDAR" None None None None None None.

Definition vtodo_component : Component.t :=
  Component.mk "VTODO" (Some "uid-todo") (Some "Buy milk") None None None None.

Definition standup_event : Event :=
  mkEvent "/cal/work/standup.ics" (Ok [vcalendar_component; work_component]).

Definition holiday_event : Event :=
  mkEvent "/cal/work/holiday.ics" (Ok [vcalendar_component; allday_component]).

Definition todo_event : Event :=
  mkEvent "/cal/work/todo.ics" (Ok [vcalendar_component; vtodo_component]).

Definition broken_event : Event :=
  mkEvent "/cal/work/broken.ics"
    (Raise (ValueError "Expected BEGIN:VCALENDAR")).

(** A VEVENT without DTEND, which RFC 5545 allows. *)
Definition open_ended_component : Component.t :=
  Component.mk "VEVENT" (Some "uid-open") (Some "Open house")
    (Some (DtDateTime (mkDatetime 739583 (mkTime 14 0 0 0) None)))
    None None None.

(** A calendar object with three VEVENTs, the second without DTEND. *)
Definition series_event : Event :=
  mkEvent "/cal/work/series.ics"
    (Ok [vcalendar_component; work_component; open_ended_component;
         allday_component]).

(** A copy of the stand-up under another name, with the same UID. *)
Definition standup_copy_event : Event :=
  mkEvent "/cal/work/standup-copy.ics" (Ok [vcalendar_component; work_component]).

Definition sample_events : list Event :=
  [broken_event; holiday_event; todo_event; standup_event].

(** The answers of [client.url.join] on the sample URLs: a relative URL
    joins with any client, and an absolute one joins with the sample
    clients, whose URLs are of the form "https://host/", when it starts
    with the client's URL. *)
Definition sample_join_url (c : DAVClient) (u : string) : result unit :=
  if PyStr.startswith "http://" u || PyStr.startswith "https://" u then
    if PyStr.startswith (client_url c) u then Ok tt
    else Raise (ValueError (client_url c ++ " can't be joined with " ++ u))
  else Ok tt.

Definition sample_py : Platform :=
  mkPlatform (fun _ => Ok tt) (fun _ => Ok tt)
    sample_fromisoformat (fun _ => "")
    (mkDatetime 739582 (mkTime 12 0 0 0) None)
    "1b4e28ba-2fa1-41d2-883f-0016d3cca427"
    sample_join_url
    (fun _ _ _ => Ok sample_events) (fun _ => Ok sample_events)
    (fun _ => Ok tt) (fun _ _ => Ok tt).

Definition work_client : DAVClient :=
  mkClient "https://dav.example.org/" "alice" "secret".

Definition work_account : CalDAVAccount.t :=
  CalDAVAccount.mk "Work" "https://dav.example.org/" "alice" "secret"
    (Some work_client) (Some (mkPrincipal work_client))
    [CalendarInfo.mk "Personal" "https://dav.example.org/cal/personal/" "Work";
     CalendarInfo.mk "Work" "https://dav.example.org/cal/work/" "Work"].

Definition home_client : DAVClient :=
  mkClient "https://home.example.net/" "bob" "secret".

Definition home_account : CalDAVAccount.t :=
  CalDAVAccount.mk "Home" "https://home.example.net/" "bob" "secret"
    (Some home_client) (Some (mkPrincipal home_client))
    [CalendarInfo.mk "Shared" "/cal/work/" "Home"].


Definition work_calendar : Calendar :=
  mkCalendar work_client "https://dav.example.org/cal/work/".

Definition nov27 : datetime := mkDatetime 739582 (mkTime 0 0 0 0) None.
Definition dec27 : datetime := mkDatetime 739612 (mkTime 0 0 0 0) None.

Definition holiday_record : EventInfo.t :=
  EventInfo.mk "uid-holiday" "Holiday"
    (mkDatetime 739586 (mkTime 0 0 0 0) None)
    (mkDatetime 739587 (mkTime 0 0 0 0) None)
    "/cal/work/" None None.

Definition standup_record : EventInfo.t :=
  EventInfo.mk "uid-standup" "Standup"
    (mkDatetime 739582 (mkTime 9 0 0 0) None)
    (mkDatetime 739582 (mkTime 9 15 0 0) None)
    "/cal/work/" None (Some "Room 1").

(** ** Shapes used in the statements *)

(** A path as [urlparse] returns it for a URL with an authority: empty,
    or starting with a slash. *)
Definition pathlike (s : string) : Prop :=
  s = "" \/ exists r, s = String "/" r.

(** What follows the authority: nothing, or a text starting with '/',
    '?' or '#'. *)
Definition restlike (s : string) : Prop :=
  s = "" \/ exists c r, s = String c r /\ Urllib.is_netloc_delim c = true.

(** No character of [s] is one of [chars]. *)
Definition free_of (chars s : string) : bool :=
  PyStr.all (fun c => negb (PyStr.contains c chars)) s.

(** An absolute URL after its scheme and "//", cut into the authority,
    the path up to and including its last slash, the last segment
    without its parameters, the parameters of the last segment (with
    their ';') and the query and fragment (with their '?' or '#'). *)
Record url_parts : Type := mkParts {
  u_netloc : string;
  u_dirs : string;
  u_leaf : string;
  u_params : string;
  u_tail : string
}.

Definition u_path (p : url_parts) : string := u_dirs p ++ u_leaf p.

Definition unparse (p : url_parts) : string :=
  u_netloc p ++ u_path p ++ u_params p ++ u_tail p.

Definition well_formed (p : url_parts) : bool :=
  free_of "/?#" (u_netloc p)
  && (if String.eqb (u_dirs p) ""
      then String.eqb (u_leaf p) "" && String.eqb (u_params p) ""
      else PyStr.startswith "/" (u_dirs p) && PyStr.endswith_char "/" (u_dirs p))
  && free_of "?#" (u_dirs p)
  && free_of "/?#;" (u_leaf p)
  && (String.eqb (u_params p) "" || PyStr.startswith ";" (u_params p))
  && free_of "/?#" (u_params p)
  && (String.eqb (u_tail p) "" || PyStr.startswith "?" (u_tail p)
      || PyStr.startswith "#" (u_tail p)).

(** The longest prefix of [s] without a character of [chars], and what
    follows it. *)
Fixpoint span (chars : string) (s : string) : string * string :=
  match s with
  | EmptyString => (EmptyString, EmptyString)
  | String a r =>
      if PyStr.contains a chars then (EmptyString, s)
      else let '(x, y) := span chars r in (String a x, y)
  end.

(** [s] cut after its last slash. *)
Fixpoint rsplit_slash (s : string) : string * string :=
  match s with
  | EmptyString => (EmptyString, EmptyString)
  | String a r =>
      let '(d, l) := rsplit_slash r in
      if PyStr.contains "/" r then (String a d, l)
      else if Ascii.eqb a "/" then (String a EmptyString, r)
      else (EmptyString, s)
  end.

(** The parts of the text that follows "scheme://". *)
Definition parts_of (s : string) : url_parts :=
  let '(netloc, rest) := span "/?#" s in
  let '(path, tail) := span "?#" rest in
  let '(dirs, segment) := rsplit_slash path in
  let '(leaf, prm) := span ";" segment in
  mkParts netloc dirs leaf prm tail.

(** The authority passes the validations of [urlsplit]. *)
Definition netloc_accepted (py : Platform) (netloc : string) : Prop :=
  PyStr.contains "[" netloc = PyStr.contains "]" netloc /\
  (PyStr.contains "[" netloc = true -> check_bracketed_netloc py netloc = Ok tt) /\
  Urllib.checknetloc (checknetloc_nfkc py) netloc = Ok tt.

(** The records that one calendar object contributes to a listing: what
    the inner [try] of [list_events] appends for it. *)
Definition records_of (calendar_url : string) (event : Event)
  : list EventInfo.t :=
  fst (CalDAVAccount.parse_event calendar_url event []).

(** The warning that the inner [try] of [list_events] logs for one
    calendar object, if any. *)
Definition parse_warning (calendar_url : string) (event : Event)
  : list effect :=
  match snd (CalDAVAccount.parse_event calendar_url event []) with
  | Ok _ => []
  | Raise e => [Log WARNING ("Failed to parse event: " ++ exn_str e)]
  end.

(** *** What a listing is asked to return

    The definitions below follow the words of the specification and do
    not use the functions of [list_events]. *)

(** Midnight of a day: 00:00:00, without a time zone. *)
Definition midnight (d : date) : datetime :=
  mkDatetime d (mkTime 0 0 0 0) None.

(** The timestamp of a start or end value: a value with a time is kept,
    a date without a time is that date at midnight. *)
Definition timestamp_of (v : dt_value) : option datetime :=
  match v with
  | DtDateTime dt => Some dt
  | DtDate d => Some (midnight d)
  | DtOther _ => None
  end.

Definition text_or_empty (o : option string) : string :=
  match o with
  | Some s => s
  | None => EmptyString
  end.

(** A text that is absent or empty counts as absent. *)
Definition nonempty_text (o : option string) : option string :=
  match o with
  | Some EmptyString => None
  | Some s => Some s
  | None => None
  end.

(** The VEVENT has a DTSTART and a DTEND, each a date or a
    date-time. *)
Definition fully_dated (c : Component.t) : bool :=
  match Component.dtstart c, Component.dtend c with
  | Some (DtDateTime _ | DtDate _), Some (DtDateTime _ | DtDate _) => true
  | _, _ => false
  end.

(** The dates of the VEVENT are as RFC 5545 allows them: DTSTART is a
    date or a date-time, and DTEND is absent or of the same type as
    DTSTART. *)
Definition rfc_dated (c : Component.t) : bool :=
  match Component.dtstart c, Component.dtend c with
  | Some (DtDateTime _), None | Some (DtDateTime _), Some (DtDateTime _) => true
  | Some (DtDate _), None | Some (DtDate _), Some (DtDate _) => true
  | _, _ => false
  end.

(** The record of a VEVENT that has both dates. *)
Definition spec_record (calendar_url : string) (c : Component.t)
  : option EventInfo.t :=
  match Component.dtstart c, Component.dtend c with
  | Some vs, Some ve =>
      match timestamp_of vs, timestamp_of ve with
      | Some s, Some e =>
          Some (EventInfo.mk (text_or_empty (Component.uid c))
                  (text_or_empty (Component.summary c)) s e calendar_url
                  (nonempty_text (Component.description c))
                  (nonempty_text (Component.location c)))
      | _, _ => None
      end
  | _, _ => None
  end.

(** The records of the VEVENTs of a decoded entry, in order, up to the
    first VEVENT that lacks a date. *)
Fixpoint leading_records (calendar_url : string) (comps : list Component.t)
  : list EventInfo.t :=
  match comps with
  | [] => []
  | c :: rest =>
      if String.eqb (Component.name c) "VEVENT" then
        match spec_record calendar_url c with
        | Some r => r :: leading_records calendar_url rest
        | None => []
        end
      else leading_records calendar_url rest
  end.

(** What an entry of the server's answer contributes to a listing. *)
Definition entry_records (calendar_url : string) (event : Event)
  : list EventInfo.t :=
  match ical event with
  | Ok comps => leading_records calendar_url comps
  | Raise _ => []
  end.

(** The entry decodes and each of its VEVENTs has both dates. *)
Definition entry_ok (event : Event) : bool :=
  match ical event with
  | Ok comps =>
      forallb (fun c => negb (String.eqb (Component.name c) "VEVENT")
                        || fully_dated c) comps
  | Raise _ => false
  end.

(** The warning of [list_events] for an entry that it skips. *)
Definition is_parse_warning (ef : effect) : bool :=
  match ef with
  | Log WARNING msg => PyStr.startswith "Failed to parse event: " msg
  | _ => false
  end.

(** The calendar object decodes and has a VEVENT with this UID. *)
Definition contains_uid (uid : string) (event : Event) : bool :=
  match ical event with
  | Ok comps => existsb (CalDAVAccount.has_uid uid) comps
  | Raise _ => false
  end.

(** The warning that the scan of [delete_event] logs for a calendar
    object that does not decode. *)
Definition deletion_warning (event : Event) : list effect :=
  match ical event with
  | Ok _ => []
  | Raise e =>
      [Log WARNING ("Failed to parse event during deletion: " ++ exn_str e)]
  end.

(** The calendar normalises to [nu]. *)
Definition matches (py : Platform) (nu : string) (c : CalendarInfo.t) : Prop :=
  CalDAVAccount._normalize_url py (CalendarInfo.url c) = Ok nu.

(** The account has a calendar that normalises to [nu]. *)
Definition owns (py : Platform) (nu : string) (a : CalDAVAccount.t) : Prop :=
  exists c, In c (CalDAVAccount.calendars a) /\ matches py nu c.

(** The calendar normalises, to something other than [nu]. *)
Definition differs (py : Platform) (nu : string) (c : CalendarInfo.t) : Prop :=
  exists v, CalDAVAccount._normalize_url py (CalendarInfo.url c) = Ok v /\ v <> nu.

(** The scan of the account's calendars finds a match: a calendar
    normalises to [nu], and those before it normalise to something
    else. *)
Definition scan_finds (py : Platform) (nu : string) (a : CalDAVAccount.t) : Prop :=
  exists before c after,
    CalDAVAccount.calendars a = (before ++ c :: after)%list /\
    Forall (differs py nu) before /\ matches py nu c.

(** The scan of the account's calendars ends without a match. *)
Definition scan_passes (py : Platform) (nu : string) (a : CalDAVAccount.t) : Prop :=
  Forall (differs py nu) (CalDAVAccount.calendars a).

(** Normalisation returns on every cached calendar URL. *)
Definition normalizable (py : Platform) (accounts : list CalDAVAccount.t) : Prop :=
  forall a c, In a accounts -> In c (CalDAVAccount.calendars a) ->
    exists v, CalDAVAccount._normalize_url py (CalendarInfo.url c) = Ok v.

(** The account is connected: [connect] has set both handles. *)
Definition connected (a : CalDAVAccount.t) : Prop :=
  CalDAVAccount.client a <> None /\ CalDAVAccount.principal a <> None.

(** ** [tools/calendars.py] *)

(** The dict that [list_calendars_tool] builds for one calendar. *)
Record CalendarDict : Type := mkCalendarDict {
  c_account : string;
  c_name : string;
  c_url : string
}.

(** [list_calendars_tool(accounts)]: the two nested loops append one
    dict per cached calendar. *)
Definition list_calendars_tool (accounts : list CalDAVAccount.t)
  : list CalendarDict :=
  flat_map
    (fun account =>
       map (fun calendar =>
              mkCalendarDict (CalendarInfo.account_name calendar)
                (CalendarInfo.name calendar) (CalendarInfo.url calendar))
           (CalDAVAccount.calendars account))
    accounts.

(** ** [config.py] *)

Module CalDAVAccountConfig.
Record t : Type := mk {
  name : string;
  base_url : string;
  username : string;
  password : string
}.
End CalDAVAccountConfig.

(** [str(n)] of a natural number, as an f-string prints it. *)
Definition str_of_nat (n : nat) : string :=
  NilZero.string_of_uint (Nat.to_uint n).

Section Config.

(** [os.getenv(key)]: [None] when the variable is not set. *)
Variable getenv : string -> option string.

(** [os.getenv(key, default)]. *)
Definition getenv_or (key default : string) : string :=
  match getenv key with
  | Some v => v
  | None => default
  end.

(** [if base_url and username and password:] with the account that the
    branch builds. *)
Definition account_config (name : string)
    (base_url username password : option string)
  : option CalDAVAccountConfig.t :=
  match base_url, username, password with
  | Some b, Some u, Some p =>
      if truthy b && truthy u && truthy p
      then Some (CalDAVAccountConfig.mk name b u p)
      else None
  | _, _, _ => None
  end.

(** The body of [for i in range(1, 11):]: the account that the
    iteration appends, if any. *)
Definition numbered_account (i : nat) : option CalDAVAccountConfig.t :=
  let prefix := "CALDAV_" ++ str_of_nat i ++ "_" in
  let base_url := getenv (prefix ++ "BASE_URL") in
  let username := getenv (prefix ++ "USERNAME") in
  let password := getenv (prefix ++ "PASSWORD") in
  let name := getenv_or (prefix ++ "NAME") ("Account " ++ str_of_nat i) in
  account_config name base_url username password.

(** [for i in ...:] with the list [accounts] that it appends to. *)
Fixpoint numbered_loop (indices : list nat)
    (accounts : list CalDAVAccountConfig.t) : list CalDAVAccountConfig.t :=
  match indices with
  | [] => accounts
  | i :: rest =>
      numbered_loop rest
        (match numbered_account i with
         | Some config => accounts ++ [config]
         | None => accounts
         end)
  end.

(** The legacy single account of lines 61-74. *)
Definition legacy_account : option CalDAVAccountConfig.t :=
  let base_url := getenv "CALDAV_BASE_URL" in
  let username := getenv "CALDAV_USERNAME" in
  let password := getenv "CALDAV_PASSWORD" in
  let name := getenv_or "CALDAV_NAME" "Default" in
  account_config name base_url username password.

Definition no_accounts_message : string :=
  "No CalDAV accounts configured. Set CALDAV_1_BASE_URL, "
  ++ "CALDAV_1_USERNAME, CALDAV_1_PASSWORD, CALDAV_1_NAME environment variables.".

(** [Settings.parse_accounts()]. *)
Definition parse_accounts : result (list CalDAVAccountConfig.t) :=
  let accounts := numbered_loop (seq 1 10) [] in
  let accounts :=
    match accounts with
    | [] => match legacy_account with
            | Some config => [config]
            | None => []
            end
    | _ :: _ => accounts
    end in
  match accounts with
  | [] => Raise (ValueError no_accounts_message)
  | _ :: _ => Ok accounts
  end.

End Config.

(** ** [CalDAVAccount.__init__] and [CalDAVAccount.connect] *)

(** A calendar as [principal.calendars()] yields it: [cal.name] and
    [str(cal.url)]. *)
Record RemoteCalendar : Type := mkRemote {
  remote_name : option string;
  remote_url : string
}.

(** What the process finds around it at startup: the environment, the
    outcome of building [Settings()], the outcome of the constructor
    [caldav.DAVClient(url=..., username=..., password=...)], which
    parses the URL and may raise, and the answers of the CalDAV servers
    to [client.principal()] and [principal.calendars()]. The client that
    the constructor returns, when it returns, is [mkClient] of its
    arguments. *)
Record Host : Type := mkHost {
  host_getenv : string -> option string;
  settings_init : result unit;
  dav_client : DAVClient -> result unit;
  dav_principal : DAVClient -> result Principal;
  dav_calendars : Principal -> result (list RemoteCalendar)
}.

(** [CalDAVAccount(config)]. *)
Definition new_account (config : CalDAVAccountConfig.t) : CalDAVAccount.t :=
  CalDAVAccount.mk (CalDAVAccountConfig.name config)
    (CalDAVAccountConfig.base_url config)
    (CalDAVAccountConfig.username config)
    (CalDAVAccountConfig.password config)
    None None [].

(** [CalendarInfo(name=cal.name or "Unnamed Calendar", url=str(cal.url),
    account_name=self.name)]. *)
Definition calendar_info (account_name : string) (cal : RemoteCalendar)
  : CalendarInfo.t :=
  CalendarInfo.mk
    (match remote_name cal with
     | Some n => if truthy n then n else "Unnamed Calendar"
     | None => "Unnamed Calendar"
     end)
    (remote_url cal) account_name.

(** [self.client = c]. *)
Definition set_client (self : CalDAVAccount.t) (c : DAVClient) : CalDAVAccount.t :=
  CalDAVAccount.mk (CalDAVAccount.name self) (CalDAVAccount.base_url self)
    (CalDAVAccount.username self) (CalDAVAccount.password self)
    (Some c) (CalDAVAccount.principal self) (CalDAVAccount.calendars self).

(** [self.principal = p]. *)
Definition set_principal (self : CalDAVAccount.t) (p : Principal)
  : CalDAVAccount.t :=
  CalDAVAccount.mk (CalDAVAccount.name self) (CalDAVAccount.base_url self)
    (CalDAVAccount.username self) (CalDAVAccount.password self)
    (CalDAVAccount.client self) (Some p) (CalDAVAccount.calendars self).

(** [self.calendars = l]. *)
Definition set_calendars (self : CalDAVAccount.t) (l : list CalendarInfo.t)
  : CalDAVAccount.t :=
  CalDAVAccount.mk (CalDAVAccount.name self) (CalDAVAccount.base_url self)
    (CalDAVAccount.username self) (CalDAVAccount.password self)
    (CalDAVAccount.client self) (CalDAVAccount.principal self) l.

(** [connect(self)]: the account as the call leaves it, what the call
    logs, and its outcome. When the constructor of [caldav.DAVClient]
    raises, [self.client] is not assigned. *)
Definition connect (host : Host) (self : CalDAVAccount.t)
  : CalDAVAccount.t * M unit :=
  let name := CalDAVAccount.name self in
  let connecting :=
    Log INFO ("Connecting to CalDAV account: " ++ name ++ " ("
              ++ CalDAVAccount.base_url self ++ ")") in
  let failed (e : exn) :=
    Log ERROR ("Failed to connect to " ++ name ++ ": " ++ exn_str e) in
  let c := mkClient (CalDAVAccount.base_url self) (CalDAVAccount.username self)
             (CalDAVAccount.password self) in
  match dav_client host c with
  | Raise e => (self, ([connecting; failed e], Raise e))
  | Ok _ =>
      let self := set_client self c in
      match dav_principal host c with
      | Raise e => (self, ([connecting; failed e], Raise e))
      | Ok p =>
          let self := set_principal self p in
          match dav_calendars host p with
          | Raise e => (self, ([connecting; failed e], Raise e))
          | Ok cal_objects =>
              let self :=
                set_calendars self (map (calendar_info name) cal_objects) in
              (self,
               ([connecting;
                 Log INFO ("Connected to " ++ name ++ ": found "
                           ++ str_of_nat
                                (List.length (CalDAVAccount.calendars self))
                           ++ " calendars")],
                Ok tt))
          end
      end
  end.

(** ** [server.py] *)

(** [for config in account_configs:] of [initialize_accounts], with the
    list [accounts] that it appends to. *)
Fixpoint connect_all (host : Host) (configs : list CalDAVAccountConfig.t)
    (accounts : list CalDAVAccount.t) : M (list CalDAVAccount.t) :=
  match configs with
  | [] => ret accounts
  | config :: rest =>
      let '(account, connected) := connect host (new_account config) in
      connected ;;; connect_all host rest (accounts ++ [account])
  end.

(** The body of [initialize_accounts] after the test of the global. *)
Definition initialize (host : Host) : M (list CalDAVAccount.t) :=
  lift (settings_init host) ;;;
  account_configs <~ lift (parse_accounts (host_getenv host)) ;;
  log INFO ("Initializing " ++ str_of_nat (List.length account_configs)
            ++ " CalDAV account(s)") ;;;
  connect_all host account_configs [].

(** [initialize_accounts()]. The argument [_accounts] is the global of
    that name before the call; the first component of the result is the
    global after the call, which is assigned only when the body
    returns. *)
Definition initialize_accounts (host : Host) (_accounts : list CalDAVAccount.t)
  : list CalDAVAccount.t * M (list CalDAVAccount.t) :=
  match _accounts with
  | _ :: _ => (_accounts, ret _accounts)
  | [] =>
      match initialize host with
      | (t, Ok accounts) => (accounts, (t, Ok accounts))
      | (t, Raise e) => ([], (t, Raise e))
      end
  end.

(** The four tools that [create_mcp_server] registers: each initialises
    the accounts and calls the tool function on them. *)
Module Server.

Section Tools.

Variable host : Host.
Variable py : Platform.

Definition list_calendars (_accounts : list CalDAVAccount.t)
  : list CalDAVAccount.t * M (list CalendarDict) :=
  let '(_accounts, init) := initialize_accounts host _accounts in
  (_accounts, accounts <~ init ;; ret (list_calendars_tool accounts)).

Definition list_events (_accounts : list CalDAVAccount.t)
    (calendar_url start : string) (end_ : option string)
  : list CalDAVAccount.t * M (list EventDict) :=
  let '(_accounts, init) := initialize_accounts host _accounts in
  (_accounts,
   accounts <~ init ;; list_events_tool py accounts calendar_url start end_).

Definition create_event (_accounts : list CalDAVAccount.t)
    (calendar_url summary start end_ : string)
    (description location : option string)
  : list CalDAVAccount.t * M string :=
  let '(_accounts, init) := initialize_accounts host _accounts in
  (_accounts,
   accounts <~ init ;;
   create_event_tool py accounts calendar_url summary start end_
     description location).

Definition delete_event (_accounts : list CalDAVAccount.t)
    (calendar_url uid : string) : list CalDAVAccount.t * M string :=
  let '(_accounts, init) := initialize_accounts host _accounts in
  (_accounts,
   accounts <~ init ;; delete_event_tool py accounts calendar_url uid).

End Tools.

End Server.

(** ** Sample startup values

    An environment with two numbered accounts, a third one whose user
    name is empty, the variables of an eleventh one and a legacy
    account; servers that answer, or of which one rejects the
    credentials; and platforms whose server refuses every request, or
    every deletion. *)

Definition sample_getenv (key : string) : option string :=
  if String.eqb key "CALDAV_2_BASE_URL" then Some "https://dav.example.org/"
  else if String.eqb key "CALDAV_2_USERNAME" then Some "alice"
  else if String.eqb key "CALDAV_2_PASSWORD" then Some "secret"
  else if String.eqb key "CALDAV_5_BASE_URL" then Some "https://home.example.net/"
  else if String.eqb key "CALDAV_5_USERNAME" then Some "bob"
  else if String.eqb key "CALDAV_5_PASSWORD" then Some "secret"
  else if String.eqb key "CALDAV_5_NAME" then Some "Home"
  else if String.eqb key "CALDAV_7_BASE_URL" then Some "https://x.example/"
  else if String.eqb key "CALDAV_7_USERNAME" then Some ""
  else if String.eqb key "CALDAV_7_PASSWORD" then Some "secret"
  else if String.eqb key "CALDAV_11_BASE_URL" then Some "https://late.example/"
  else if String.eqb key "CALDAV_11_USERNAME" then Some "dave"
  else if String.eqb key "CALDAV_11_PASSWORD" then Some "secret"
  else if String.eqb key "CALDAV_BASE_URL" then Some "https://legacy.example/"
  else if String.eqb key "CALDAV_USERNAME" then Some "carol"
  else if String.eqb key "CALDAV_PASSWORD" then Some "secret"
  else None.

Definition sample_dav_calendars (p : Principal) : result (list RemoteCalendar) :=
  if String.eqb (client_url (principal_client p)) "https://dav.example.org/"
  then Ok [mkRemote (Some "Personal") "https://dav.example.org/cal/personal/";
           mkRemote None "https://dav.example.org/cal/work/"]
  else Ok [mkRemote (Some "") "https://home.example.net/cal/work/"].

(** The constructor of the client on the sample URLs: it raises the
    error of [urlparse] on the base URL whose bracket is not closed. *)
Definition sample_dav_client (c : DAVClient) : result unit :=
  if String.eqb (client_url c) "https://[::1/dav/"
  then Raise (ValueError "Invalid IPv6 URL") else Ok tt.

Definition sample_host : Host :=
  mkHost sample_getenv (Ok tt) sample_dav_client (fun c => Ok (mkPrincipal c))
    sample_dav_calendars.

(** A host whose second server rejects the credentials. *)
Definition failing_host : Host :=
  mkHost sample_getenv (Ok tt) sample_dav_client
    (fun c =>
       if String.eqb (client_url c) "https://home.example.net/"
       then Raise (DAVError "Unauthorized")
       else Ok (mkPrincipal c))
    sample_dav_calendars.

(** A host without any CalDAV variable. *)
Definition empty_host : Host :=
  mkHost (fun _ => None) (Ok tt) sample_dav_client
    (fun c => Ok (mkPrincipal c)) sample_dav_calendars.

Definition work_config : CalDAVAccountConfig.t :=
  CalDAVAccountConfig.mk "Work" "https://dav.example.org/" "alice" "secret".

(** A configuration whose base URL the client constructor rejects. *)
Definition bracket_config : CalDAVAccountConfig.t :=
  CalDAVAccountConfig.mk "Broken" "https://[::1/dav/" "eve" "secret".

Definition home_config : CalDAVAccountConfig.t :=
  CalDAVAccountConfig.mk "Home" "https://home.example.net/" "bob" "secret".

(** The accounts of the sample host after startup. *)
Definition started_accounts : list CalDAVAccount.t :=
  fst (initialize_accounts sample_host []).

(** A platform whose server answers a search with the calendar object
    that has a VEVENT without DTEND. *)
Definition series_py : Platform :=
  mkPlatform (fun _ => Ok tt) (fun _ => Ok tt)
    sample_fromisoformat (fun _ => "")
    (mkDatetime 739582 (mkTime 12 0 0 0) None)
    "1b4e28ba-2fa1-41d2-883f-0016d3cca427"
    sample_join_url
    (fun _ _ _ => Ok [series_event]) (fun _ => Ok [series_event])
    (fun _ => Ok tt) (fun _ _ => Ok tt).

(** A platform whose server lists the stand-up twice and refuses the
    deletion of the first of the two objects. *)
Definition flaky_py : Platform :=
  mkPlatform (fun _ => Ok tt) (fun _ => Ok tt)
    sample_fromisoformat (fun _ => "")
    (mkDatetime 739582 (mkTime 12 0 0 0) None)
    "1b4e28ba-2fa1-41d2-883f-0016d3cca427"
    sample_join_url
    (fun _ _ _ => Ok [standup_event; standup_copy_event])
    (fun _ => Ok [standup_event; standup_copy_event])
    (fun ev =>
       if String.eqb (event_url ev) "/cal/work/standup.ics"
       then Raise (DAVError "Forbidden") else Ok tt)
    (fun _ _ => Ok tt).

(** A platform whose server refuses every request. *)
Definition offline_py : Platform :=
  mkPlatform (fun _ => Ok tt) (fun _ => Ok tt)
    sample_fromisoformat (fun _ => "")
    (mkDatetime 739582 (mkTime 12 0 0 0) None)
    "1b4e28ba-2fa1-41d2-883f-0016d3cca427"
    sample_join_url
    (fun _ _ _ => Raise (DAVError "Service Unavailable"))
    (fun _ => Raise (DAVError "Service Unavailable"))
    (fun _ => Raise (DAVError "Service Unavailable"))
    (fun _ _ => Raise (DAVError "Service Unavailable")).

(** A platform whose server lists the sample events and refuses every
    deletion. *)
Definition readonly_py : Platform :=
  mkPlatform (fun _ => Ok tt) (fun _ => Ok tt)
    sample_fromisoformat (fun _ => "")
    (mkDatetime 739582 (mkTime 12 0 0 0) None)
    "1b4e28ba-2fa1-41d2-883f-0016d3cca427"
    sample_join_url
    (fun _ _ _ => Ok sample_events) (fun _ => Ok sample_events)
    (fun _ => Raise (DAVError "Forbidden")) (fun _ _ => Ok tt).

(** ** Shapes used in the statements on startup *)

(** The environment variables that [parse_accounts] reads for the
    account of index [i]. *)
Definition numbered_keys (i : nat) : list string :=
  let prefix := "CALDAV_" ++ str_of_nat i ++ "_" in
  [prefix ++ "BASE_URL"; prefix ++ "USERNAME"; prefix ++ "PASSWORD";
   prefix ++ "NAME"].

Definition legacy_keys : list string :=
  ["CALDAV_BASE_URL"; "CALDAV_USERNAME"; "CALDAV_PASSWORD"; "CALDAV_NAME"].

(** The prefix of the variables of the account of index [i]. *)
Definition numbered_prefix (i : nat) : string :=
  "CALDAV_" ++ str_of_nat i ++ "_".

(** The prefixes that [parse_accounts] tries: the ten numbered ones,
    then the legacy one. *)
Definition account_prefixes : list string :=
  (map numbered_prefix (seq 1 10) ++ ["CALDAV_"])%list.

(** The three mandatory variables with this prefix are set and not
    empty. *)
Definition configured (getenv : string -> option string) (prefix : string)
  : bool :=
  truthy_opt (getenv (prefix ++ "BASE_URL"))
  && truthy_opt (getenv (prefix ++ "USERNAME"))
  && truthy_opt (getenv (prefix ++ "PASSWORD")).

(** The accounts that the numbered variables of these indices
    configure, in the order of the indices. *)
Definition numbered_accounts (getenv : string -> option string)
    (indices : list nat) : list CalDAVAccountConfig.t :=
  flat_map
    (fun i => match numbered_account getenv i with
              | Some config => [config]
              | None => []
              end)
    indices.

(** The sample environment without the variables of an eleventh
    account. *)
Definition trimmed_getenv (key : string) : option string :=
  if PyStr.startswith "CALDAV_11_" key then None else sample_getenv key.

(** The sample environment without its legacy variables. *)
Definition numbered_getenv (key : string) : option string :=
  if existsb (String.eqb key) legacy_keys then None else sample_getenv key.

(** The log of [connect] on entry. *)
Definition connecting (self : CalDAVAccount.t) : effect :=
  Log INFO ("Connecting to CalDAV account: " ++ CalDAVAccount.name self ++ " ("
            ++ CalDAVAccount.base_url self ++ ")").

(** The client that [connect] builds for the account. *)
Definition client_of (self : CalDAVAccount.t) : DAVClient :=
  mkClient (CalDAVAccount.base_url self) (CalDAVAccount.username self)
    (CalDAVAccount.password self).

(** [connect] returns on the account that [CalDAVAccount(config)]
    builds. *)
Definition connects (host : Host) (config : CalDAVAccountConfig.t) : Prop :=
  snd (snd (connect host (new_account config))) = Ok tt.

(** The three mandatory fields of a configuration are non-empty. *)
Definition complete (config : CalDAVAccountConfig.t) : bool :=
  truthy (CalDAVAccountConfig.base_url config)
  && truthy (CalDAVAccountConfig.username config)
  && truthy (CalDAVAccountConfig.password config).

(** The effect is a request to a CalDAV server. *)
Definition is_request (ef : effect) : bool :=
  match ef with
  | Log _ _ => false
  | _ => true
  end.

(** What one iteration of the scan of [delete_event] leaves in the
    trace for a calendar object whose deletion the server refuses, or
    that does not have the UID. *)
Definition refused_attempt (py : Platform) (uid : string) (event : Event)
  : list effect :=
  if contains_uid uid event then
    match delete py event with
    | Raise e =>
        [Delete event;
         Log WARNING ("Failed to parse event during deletion: " ++ exn_str e)]
    | Ok _ => []
    end
  else deletion_warning event.

(** ** Facts on strings *)

Module PyStrFacts.

Import PyStr.

Lemma startswith_split (p s : string) :
  startswith p s = true -> exists r, s = p ++ r.
Proof.
  revert s; induction p as [|a p IH]; intros s H.
  - exists s; reflexivity.
  - destruct s as [|b s]; simpl in H; [discriminate|].
    apply andb_true_iff in H as [Hab H].
    apply Ascii.eqb_eq in Hab as ->.
    destruct (IH _ H) as [r ->]. exists r; reflexivity.
Qed.

Lemma append_assoc (a b c : string) : (a ++ b) ++ c = a ++ (b ++ c).
Proof. induction a as [|x a IH]; simpl; [reflexivity | now rewrite IH]. Qed.

Lemma append_nil_r (a : string) : a ++ "" = a.
Proof. induction a as [|x a IH]; simpl; [reflexivity | now rewrite IH]. Qed.

Lemma contains_app (c : ascii) (a b : string) :
  contains c (a ++ b) = contains c a || contains c b.
Proof.
  induction a as [|x a IH]; simpl; [reflexivity|].
  rewrite IH. now rewrite orb_assoc.
Qed.

Lemma find_none_contains (c : ascii) (s : string) :
  contains c s = false -> find c s = None.
Proof.
  induction s as [|a s IH]; simpl; [reflexivity|].
  intros H. apply orb_false_iff in H as [Ha Hs].
  rewrite Ha, (IH Hs). reflexivity.
Qed.

Lemma replace_no_occurrence (old : ascii) (new s : string) :
  contains old s = false -> replace old new s = s.
Proof.
  induction s as [|a s IH]; simpl; [reflexivity|].
  intros H. apply orb_false_iff in H as [Ha Hs].
  rewrite Ha, (IH Hs). reflexivity.
Qed.

Lemma replace_app (old : ascii) (new a b : string) :
  replace old new (a ++ b) = replace old new a ++ replace old new b.
Proof.
  induction a as [|x a IH]; simpl; [reflexivity|].
  destruct (Ascii.eqb x old); rewrite IH; [|reflexivity].
  now rewrite append_assoc.
Qed.

Lemma free_of_contains (chars s : string) (c : ascii) :
  free_of chars s = true -> contains c chars = true -> contains c s = false.
Proof.
  intros Hf Hc. induction s as [|a s IH]; simpl in *; [reflexivity|].
  apply andb_true_iff in Hf as [Ha Hs].
  rewrite (IH Hs), orb_false_r.
  destruct (Ascii.eqb_spec a c) as [->|]; [|reflexivity].
  rewrite Hc in Ha. discriminate.
Qed.

Lemma take_app (a b : string) : take (String.length a) (a ++ b) = a.
Proof. induction a as [|x a IH]; simpl; [now destruct b | now rewrite IH]. Qed.

Lemma drop_app (a b : string) : drop (String.length a) (a ++ b) = b.
Proof. induction a as [|x a IH]; simpl; [reflexivity | exact IH]. Qed.

Lemma length_app (a b : string) :
  String.length (a ++ b) = String.length a + String.length b.
Proof. induction a as [|x a IH]; simpl; [reflexivity | now rewrite IH]. Qed.

Lemma find_first (c : ascii) (a b : string) :
  contains c a = false -> find c (a ++ String c b) = Some (String.length a).
Proof.
  induction a as [|x a IH]; simpl.
  - now rewrite Ascii.eqb_refl.
  - intros H. apply orb_false_iff in H as [Hx Ha].
    now rewrite Hx, (IH Ha).
Qed.

Lemma find_from_app (c : ascii) (a b : string) :
  find_from c (String.length a) (a ++ b)
  = option_map (Nat.add (String.length a)) (find c b).
Proof.
  induction a as [|x a IH]; simpl.
  - now destruct (find c b).
  - rewrite IH. now destruct (find c b).
Qed.

Lemma rfind_none (c : ascii) (s : string) :
  contains c s = false -> rfind c s = None.
Proof.
  induction s as [|a s IH]; simpl; [reflexivity|].
  intros H. apply orb_false_iff in H as [Ha Hs].
  now rewrite (IH Hs), Ha.
Qed.

Lemma rfind_last (c : ascii) (a b : string) :
  contains c b = false -> rfind c (a ++ String c b) = Some (String.length a).
Proof.
  intros Hb. induction a as [|x a IH]; simpl.
  - now rewrite (rfind_none _ _ Hb), Ascii.eqb_refl.
  - now rewrite IH.
Qed.

Lemma endswith_split (c : ascii) (s : string) :
  endswith_char c s = true -> exists d, s = d ++ String c "".
Proof.
  induction s as [|a s IH]; simpl; [discriminate|].
  destruct s as [|b s].
  - intros H. apply Ascii.eqb_eq in H as ->. now exists "".
  - intros H. destruct (IH H) as [d Hd]. exists (String a d).
    simpl. now rewrite <- Hd.
Qed.

Lemma free_of_app (chars a b : string) :
  free_of chars (a ++ b) = free_of chars a && free_of chars b.
Proof.
  unfold free_of. induction a as [|x a IH]; simpl; [reflexivity|].
  now rewrite IH, andb_assoc.
Qed.

Lemma free_of_chars_app (c1 c2 s : string) :
  free_of (c1 ++ c2) s = free_of c1 s && free_of c2 s.
Proof.
  unfold free_of. induction s as [|x s IH]; cbn [all]; [reflexivity|].
  rewrite IH, contains_app, negb_orb.
  rewrite <- !andb_assoc. f_equal.
  rewrite !andb_assoc. f_equal. apply andb_comm.
Qed.

Lemma free_of_single (c : ascii) (s : string) :
  free_of (String c "") s = negb (contains c s).
Proof.
  unfold free_of. induction s as [|x s IH]; simpl in *; [reflexivity|].
  now rewrite IH, orb_false_r, negb_orb, (Ascii.eqb_sym c x).
Qed.

Lemma span_spec (chars s x y : string) :
  span chars s = (x, y) ->
  x ++ y = s /\ free_of chars x = true /\
  (y = "" \/ exists c r, y = String c r /\ contains c chars = true).
Proof.
  revert x y. induction s as [|a s IH]; simpl; intros x y H.
  - inversion H; subst. auto.
  - destruct (contains a chars) eqn:Ea.
    + inversion H; subst. repeat split; eauto.
    + destruct (span chars s) as [x' y'].
      inversion H; subst.
      destruct (IH _ _ eq_refl) as (H1 & H2 & H3).
      repeat split; auto.
      * simpl. now rewrite H1.
      * unfold free_of in *. simpl. now rewrite Ea, H2.
Qed.

Lemma rsplit_slash_spec (s d l : string) :
  rsplit_slash s = (d, l) ->
  d ++ l = s /\ contains "/" l = false /\
  (contains "/" s = false -> d = "") /\
  (contains "/" s = true -> endswith_char "/" d = true).
Proof.
  revert d l. induction s as [|a s IH]; simpl; intros d l H.
  - injection H as <- <-. repeat split; auto; discriminate.
  - destruct (rsplit_slash s) as [d' l'].
    destruct (IH _ _ eq_refl) as (H1 & H2 & H3 & H4).
    destruct (contains "/" s) eqn:Es.
    + injection H as <- <-. rewrite orb_true_r.
      split; [simpl; now rewrite H1|].
      split; [exact H2|].
      split; [discriminate|].
      intros _. specialize (H4 eq_refl).
      destruct d' as [|b d']; [discriminate | exact H4].
    + rewrite orb_false_r.
      destruct (Ascii.eqb a "/") eqn:Ea; injection H as <- <-.
      * split; [reflexivity|]. split; [exact Es|].
        split; [discriminate | intros _; simpl; exact Ea].
      * split; [reflexivity|].
        split; [simpl; now rewrite Ea, Es|].
        split; [reflexivity | discriminate].
Qed.

Lemma startswith_head (c : ascii) (r : string) :
  startswith (String c "") (String c r) = true.
Proof. simpl. now rewrite Ascii.eqb_refl. Qed.

(** The text before the first [c] keeps the first character of the
    string when that character is not [c]. *)
Lemma split_once_head (c a : ascii) (t : string) :
  fst (split_once c (String a t)) =
  if Ascii.eqb a c then "" else String a (fst (split_once c t)).
Proof.
  unfold split_once; simpl.
  destruct (Ascii.eqb a c); [reflexivity|].
  destruct (find c t); reflexivity.
Qed.

End PyStrFacts.

(** ** The path that [urlparse] returns *)

Module UrllibFacts.

Import PyStr PyStrFacts Urllib.

Lemma delim_cases (c : ascii) :
  is_netloc_delim c = true -> c = "/"%char \/ c = "?"%char \/ c = "#"%char.
Proof.
  unfold is_netloc_delim. intros H.
  apply orb_true_iff in H as [H|H]; [apply orb_true_iff in H as [H|H]|];
    apply Ascii.eqb_eq in H; auto.
Qed.

Lemma drop_delim_pos (s : string) : restlike (drop (delim_pos s) s).
Proof.
  induction s as [|a s IH]; simpl.
  - now left.
  - destruct (is_netloc_delim a) eqn:E; simpl; [|exact IH].
    right. exists a, s. auto.
Qed.

Lemma cut_nil (c : ascii) : cut c "" = "".
Proof. reflexivity. Qed.

Lemma cut_cons (c a : ascii) (t : string) :
  cut c (String a t) = if Ascii.eqb a c then "" else String a (cut c t).
Proof.
  unfold cut. simpl contains.
  destruct (Ascii.eqb a c) eqn:E.
  - change (fst (split_once c (String a t)) = "").
    now rewrite split_once_head, E.
  - rewrite orb_false_l.
    destruct (contains c t); [|reflexivity].
    now rewrite split_once_head, E.
Qed.

Lemma cut_app (c : ascii) (a b : string) :
  contains c a = false -> cut c (a ++ b) = a ++ cut c b.
Proof.
  induction a as [|x a IH]; simpl; [reflexivity|].
  intros H. apply orb_false_iff in H as [Hx Ha].
  now rewrite cut_cons, Hx, (IH Ha).
Qed.

Lemma cut_query_fragment (u : string) :
  restlike u -> pathlike (cut "?" (cut "#" u)).
Proof.
  intros [->|[c [r [-> Hc]]]]; [now left|].
  destruct (delim_cases _ Hc) as [ -> | [ -> | -> ] ];
    rewrite cut_cons; simpl; [rewrite cut_cons; simpl; right; eauto | |];
    now left.
Qed.

Lemma find_from_head (c a : ascii) (k : nat) (t : string) :
  Ascii.eqb a c = false ->
  find_from c k (String a t) <> Some O.
Proof.
  intros Ha. destruct k; simpl.
  - rewrite Ha. destruct (find c t); discriminate.
  - destruct (find_from c k t); discriminate.
Qed.

Lemma splitparams_pathlike (p : string) :
  pathlike p -> pathlike (fst (splitparams p)).
Proof.
  intros [->|[r ->]]; [now left|].
  unfold splitparams.
  replace (contains "/" (String "/" r)) with true by reflexivity.
  destruct (rfind "/" (String "/" r)) as [k|]; [|right; eexists; reflexivity].
  destruct (find_from ";" k (String "/" r)) as [[|i]|] eqn:E;
    try (right; eexists; reflexivity).
  exfalso. now apply (find_from_head ";" "/" k r).
Qed.

(** Cutting the fragment and then the query leaves exactly the text
    before the first '?' or '#'. *)
Lemma cut_tail (x tail : string) :
  contains "?" x = false -> contains "#" x = false ->
  (tail = "" \/ exists t, tail = String "?" t \/ tail = String "#" t) ->
  cut "?" (cut "#" (x ++ tail)) = x.
Proof.
  intros Hq Hf Ht.
  assert (Hcut : cut "?" x = x) by (unfold cut; now rewrite Hq).
  rewrite (cut_app _ _ _ Hf).
  destruct Ht as [->|[t [->| ->]]].
  - now rewrite cut_nil, append_nil_r.
  - rewrite cut_cons. simpl. rewrite (cut_app _ _ _ Hq), cut_cons. simpl.
    apply append_nil_r.
  - rewrite cut_cons. simpl. now rewrite append_nil_r.
Qed.

Lemma free_of_delim (netloc : string) (a : ascii) :
  free_of "/?#" (String a netloc) = true -> is_netloc_delim a = false.
Proof.
  unfold free_of. cbn [all contains]. intros H.
  apply andb_true_iff in H as [H _]. apply negb_true_iff in H.
  rewrite orb_false_r in H. unfold is_netloc_delim.
  now rewrite (Ascii.eqb_sym a "/"), (Ascii.eqb_sym a "?"),
    (Ascii.eqb_sym a "#"), <- orb_assoc.
Qed.

Lemma delim_pos_app (netloc rest : string) :
  free_of "/?#" netloc = true -> restlike rest ->
  delim_pos (netloc ++ rest) = String.length netloc.
Proof.
  intros Hn Hr. induction netloc as [|a netloc IH]; simpl.
  - destruct Hr as [->|[c [r [-> Hc]]]]; simpl; [reflexivity | now rewrite Hc].
  - rewrite (free_of_delim _ _ Hn). f_equal. apply IH.
    unfold free_of in Hn. cbn [all] in Hn.
    now apply andb_true_iff in Hn as [_ Hn].
Qed.

(** [_splitparams] removes the parameters of the last segment and
    nothing else. *)
Lemma splitparams_last_segment (d leaf prm : string) :
  free_of "/?#;" leaf = true ->
  free_of "/?#" prm = true ->
  (prm = "" \/ exists ps, prm = String ";" ps) ->
  fst (splitparams (d ++ String "/" (leaf ++ prm))) = d ++ String "/" leaf.
Proof.
  intros Hl Hp Hprm.
  assert (Hl1 : contains "/" leaf = false) by (eapply free_of_contains; eauto).
  assert (Hl2 : contains ";" leaf = false) by (eapply free_of_contains; eauto).
  assert (Hp1 : contains "/" prm = false) by (eapply free_of_contains; eauto).
  unfold splitparams.
  assert (Hc : contains "/" (d ++ String "/" (leaf ++ prm)) = true).
  { rewrite contains_app. simpl. apply orb_true_r. }
  rewrite Hc, rfind_last by (now rewrite contains_app, Hl1, Hp1).
  rewrite find_from_app. simpl find.
  destruct Hprm as [->|[ps ->]].
  - rewrite append_nil_r, (find_none_contains _ _ Hl2). reflexivity.
  - rewrite (find_first _ _ _ Hl2). simpl.
    replace (String.length d + S (String.length leaf))
      with (String.length (d ++ String "/" leaf))
      by (rewrite length_app; reflexivity).
    replace (d ++ String "/" (leaf ++ String ";" ps))
      with ((d ++ String "/" leaf) ++ String ";" ps)
      by (rewrite append_assoc; reflexivity).
    apply take_app.
Qed.

(** The parts of a well-formed URL, one by one. *)
Lemma well_formed_inv (p : url_parts) :
  well_formed p = true ->
  free_of "/?#" (u_netloc p) = true /\
  ((u_dirs p = "" /\ u_leaf p = "" /\ u_params p = "") \/
   (exists d, u_dirs p = String "/" d) /\ (exists d, u_dirs p = d ++ String "/" "")) /\
  free_of "?#" (u_dirs p) = true /\
  free_of "/?#;" (u_leaf p) = true /\
  (u_params p = "" \/ exists ps, u_params p = String ";" ps) /\
  free_of "/?#" (u_params p) = true /\
  (u_tail p = "" \/ exists t, u_tail p = String "?" t \/ u_tail p = String "#" t).
Proof.
  unfold well_formed. intros H.
  apply andb_true_iff in H as [H Htail].
  apply andb_true_iff in H as [H Hpfree].
  apply andb_true_iff in H as [H Hprm].
  apply andb_true_iff in H as [H Hleaf].
  apply andb_true_iff in H as [H Hdfree].
  apply andb_true_iff in H as [Hnet Hdirs].
  repeat split; auto.
  - destruct (String.eqb_spec (u_dirs p) "") as [E|E].
    + left. apply andb_true_iff in Hdirs as [H4 H5].
      apply String.eqb_eq in H4, H5. auto.
    + right. apply andb_true_iff in Hdirs as [H4 H5]. split.
      * destruct (startswith_split _ _ H4) as [r ->]. now exists r.
      * now apply endswith_split.
  - apply orb_true_iff in Hprm as [H1|H1].
    + left. now apply String.eqb_eq.
    + right. destruct (startswith_split _ _ H1) as [r ->]. now exists r.
  - apply orb_true_iff in Htail as [H|H]; [apply orb_true_iff in H as [H|H]|].
    + left. now apply String.eqb_eq.
    + right. destruct (startswith_split _ _ H) as [r ->]. exists r. now left.
    + right. destruct (startswith_split _ _ H) as [r ->]. exists r. now right.
Qed.

Lemma well_formed_pathlike (p : url_parts) :
  well_formed p = true -> pathlike (u_path p).
Proof.
  intros H. apply well_formed_inv in H as (_ & H & _).
  unfold u_path. destruct H as [(-> & -> & _)|[[d ->] _]].
  - now left.
  - right. eexists; reflexivity.
Qed.

Lemma well_formed_restlike (p : url_parts) :
  well_formed p = true -> restlike (u_path p ++ u_params p ++ u_tail p).
Proof.
  intros H. apply well_formed_inv in H as (_ & H & _ & _ & _ & _ & Ht).
  unfold u_path. destruct H as [(-> & -> & ->)|[[d ->] _]].
  - simpl. destruct Ht as [->|[t [->| ->]]].
    + now left.
    + right. now exists "?"%char, t.
    + right. now exists "#"%char, t.
  - right. now eexists "/"%char, _.
Qed.

(** Every text has parts, they are well formed, and they make up the
    text. *)
Lemma parts_of_spec (s : string) :
  well_formed (parts_of s) = true /\ unparse (parts_of s) = s.
Proof.
  unfold parts_of.
  destruct (span "/?#" s) as [nl rest] eqn:E1.
  destruct (span "?#" rest) as [pth tail] eqn:E2.
  destruct (rsplit_slash pth) as [dirs seg] eqn:E3.
  destruct (span ";" seg) as [leaf prm] eqn:E4.
  destruct (span_spec _ _ _ _ E1) as (A1 & F1 & R1).
  destruct (span_spec _ _ _ _ E2) as (A2 & F2 & R2).
  destruct (rsplit_slash_spec _ _ _ E3) as (A3 & F3 & D3 & D3').
  destruct (span_spec _ _ _ _ E4) as (A4 & F4 & R4).
  assert (Fseg : free_of "?#" dirs = true /\ free_of "?#" seg = true).
  { rewrite <- A3, free_of_app in F2. now apply andb_true_iff in F2. }
  destruct Fseg as [Fd Fs].
  assert (Fs' : free_of "/" seg = true).
  { rewrite free_of_single, F3. reflexivity. }
  assert (Fl : free_of "?#" leaf = true /\ free_of "?#" prm = true).
  { rewrite <- A4, free_of_app in Fs. now apply andb_true_iff in Fs. }
  assert (Fl' : free_of "/" leaf = true /\ free_of "/" prm = true).
  { rewrite <- A4, free_of_app in Fs'. now apply andb_true_iff in Fs'. }
  destruct Fl as [Fl1 Fp1], Fl' as [Fl2 Fp2].
  assert (Hleaf : free_of "/?#;" leaf = true).
  { change "/?#;" with ("/" ++ "?#" ++ ";").
    now rewrite !free_of_chars_app, Fl1, Fl2, F4. }
  assert (Hpfree : free_of "/?#" prm = true).
  { change "/?#" with ("/" ++ "?#").
    now rewrite free_of_chars_app, Fp1, Fp2. }
  assert (Hprm : String.eqb prm "" || startswith ";" prm = true).
  { destruct R4 as [->|[c [r [-> Hc]]]]; [reflexivity|].
    cbn [contains] in Hc. rewrite orb_false_r in Hc.
    apply Ascii.eqb_eq in Hc as <-.
    now rewrite startswith_head, orb_true_r. }
  assert (Htail : String.eqb tail "" || startswith "?" tail
                  || startswith "#" tail = true).
  { destruct R2 as [->|[c [r [-> Hc]]]]; [reflexivity|].
    cbn [contains] in Hc. rewrite orb_false_r in Hc.
    apply orb_true_iff in Hc as [Hc|Hc]; apply Ascii.eqb_eq in Hc as <-;
      rewrite startswith_head; now rewrite ?orb_true_r. }
  assert (Hpth : pth = "" \/ exists r, pth = String "/" r).
  { destruct R1 as [->|[c [r [-> Hc]]]].
    - simpl in E2. injection E2 as <- _. now left.
    - cbn [span] in E2.
      destruct (contains c "?#") eqn:Ec.
      + injection E2 as <- _. now left.
      + right. destruct (span "?#" r) as [x y]. injection E2 as <- _.
        cbn [contains] in Hc, Ec. rewrite !orb_false_r in *.
        apply orb_false_iff in Ec as [Ec1 Ec2]. rewrite Ec1, Ec2 in Hc.
        rewrite !orb_false_r in Hc. apply Ascii.eqb_eq in Hc as <-.
        eauto. }
  assert (Hdirs : (if String.eqb dirs ""
                   then String.eqb leaf "" && String.eqb prm ""
                   else startswith "/" dirs && endswith_char "/" dirs) = true).
  { destruct Hpth as [->|[r ->]].
    - simpl in E3. injection E3 as <- <-. simpl in E4.
      injection E4 as <- <-. reflexivity.
    - assert (Hc : contains "/" (String "/" r) = true) by reflexivity.
      specialize (D3' Hc).
      destruct dirs as [|b dirs]; [discriminate|].
      simpl in A3. injection A3 as -> _.
      change (String "/" dirs =? "")%string with false. cbv iota.
      now rewrite startswith_head, D3'. }
  split.
  - unfold well_formed.
    cbn [u_netloc u_dirs u_leaf u_params u_tail].
    now rewrite F1, Hdirs, Fd, Hleaf, Hprm, Hpfree, Htail.
  - unfold unparse, u_path.
    cbn [u_netloc u_dirs u_leaf u_params u_tail].
    rewrite <- A1, <- A2, <- A3, <- A4 at 1.
    now rewrite !append_assoc.
Qed.

Section Checks.

Variables cb ck : string -> result unit.

Lemma urlsplit_http (r : string) :
  urlsplit cb ck ("http://" ++ r) = after_slashes cb ck "http" (remove_unsafe r).
Proof. reflexivity. Qed.

Lemma urlsplit_https (r : string) :
  urlsplit cb ck ("https://" ++ r) = after_slashes cb ck "https" (remove_unsafe r).
Proof. reflexivity. Qed.

Lemma after_slashes_path (sch r : string) (sr : SplitResult) :
  after_slashes cb ck sch r = Ok sr ->
  sr_scheme sr = sch /\ pathlike (sr_path sr).
Proof.
  unfold after_slashes, splitnetloc. simpl drop.
  pose proof (drop_delim_pos r) as Hrest.
  set (nl := take (delim_pos r) r). set (u := drop (delim_pos r) r) in *.
  destruct ((contains "[" nl && negb (contains "]" nl))
            || (contains "]" nl && negb (contains "[" nl))); [discriminate|].
  simpl.
  destruct (if contains "[" nl && contains "]" nl then cb nl else Ok tt);
    [|discriminate].
  simpl.
  pose proof (cut_query_fragment u Hrest) as Hp. unfold cut in Hp.
  destruct (if contains "#" u then split_once "#" u else (u, "")) as [u1 fr].
  simpl in Hp.
  destruct (if contains "?" u1 then split_once "?" u1 else (u1, "")) as [u2 q].
  simpl in Hp.
  destruct (checknetloc ck nl); [|discriminate].
  simpl. intros H; inversion H; subst; simpl. auto.
Qed.

Lemma urlparse_path (url : string) (pr : ParseResult) :
  startswith "http://" url || startswith "https://" url = true ->
  urlparse cb ck url = Ok pr -> pathlike (path pr).
Proof.
  intros Hp H.
  assert (Hs : exists sch r, urlsplit cb ck url = after_slashes cb ck sch r).
  { apply orb_true_iff in Hp as [Hp|Hp];
      apply startswith_split in Hp as [r ->].
    - exists "http", (remove_unsafe r). apply urlsplit_http.
    - exists "https", (remove_unsafe r). apply urlsplit_https. }
  destruct Hs as (sch & r & Hs).
  unfold urlparse in H. rewrite Hs in H.
  destruct (after_slashes cb ck sch r) as [sr|] eqn:E; [|discriminate].
  apply after_slashes_path in E as [_ Hpath].
  unfold bind in H.
  pose proof (splitparams_pathlike _ Hpath) as Hq.
  destruct (existsb (String.eqb (sr_scheme sr)) uses_params
            && contains ";" (sr_path sr)).
  - destruct (splitparams (sr_path sr)) as [u' prm]. simpl in Hq.
    inversion H; subst; exact Hq.
  - inversion H; subst; exact Hpath.
Qed.

Lemma after_slashes_accepts (sch netloc rest : string) :
  free_of "/?#" netloc = true -> restlike rest ->
  contains "[" netloc = contains "]" netloc ->
  (contains "[" netloc = true -> cb netloc = Ok tt) ->
  checknetloc ck netloc = Ok tt ->
  exists sr, after_slashes cb ck sch (netloc ++ rest) = Ok sr /\
    sr_scheme sr = sch /\ sr_path sr = cut "?" (cut "#" rest).
Proof.
  intros Hn Hr Hb Hcb Hck.
  unfold after_slashes, splitnetloc. simpl drop.
  rewrite (delim_pos_app _ _ Hn Hr), take_app, drop_app.
  rewrite <- Hb.
  assert (Hchk : (if contains "[" netloc && contains "[" netloc
                  then cb netloc else Ok tt) = Ok tt).
  { destruct (contains "[" netloc); simpl; auto. }
  replace ((contains "[" netloc && negb (contains "[" netloc))
           || (contains "[" netloc && negb (contains "[" netloc)))
    with false by (now destruct (contains "[" netloc)).
  rewrite Hchk. unfold cut, bind.
  destruct (if contains "#" rest then split_once "#" rest else (rest, ""))
    as [u1 fr].
  cbn [fst].
  destruct (if contains "?" u1 then split_once "?" u1 else (u1, ""))
    as [u2 q].
  rewrite Hck. eexists; repeat split.
Qed.

Lemma after_slashes_rejects (sch netloc rest : string) :
  free_of "/?#" netloc = true -> restlike rest ->
  contains "[" netloc <> contains "]" netloc ->
  after_slashes cb ck sch (netloc ++ rest) = Raise (ValueError "Invalid IPv6 URL").
Proof.
  intros Hn Hr Hb.
  unfold after_slashes, splitnetloc. simpl drop.
  rewrite (delim_pos_app _ _ Hn Hr), take_app, drop_app.
  destruct (contains "[" netloc), (contains "]" netloc);
    try reflexivity; now elim Hb.
Qed.

Lemma urlsplit_prefix (pre rest : string) :
  pre = "http://" \/ pre = "https://" ->
  exists sch, (sch = "http" \/ sch = "https") /\
    urlsplit cb ck (pre ++ rest) = after_slashes cb ck sch (remove_unsafe rest).
Proof.
  intros [->| ->].
  - exists "http". split; [now left | apply urlsplit_http].
  - exists "https". split; [now right | apply urlsplit_https].
Qed.

(** [urlparse] on a well-formed URL whose authority is accepted: the
    path is the text between the authority and the parameters, query or
    fragment. *)
Lemma urlparse_parts (pre rest : string) (p : url_parts) :
  pre = "http://" \/ pre = "https://" ->
  remove_unsafe rest = unparse p ->
  well_formed p = true ->
  contains "[" (u_netloc p) = contains "]" (u_netloc p) ->
  (contains "[" (u_netloc p) = true -> cb (u_netloc p) = Ok tt) ->
  checknetloc ck (u_netloc p) = Ok tt ->
  exists pr, urlparse cb ck (pre ++ rest) = Ok pr /\ path pr = u_path p.
Proof.
  intros Hpre Hrest Hwf Hb Hcb Hck.
  destruct (urlsplit_prefix pre rest Hpre) as (sch & Hsch & Hs).
  pose proof (well_formed_restlike p Hwf) as Hr.
  pose proof (well_formed_inv p Hwf) as (Hn & Hd & Hd' & Hl & Hp & Hp' & Ht).
  destruct (after_slashes_accepts sch _ _ Hn Hr Hb Hcb Hck)
    as (sr & Hsr & Hsc & Hpath).
  unfold urlparse. rewrite Hs, Hrest. unfold unparse. rewrite Hsr.
  unfold bind.
  assert (Hx : sr_path sr = u_path p ++ u_params p).
  { rewrite Hpath, <- append_assoc. apply cut_tail; [| |exact Ht].
    - unfold u_path. rewrite !contains_app.
      rewrite (free_of_contains _ _ "?" Hd'), (free_of_contains _ _ "?" Hl),
        (free_of_contains _ _ "?" Hp'); reflexivity.
    - unfold u_path. rewrite !contains_app.
      rewrite (free_of_contains _ _ "#" Hd'), (free_of_contains _ _ "#" Hl),
        (free_of_contains _ _ "#" Hp'); reflexivity. }
  assert (Hu : existsb (String.eqb (sr_scheme sr)) uses_params = true).
  { rewrite Hsc. destruct Hsch as [->| ->]; reflexivity. }
  rewrite Hu, Hx. simpl andb.
  destruct (contains ";" (u_path p ++ u_params p)) eqn:Hsemi.
  - destruct Hd as [(E1 & E2 & E3)|[_ [d Ed]]].
    + unfold u_path in Hsemi. rewrite E1, E2, E3 in Hsemi. discriminate.
    + pose proof (splitparams_last_segment d _ _ Hl Hp' Hp) as Hsp.
      unfold u_path. rewrite Ed.
      replace (((d ++ String "/" "") ++ u_leaf p) ++ u_params p)
        with (d ++ String "/" (u_leaf p ++ u_params p))
        by (now rewrite !append_assoc).
      destruct (splitparams _) as [u' prm]. simpl in Hsp.
      eexists; split; [reflexivity|]. simpl. rewrite Hsp.
      now rewrite !append_assoc.
  - destruct Hp as [E|[ps E]].
    + eexists; split; [reflexivity|]. simpl. rewrite E. apply append_nil_r.
    + rewrite E, contains_app in Hsemi. simpl in Hsemi.
      rewrite orb_true_r in Hsemi. discriminate.
Qed.

Lemma after_slashes_ok_inv (sch netloc rest : string) (sr : SplitResult) :
  free_of "/?#" netloc = true -> restlike rest ->
  after_slashes cb ck sch (netloc ++ rest) = Ok sr ->
  contains "[" netloc = contains "]" netloc /\
  (contains "[" netloc = true -> cb netloc = Ok tt) /\
  checknetloc ck netloc = Ok tt.
Proof.
  intros Hn Hr.
  unfold after_slashes, splitnetloc. simpl drop.
  rewrite (delim_pos_app _ _ Hn Hr), take_app, drop_app.
  destruct (contains "[" netloc), (contains "]" netloc); simpl;
    try discriminate.
  - destruct (cb netloc) as [[]|]; simpl; [|discriminate].
    destruct (if contains "#" rest then split_once "#" rest else (rest, ""))
      as [u1 fr].
    destruct (if contains "?" u1 then split_once "?" u1 else (u1, ""))
      as [u2 q].
    destruct (checknetloc ck netloc) as [[]|]; [|discriminate]. auto.
  - destruct (if contains "#" rest then split_once "#" rest else (rest, ""))
      as [u1 fr].
    destruct (if contains "?" u1 then split_once "?" u1 else (u1, ""))
      as [u2 q].
    destruct (checknetloc ck netloc) as [[]|]; [|discriminate].
    repeat split; auto. discriminate.
Qed.

(** When [urlparse] returns on an absolute URL, the authority passed the
    validations. *)
Lemma urlparse_ok_inv (pre rest : string) (pr : ParseResult) :
  pre = "http://" \/ pre = "https://" ->
  urlparse cb ck (pre ++ rest) = Ok pr ->
  let netloc := u_netloc (parts_of (remove_unsafe rest)) in
  contains "[" netloc = contains "]" netloc /\
  (contains "[" netloc = true -> cb netloc = Ok tt) /\
  checknetloc ck netloc = Ok tt.
Proof.
  intros Hpre H.
  destruct (urlsplit_prefix pre rest Hpre) as (sch & Hsch & Hs).
  destruct (parts_of_spec (remove_unsafe rest)) as [Hwf Hun].
  pose proof (well_formed_restlike _ Hwf) as Hr.
  pose proof (well_formed_inv _ Hwf) as (Hn & _).
  unfold urlparse in H. rewrite Hs, <- Hun in H. unfold unparse in H.
  destruct (after_slashes cb ck sch _) as [sr|] eqn:E; [|discriminate].
  exact (after_slashes_ok_inv _ _ _ _ Hn Hr E).
Qed.

Lemma urlparse_unbalanced (pre rest : string) (p : url_parts) :
  pre = "http://" \/ pre = "https://" ->
  remove_unsafe rest = unparse p ->
  well_formed p = true ->
  contains "[" (u_netloc p) <> contains "]" (u_netloc p) ->
  urlparse cb ck (pre ++ rest) = Raise (ValueError "Invalid IPv6 URL").
Proof.
  intros Hpre Hrest Hwf Hb.
  destruct (urlsplit_prefix pre rest Hpre) as (sch & Hsch & Hs).
  pose proof (well_formed_restlike p Hwf) as Hr.
  pose proof (well_formed_inv p Hwf) as (Hn & _).
  unfold urlparse. rewrite Hs, Hrest. unfold unparse.
  now rewrite (after_slashes_rejects sch _ _ Hn Hr Hb).
Qed.

End Checks.

End UrllibFacts.

(** ** URL normalisation *)

Section NormalizeFacts.

Import PyStr PyStrFacts.
Import CalDAVAccount.

Variable py : Platform.

Lemma pathlike_no_scheme (p : string) :
  pathlike p ->
  startswith "http://" p || startswith "https://" p = false.
Proof. intros [->|[r ->]]; reflexivity. Qed.

Lemma normalize_no_scheme (url : string) :
  startswith "http://" url || startswith "https://" url = false ->
  _normalize_url py url = Ok url.
Proof. unfold _normalize_url. now intros ->. Qed.

(** What [_normalize_url] returns for an absolute URL is empty or starts
    with a slash. *)
Lemma normalize_absolute_pathlike (url p : string) :
  startswith "http://" url || startswith "https://" url = true ->
  _normalize_url py url = Ok p -> pathlike p.
Proof.
  intros Hs. unfold _normalize_url. rewrite Hs.
  destruct (Urllib.urlparse _ _ url) as [pr|] eqn:E; [|discriminate].
  simpl. intros H; inversion H; subst.
  eapply UrllibFacts.urlparse_path; eauto.
Qed.

Lemma normalize_fixes_result (url p : string) :
  _normalize_url py url = Ok p -> _normalize_url py p = Ok p.
Proof.
  destruct (startswith "http://" url || startswith "https://" url) eqn:Hs.
  - intros H. apply normalize_no_scheme, pathlike_no_scheme.
    eapply normalize_absolute_pathlike; eauto.
  - rewrite (normalize_no_scheme _ Hs). intros H; inversion H; subst.
    now apply normalize_no_scheme.
Qed.

(** C4. [_normalize_url] is idempotent: normalising the result of a
    normalisation gives that result again, and when the first
    normalisation raises, so does the composition, with the same
    exception: the two sides have the same outcome for every [u]. *)
Theorem normalize_url_idempotent (u : string) :
  (v <- _normalize_url py u ;; _normalize_url py v) = _normalize_url py u.
Proof.
  destruct (_normalize_url py u) as [v|e] eqn:E; simpl; [|reflexivity].
  eapply normalize_fixes_result; eauto.
Qed.

(** C2 (amended). An input that does not start with "http://" or
    "https://" is returned unchanged. An input that does is cut, once
    tab, CR and LF are removed as [urlsplit] does, into authority, path,
    parameters of the last segment, and query or fragment.
    [_normalize_url] returns exactly when the authority passes the
    validations of the parser, and what it returns is the path alone,
    with its leading slash and with or without a trailing slash as
    given; the relative URL made of that path normalises to the same
    string. When the authority has a bracket without its partner,
    [_normalize_url] raises the parser's ValueError. Any well-formed way
    of cutting the input gives the same path. *)
Theorem normalize_url_path_component :
  (forall url,
     startswith "http://" url || startswith "https://" url = false ->
     _normalize_url py url = Ok url) /\
  (forall pre rest v,
     pre = "http://" \/ pre = "https://" ->
     let p := parts_of (Urllib.remove_unsafe rest) in
     (_normalize_url py (pre ++ rest) = Ok v <->
      netloc_accepted py (u_netloc p) /\ v = u_path p) /\
     _normalize_url py (u_path p) = Ok (u_path p) /\
     (contains "[" (u_netloc p) <> contains "]" (u_netloc p) ->
      _normalize_url py (pre ++ rest) = Raise (ValueError "Invalid IPv6 URL"))) /\
  (forall pre rest p,
     pre = "http://" \/ pre = "https://" ->
     Urllib.remove_unsafe rest = unparse p ->
     well_formed p = true ->
     netloc_accepted py (u_netloc p) ->
     _normalize_url py (pre ++ rest) = Ok (u_path p)).
Proof.
  assert (Hs : forall pre rest, pre = "http://" \/ pre = "https://" ->
            startswith "http://" (pre ++ rest)
            || startswith "https://" (pre ++ rest) = true).
  { intros pre rest [->| ->]; reflexivity. }
  assert (Hgen : forall pre rest p,
            pre = "http://" \/ pre = "https://" ->
            Urllib.remove_unsafe rest = unparse p ->
            well_formed p = true ->
            netloc_accepted py (u_netloc p) ->
            _normalize_url py (pre ++ rest) = Ok (u_path p)).
  { intros pre rest p Hpre Hrest Hwf (Hb & Hcb & Hck).
    destruct (UrllibFacts.urlparse_parts _ _ pre rest p Hpre Hrest Hwf Hb Hcb Hck)
      as (pr & Hpr & Hpath).
    unfold _normalize_url. rewrite (Hs pre rest Hpre), Hpr. simpl.
    now rewrite Hpath. }
  split; [exact normalize_no_scheme|]. split; [|exact Hgen].
  intros pre rest v Hpre p.
  destruct (UrllibFacts.parts_of_spec (Urllib.remove_unsafe rest)) as [Hwf Hun].
  fold p in Hwf, Hun.
  split; [|split].
  - split.
    + intros H. unfold _normalize_url in H. rewrite (Hs pre rest Hpre) in H.
      destruct (Urllib.urlparse _ _ (pre ++ rest)) as [pr|] eqn:E;
        [|discriminate].
      pose proof (UrllibFacts.urlparse_ok_inv _ _ pre rest pr Hpre E) as Hacc.
      split; [exact Hacc|].
      assert (Hv : _normalize_url py (pre ++ rest) = Ok v).
      { unfold _normalize_url. now rewrite (Hs pre rest Hpre), E. }
      rewrite (Hgen pre rest p Hpre (eq_sym Hun) Hwf Hacc) in Hv.
      now inversion Hv.
    + intros [Hacc ->]. exact (Hgen pre rest p Hpre (eq_sym Hun) Hwf Hacc).
  - apply normalize_no_scheme, pathlike_no_scheme.
    now apply UrllibFacts.well_formed_pathlike.
  - intros Hb. unfold _normalize_url. rewrite (Hs pre rest Hpre).
    now rewrite (UrllibFacts.urlparse_unbalanced _ _ pre rest p Hpre
                   (eq_sym Hun) Hwf Hb).
Qed.

End NormalizeFacts.

Lemma normalize_url_path_component_witness :
  CalDAVAccount._normalize_url sample_py
    "https://dav.example.org:8443/cal/work/;v=1?expand=1#top"
  = Ok "/cal/work/"
  /\ CalDAVAccount._normalize_url sample_py "https://host/path/a"
     = CalDAVAccount._normalize_url sample_py "/path/a".
Proof.
  destruct (normalize_url_path_component sample_py) as (_ & Htotal & Hparts).
  assert (Hacc : forall n, PyStr.contains "[" n = false ->
                   PyStr.contains "]" n = false ->
                   PyStr.all PyStr.is_ascii n = true ->
                   netloc_accepted sample_py n).
  { intros n H1 H2 H3. unfold netloc_accepted, Urllib.checknetloc.
    rewrite H1, H2, H3, orb_true_r. repeat split; discriminate. }
  split.
  - apply (Hparts "https://"
             "dav.example.org:8443/cal/work/;v=1?expand=1#top"
             (mkParts "dav.example.org:8443" "/cal/work/" "" ";v=1"
                "?expand=1#top")
             (or_intror eq_refl) eq_refl eq_refl).
    now apply Hacc.
  - destruct (Htotal "https://" "host/path/a" "/path/a" (or_intror eq_refl))
      as (Hiff & Hrel & _).
    transitivity (@Ok string "/path/a").
    + apply Hiff. split; [now apply Hacc | reflexivity].
    + symmetry. exact Hrel.
Defined.

(** C2 as stated fails on an input with the https scheme whose
    authority has an opening bracket and no closing one: [urlparse]
    raises, and no path is returned. *)
Lemma normalize_url_raises :
  let u := "https://[::1/cal/work/" in
  PyStr.startswith "https://" u = true /\
  CalDAVAccount._normalize_url sample_py u = Raise (ValueError "Invalid IPv6 URL") /\
  forall p, CalDAVAccount._normalize_url sample_py u <> Ok p.
Proof. cbv zeta. repeat split. discriminate. Qed.

(** The same on other inputs: parameters of the last segment and tabs
    are not part of the result, and the scheme test is case-sensitive. *)
Example normalize_url_samples :
  map (CalDAVAccount._normalize_url sample_py)
    ["https://h/cal/work;v=1"; "https://h/cal/wo" ++ String Urllib.TAB "rk/";
     "https://h"; "https://h?x=/y"; "HTTPS://h/cal/work/"; "/cal/work/?x"]
  = [Ok "/cal/work"; Ok "/cal/work/"; Ok ""; Ok "";
     Ok "HTTPS://h/cal/work/"; Ok "/cal/work/?x"].
Proof. reflexivity. Qed.

(** ** The account resolver *)

Section ResolverFacts.

Import CalDAVAccount.

Variable py : Platform.

Lemma has_calendar_true (nu : string) (cals : list CalendarInfo.t) :
  has_calendar py nu cals = Ok true ->
  exists c, In c cals /\ matches py nu c.
Proof.
  induction cals as [|c cals IH]; simpl; [discriminate|].
  destruct (_normalize_url py (CalendarInfo.url c)) as [n|] eqn:E;
    simpl; [|discriminate].
  destruct (String.eqb n nu) eqn:En.
  - intros _. apply String.eqb_eq in En as ->.
    exists c; split; [now left | exact E].
  - intros H. destruct (IH H) as (c' & Hin & Hm).
    exists c'; split; [now right | exact Hm].
Qed.

Lemma has_calendar_false (nu : string) (cals : list CalendarInfo.t) :
  has_calendar py nu cals = Ok false ->
  forall c, In c cals -> ~ matches py nu c.
Proof.
  induction cals as [|c cals IH]; simpl; [tauto|].
  destruct (_normalize_url py (CalendarInfo.url c)) as [n|] eqn:E;
    simpl; [|discriminate].
  destruct (String.eqb n nu) eqn:En; [discriminate|].
  intros H c' [<-|Hin].
  - unfold matches. rewrite E. intros H'; inversion H'; subst.
    now rewrite String.eqb_refl in En.
  - now apply IH.
Qed.

Lemma has_calendar_returns (nu : string) (cals : list CalendarInfo.t) :
  (forall c, In c cals -> exists v, _normalize_url py (CalendarInfo.url c) = Ok v) ->
  exists b, has_calendar py nu cals = Ok b.
Proof.
  induction cals as [|c cals IH]; simpl; intros H; [eauto|].
  destruct (H c (or_introl eq_refl)) as [v ->]. simpl.
  destruct (String.eqb v nu); [eauto|].
  apply IH. intros c' Hc'. apply H. now right.
Qed.

Lemma has_calendar_owns (nu : string) (a : t) (b : bool) :
  has_calendar py nu (calendars a) = Ok b ->
  (b = true <-> owns py nu a).
Proof.
  intros H. destruct b.
  - split; [intros _; now apply has_calendar_true | reflexivity].
  - split; [discriminate|].
    intros (c & Hin & Hm). exfalso.
    eapply has_calendar_false; eauto.
Qed.

(** The outer loop returns the first account that owns the URL. *)
Lemma find_account_loop_some (nu : string) (accounts : list t) (a : t) :
  normalizable py accounts ->
  (find_account_loop py nu accounts = Ok (Some a) <->
   exists pre post, accounts = (pre ++ a :: post)%list /\
     (forall b, In b pre -> ~ owns py nu b) /\ owns py nu a).
Proof.
  induction accounts as [|x accounts IH]; intros Hn; simpl.
  - split; [discriminate|].
    intros (pre & post & H & _). now destruct pre.
  - assert (Hn' : normalizable py accounts).
    { intros b c Hb Hc. apply (Hn b c); [now right | exact Hc]. }
    destruct (has_calendar_returns nu (calendars x)) as [b Hb].
    { intros c Hc. apply (Hn x c); [now left | exact Hc]. }
    rewrite Hb. simpl.
    pose proof (has_calendar_owns nu x b Hb) as Hx.
    destruct b.
    + split.
      * intros H; inversion H; subst.
        exists [], accounts. repeat split; [intros ? []|now apply Hx].
      * intros (pre & post & H & Hpre & Ha).
        destruct pre as [|y pre]; simpl in H; inversion H; subst; [reflexivity|].
        exfalso. apply (Hpre y); [now left | now apply Hx].
    + rewrite (IH Hn'). split.
      * intros (pre & post & -> & Hpre & Ha).
        exists (x :: pre), post. repeat split; [|exact Ha].
        intros y [<-|Hy]; [|now apply Hpre].
        intros Hy. apply Hx in Hy. discriminate.
      * intros (pre & post & H & Hpre & Ha).
        destruct pre as [|y pre]; simpl in H; inversion H; subst.
        -- apply Hx in Ha. discriminate.
        -- exists pre, post. repeat split; [|exact Ha].
           intros z Hz. apply Hpre. now right.
Qed.

Lemma find_account_loop_none (nu : string) (accounts : list t) :
  normalizable py accounts ->
  (find_account_loop py nu accounts = Ok None <->
   forall a, In a accounts -> ~ owns py nu a).
Proof.
  induction accounts as [|x accounts IH]; intros Hn; simpl.
  - split; [intros _ a [] | reflexivity].
  - assert (Hn' : normalizable py accounts).
    { intros b c Hb Hc. apply (Hn b c); [now right | exact Hc]. }
    destruct (has_calendar_returns nu (calendars x)) as [b Hb].
    { intros c Hc. apply (Hn x c); [now left | exact Hc]. }
    rewrite Hb. simpl.
    pose proof (has_calendar_owns nu x b Hb) as Hx.
    destruct b.
    + split; [discriminate|].
      intros H. exfalso. apply (H x); [now left | now apply Hx].
    + rewrite (IH Hn'). split.
      * intros H a [<-|Ha]; [|now apply H].
        intros Ho. apply Hx in Ho. discriminate.
      * intros H a Ha. apply H. now right.
Qed.

Lemma find_account_loop_returns (nu : string) (accounts : list t) :
  normalizable py accounts ->
  exists r, find_account_loop py nu accounts = Ok r.
Proof.
  induction accounts as [|x accounts IH]; intros Hn; simpl; [eauto|].
  destruct (has_calendar_returns nu (calendars x)) as [b ->].
  { intros c Hc. apply (Hn x c); [now left | exact Hc]. }
  simpl. destruct b; [eauto|].
  apply IH. intros b c Hb Hc. apply (Hn b c); [now right | exact Hc].
Qed.

(** Without any assumption: the account returned is in the list and
    its own scan found a calendar. *)
Lemma find_account_loop_found (nu : string) (accounts : list t) (a : t) :
  find_account_loop py nu accounts = Ok (Some a) ->
  In a accounts /\ has_calendar py nu (calendars a) = Ok true.
Proof.
  induction accounts as [|x accounts IH]; simpl; [discriminate|].
  destruct (has_calendar py nu (calendars x)) as [[|]|] eqn:E; simpl;
    [| |discriminate].
  - intros H; inversion H; subst. auto.
  - intros H. destruct (IH H). auto.
Qed.


Lemma has_calendar_false_iff (nu : string) (cals : list CalendarInfo.t) :
  has_calendar py nu cals = Ok false <-> Forall (differs py nu) cals.
Proof.
  induction cals as [|c cals IH]; simpl.
  - split; [constructor | reflexivity].
  - destruct (_normalize_url py (CalendarInfo.url c)) as [n|e] eqn:E; simpl.
    + destruct (String.eqb_spec n nu) as [->|Hne].
      * split; [discriminate|]. intros H. inversion H as [|? ? [v [Hv Hd]] _].
        rewrite E in Hv. inversion Hv; subst. now elim Hd.
      * rewrite IH. split.
        -- intros H. constructor; [exists n; auto | exact H].
        -- intros H. now inversion H.
    + split; [discriminate|]. intros H. inversion H as [|? ? [v [Hv _]] _].
      rewrite E in Hv. discriminate.
Qed.

Lemma has_calendar_true_iff (nu : string) (cals : list CalendarInfo.t) :
  has_calendar py nu cals = Ok true <->
  exists before c after, cals = (before ++ c :: after)%list /\
    Forall (differs py nu) before /\ matches py nu c.
Proof.
  induction cals as [|x cals IH]; simpl.
  - split; [discriminate|]. intros (b & c & a & H & _). now destruct b.
  - destruct (_normalize_url py (CalendarInfo.url x)) as [n|e] eqn:E; simpl.
    + destruct (String.eqb_spec n nu) as [->|Hne].
      * split; [|reflexivity]. intros _.
        exists [], x, cals. repeat split; [constructor | exact E].
      * rewrite IH. split.
        -- intros (b & c & a & -> & Hb & Hc).
           exists (x :: b), c, a. repeat split; [|exact Hc].
           constructor; [exists n; auto | exact Hb].
        -- intros (b & c & a & H & Hb & Hc).
           destruct b as [|y b]; simpl in H; injection H as -> ->.
           ++ unfold matches in Hc. rewrite E in Hc. inversion Hc; subst.
              now elim Hne.
           ++ exists b, c, a. repeat split; [|exact Hc]. now inversion Hb.
    + split; [discriminate|].
      intros (b & c & a & H & Hb & Hc).
      destruct b as [|y b]; simpl in H; injection H as -> ->.
      * unfold matches in Hc. rewrite E in Hc. discriminate.
      * inversion Hb as [|? ? [v [Hv _]] _]. rewrite E in Hv. discriminate.
Qed.

(** The outer loop, with no assumption on the cached URLs. *)
Lemma find_account_loop_some_iff (nu : string) (accounts : list t) (a : t) :
  find_account_loop py nu accounts = Ok (Some a) <->
  exists pre post, accounts = (pre ++ a :: post)%list /\
    Forall (scan_passes py nu) pre /\ scan_finds py nu a.
Proof.
  unfold scan_passes, scan_finds.
  induction accounts as [|x accounts IH]; simpl.
  - split; [discriminate|]. intros (pre & post & H & _). now destruct pre.
  - destruct (has_calendar py nu (calendars x)) as [[|]|e] eqn:E; simpl.
    + apply has_calendar_true_iff in E as Hx. split.
      * intros H. inversion H; subst. exists [], accounts.
        repeat split; [constructor | exact Hx].
      * intros (pre & post & H & Hpre & Ha).
        destruct pre as [|y pre]; simpl in H; injection H as -> ->;
          [reflexivity|].
        inversion Hpre as [|? ? Hy _]. apply has_calendar_false_iff in Hy.
        rewrite Hy in E. discriminate.
    + apply has_calendar_false_iff in E as Hx. rewrite IH. split.
      * intros (pre & post & -> & Hpre & Ha).
        exists (x :: pre), post. repeat split; [|exact Ha].
        now constructor.
      * intros (pre & post & H & Hpre & Ha).
        destruct pre as [|y pre]; simpl in H; injection H as -> ->.
        -- apply has_calendar_true_iff in Ha. rewrite Ha in E. discriminate.
        -- exists pre, post. repeat split; [|exact Ha]. now inversion Hpre.
    + split; [discriminate|].
      intros (pre & post & H & Hpre & Ha).
      destruct pre as [|y pre]; simpl in H; injection H as -> ->.
      * apply has_calendar_true_iff in Ha. rewrite Ha in E. discriminate.
      * inversion Hpre as [|? ? Hy _]. apply has_calendar_false_iff in Hy.
        rewrite Hy in E. discriminate.
Qed.

Lemma find_account_loop_none_iff (nu : string) (accounts : list t) :
  find_account_loop py nu accounts = Ok None <->
  Forall (scan_passes py nu) accounts.
Proof.
  unfold scan_passes.
  induction accounts as [|x accounts IH]; simpl.
  - split; [constructor | reflexivity].
  - destruct (has_calendar py nu (calendars x)) as [[|]|e] eqn:E; simpl.
    + split; [discriminate|]. intros H. inversion H as [|? ? Hx _].
      apply has_calendar_false_iff in Hx. rewrite Hx in E. discriminate.
    + apply has_calendar_false_iff in E as Hx. rewrite IH. split.
      * intros H. now constructor.
      * intros H. now inversion H.
    + split; [discriminate|]. intros H. inversion H as [|? ? Hx _].
      apply has_calendar_false_iff in Hx. rewrite Hx in E. discriminate.
Qed.

(** The lookup returns without a log, or logs one error and returns
    [None]. *)
Lemma get_calendar_by_url_outcome (self : t) (url : string) :
  (exists o, get_calendar_by_url py self url = ([], Ok o)) \/
  (exists e, get_calendar_by_url py self url =
     ([Log ERROR ("Error getting calendar by URL " ++ url ++ ": " ++ exn_str e)],
      Ok None)).
Proof.
  unfold get_calendar_by_url.
  destruct (client self) as [c|]; [|left; eexists; reflexivity].
  destruct (principal self) as [p|]; [|left; eexists; reflexivity].
  destruct (_normalize_url py url) as [nu|e]; simpl.
  - destruct (find_calendar py c nu (calendars self)) as [o|e]; simpl.
    + left; eauto.
    + right; eauto.
  - right; eauto.
Qed.



End ResolverFacts.

(** ** Resolution *)

Section Resolution.

Import CalDAVAccount.

Variable py : Platform.

(** C1 (amended). The resolver normalises the input URL; if that
    raises, the resolver raises the same exception. Otherwise it scans the
    accounts in registration order and the calendars of each in cached
    order, and returns the first account that has a calendar whose
    normalised URL equals the normalised input, provided the calendars
    scanned before that one normalise (to something else); it returns
    not-found exactly when every calendar of every account normalises to
    something else. In particular, when normalisation returns on all
    cached calendar URLs, the resolver returns, what it returns is the
    first account in registration order that has a matching calendar, and
    it is not-found exactly when no calendar of any account matches. *)
Theorem find_account_for_calendar_first_match
    (accounts : list t) (calendar_url : string) :
  match _normalize_url py calendar_url with
  | Raise e => find_account_for_calendar py accounts calendar_url = Raise e
  | Ok nu =>
      (forall a,
         find_account_for_calendar py accounts calendar_url = Ok (Some a) <->
         exists pre post, accounts = (pre ++ a :: post)%list /\
           Forall (scan_passes py nu) pre /\ scan_finds py nu a) /\
      (find_account_for_calendar py accounts calendar_url = Ok None <->
       Forall (scan_passes py nu) accounts) /\
      (normalizable py accounts ->
       (exists r, find_account_for_calendar py accounts calendar_url = Ok r) /\
       (forall a,
          find_account_for_calendar py accounts calendar_url = Ok (Some a) <->
          exists pre post, accounts = (pre ++ a :: post)%list /\
            (forall b, In b pre -> ~ owns py nu b) /\ owns py nu a) /\
       (find_account_for_calendar py accounts calendar_url = Ok None <->
        forall a, In a accounts -> ~ owns py nu a))
  end.
Proof.
  unfold find_account_for_calendar.
  destruct (_normalize_url py calendar_url) as [nu|e]; simpl; [|reflexivity].
  split; [intros a; apply find_account_loop_some_iff|].
  split; [apply find_account_loop_none_iff|].
  intros Hn.
  split; [now apply find_account_loop_returns|].
  split; [intros a; now apply find_account_loop_some|].
  now apply find_account_loop_none.
Qed.


End Resolution.

Lemma sample_accounts_normalizable :
  normalizable sample_py [work_account; home_account].
Proof.
  intros a c [<-|[<-|[]]] Hc; simpl in Hc;
    repeat (destruct Hc as [<-|Hc]; [eexists; reflexivity|]);
    destruct Hc.
Qed.

(** Two accounts expose calendars that normalise to "/cal/work/": the
    first registered one is returned. *)
Lemma find_account_for_calendar_first_match_witness :
  find_account_for_calendar sample_py [work_account; home_account] "/cal/work/"
  = Ok (Some work_account)
  /\ owns sample_py "/cal/work/" home_account.
Proof.
  pose proof (find_account_for_calendar_first_match sample_py
                [work_account; home_account] "/cal/work/") as H.
  simpl in H. destruct H as (_ & _ & H).
  destruct (H sample_accounts_normalizable) as (_ & H' & _).
  clear H. rename H' into H.
  split.
  - apply H. exists [], [home_account].
    split; [reflexivity|]. split; [intros b []|].
    eexists; split; [right; left; reflexivity | reflexivity].
  - eexists; split; [left; reflexivity | reflexivity].
Defined.

(** C1 as stated fails on an absolute URL that [urlparse] rejects: no
    calendar matches, and the resolver raises instead of returning
    not-found. *)
Lemma find_account_for_calendar_raises :
  let accounts := [work_account; home_account] in
  let u := "https://[::1/cal/work/" in
  (forall a c, In a accounts -> In c (CalDAVAccount.calendars a) ->
     CalDAVAccount._normalize_url sample_py (CalendarInfo.url c)
     <> CalDAVAccount._normalize_url sample_py u) /\
  find_account_for_calendar sample_py accounts u = Raise (ValueError "Invalid IPv6 URL") /\
  find_account_for_calendar sample_py accounts u <> Ok None.
Proof.
  cbv zeta. split; [|split; [reflexivity | discriminate]].
  intros a c [<-|[<-|[]]] Hc; simpl in Hc;
    repeat (destruct Hc as [<-|Hc]; [discriminate|]);
    destruct Hc.
Qed.



(** ** Listing events *)

Section ListEventsFacts.

Import CalDAVAccount.

Variable py : Platform.

Lemma mbind_ret_l {A B : Type} (a : A) (k : A -> M B) :
  mbind ([], Ok a) k = k a.
Proof. unfold mbind. now destruct (k a). Qed.

Lemma walk_components_acc (calendar_url : string) (comps : list Component.t)
    (acc : list EventInfo.t) :
  walk_components calendar_url comps acc =
  ((acc ++ fst (walk_components calendar_url comps []))%list,
   snd (walk_components calendar_url comps [])).
Proof.
  revert acc. induction comps as [|c comps IH]; intros acc; simpl.
  - now rewrite app_nil_r.
  - destruct (is_vevent c); [|apply IH].
    destruct (event_info calendar_url c) as [info|e]; simpl.
    + rewrite (IH (acc ++ [info])%list), (IH [info]). simpl.
      now rewrite <- app_assoc.
    + now rewrite app_nil_r.
Qed.

Lemma parse_event_acc (calendar_url : string) (event : Event)
    (acc : list EventInfo.t) :
  parse_event calendar_url event acc =
  ((acc ++ records_of calendar_url event)%list,
   snd (parse_event calendar_url event [])).
Proof.
  unfold records_of, parse_event.
  destruct (ical event) as [comps|e]; simpl.
  - apply walk_components_acc.
  - now rewrite app_nil_r.
Qed.

(** The loop never raises: it returns what was accumulated, followed by
    the records of each calendar object in order. *)
Lemma list_events_loop_spec (calendar_url : string) (evs : list Event)
    (acc : list EventInfo.t) :
  list_events_loop calendar_url evs acc =
  (flat_map (parse_warning calendar_url) evs,
   Ok (acc ++ flat_map (records_of calendar_url) evs)%list).
Proof.
  revert acc. induction evs as [|ev evs IH]; intros acc; simpl.
  - unfold ret. now rewrite app_nil_r.
  - rewrite parse_event_acc. unfold parse_warning.
    destruct (snd (parse_event calendar_url ev [])) as [[]|e]; simpl.
    + now rewrite IH, <- app_assoc.
    + rewrite IH. simpl. now rewrite <- app_assoc.
Qed.

Lemma list_events_in_returns (calendar : Calendar) (calendar_url : string)
    (start end_ : datetime) (evs : list Event) :
  date_search py calendar start end_ = Ok evs ->
  list_events_in py calendar calendar_url start end_ =
  (DateSearch calendar start end_ :: flat_map (parse_warning calendar_url) evs,
   Ok (flat_map (records_of calendar_url) evs)).
Proof.
  intros H. unfold list_events_in, perform. rewrite H. simpl.
  now rewrite list_events_loop_spec.
Qed.

(** When [list_events] returns, the calendar was found and the server
    answered the search. *)
Lemma list_events_ok_inv (self : t) (calendar_url : string)
    (start end_ : datetime) (tr : list effect) (infos : list EventInfo.t) :
  list_events py self calendar_url start end_ = (tr, Ok infos) ->
  exists calendar evs,
    get_calendar_by_url py self calendar_url = ([], Ok (Some calendar)) /\
    date_search py calendar start end_ = Ok evs /\
    infos = flat_map (records_of calendar_url) evs.
Proof.
  unfold list_events.
  destruct (get_calendar_by_url_outcome py self calendar_url)
    as [[o Hg]|[e Hg]]; rewrite Hg; [|discriminate].
  destruct o as [calendar|]; [|discriminate].
  rewrite mbind_ret_l.
  destruct (date_search py calendar start end_) as [evs|e] eqn:Ed.
  - rewrite (list_events_in_returns _ _ _ _ _ Ed).
    intros H; inversion H; subst. exists calendar, evs. auto.
  - unfold list_events_in, perform. rewrite Ed. simpl. discriminate.
Qed.

Lemma nonempty_text_spec (o : option string) :
  str_if_truthy o = nonempty_text o.
Proof. destruct o as [[|a s]|]; reflexivity. Qed.

(** [event_info] returns the record that the specification describes
    for a VEVENT with both dates, and raises on any other. *)
Lemma event_info_spec (calendar_url : string) (c : Component.t) :
  match spec_record calendar_url c with
  | Some r => event_info calendar_url c = Ok r
  | None => exists e, event_info calendar_url c = Raise e
  end.
Proof.
  unfold spec_record, event_info.
  rewrite !nonempty_text_spec.
  destruct (Component.dtstart c) as [vs|]; simpl; [|eauto].
  destruct (Component.dtend c) as [ve|]; simpl; [|eauto].
  destruct vs, ve; simpl; eauto.
Qed.

Lemma spec_record_fully_dated (calendar_url : string) (c : Component.t) :
  fully_dated c = true <-> exists r, spec_record calendar_url c = Some r.
Proof.
  unfold fully_dated, spec_record.
  destruct (Component.dtstart c) as [[| |]|], (Component.dtend c) as [[| |]|];
    simpl; split; eauto; try discriminate; intros [r H]; discriminate.
Qed.

Lemma walk_components_spec (calendar_url : string) (comps : list Component.t) :
  fst (walk_components calendar_url comps []) =
    leading_records calendar_url comps /\
  if forallb (fun c => negb (is_vevent c) || fully_dated c) comps
  then snd (walk_components calendar_url comps []) = Ok tt
  else exists e, snd (walk_components calendar_url comps []) = Raise e.
Proof.
  induction comps as [|c comps [IH1 IH2]]; simpl; [auto|].
  fold (is_vevent c). destruct (is_vevent c) eqn:Ev; simpl; [|auto].
  pose proof (event_info_spec calendar_url c) as Hi.
  pose proof (spec_record_fully_dated calendar_url c) as Hf.
  destruct (spec_record calendar_url c) as [r|].
  - rewrite Hi, walk_components_acc. simpl. rewrite IH1.
    rewrite (proj2 Hf (ex_intro _ r eq_refl)). simpl. auto.
  - destruct Hi as [e ->]. simpl.
    destruct (fully_dated c); simpl; [|eauto].
    destruct (proj1 Hf eq_refl) as [r Hr]. discriminate.
Qed.

Lemma records_of_spec (calendar_url : string) (event : Event) :
  records_of calendar_url event = entry_records calendar_url event.
Proof.
  unfold records_of, entry_records, parse_event.
  destruct (ical event) as [comps|e]; [|reflexivity].
  apply walk_components_spec.
Qed.

Lemma parse_warning_spec (calendar_url : string) (event : Event) :
  if entry_ok event then parse_warning calendar_url event = []
  else exists e, parse_warning calendar_url event =
         [Log WARNING ("Failed to parse event: " ++ exn_str e)].
Proof.
  unfold entry_ok, parse_warning, parse_event.
  destruct (ical event) as [comps|e]; simpl; [|eauto].
  destruct (walk_components_spec calendar_url comps) as [_ H].
  fold is_vevent.
  change (fun c => negb (String.eqb (Component.name c) "VEVENT")
                   || fully_dated c)
    with (fun c => negb (is_vevent c) || fully_dated c).
  destruct (forallb _ comps).
  - now rewrite H.
  - destruct H as [e ->]. eauto.
Qed.

Lemma parse_warnings_spec (calendar_url : string) (evs : list Event) :
  forallb is_parse_warning (flat_map (parse_warning calendar_url) evs) = true /\
  List.length (flat_map (parse_warning calendar_url) evs) =
  List.length (filter (fun ev => negb (entry_ok ev)) evs).
Proof.
  induction evs as [|ev evs [IH1 IH2]]; simpl; [auto|].
  pose proof (parse_warning_spec calendar_url ev) as H.
  destruct (entry_ok ev); simpl.
  - rewrite H. simpl. auto.
  - destruct H as [e ->]. simpl. rewrite IH1, IH2. auto.
Qed.

Lemma flat_map_records_spec (calendar_url : string) (evs : list Event) :
  flat_map (records_of calendar_url) evs =
  flat_map (entry_records calendar_url) evs.
Proof.
  induction evs as [|ev evs IH]; simpl; [reflexivity|].
  now rewrite records_of_spec, IH.
Qed.

(** The records of an entry of which every VEVENT has both dates are
    the records of its VEVENTs. *)
Lemma leading_records_ok (calendar_url : string) (comps : list Component.t) :
  forallb (fun c => negb (is_vevent c) || fully_dated c) comps = true ->
  map Some (leading_records calendar_url comps) =
  map (spec_record calendar_url) (filter is_vevent comps).
Proof.
  induction comps as [|c comps IH]; simpl; [reflexivity|].
  fold (is_vevent c). intros H. apply andb_true_iff in H as [Hc H].
  destruct (is_vevent c); simpl in *; [|now apply IH].
  apply (spec_record_fully_dated calendar_url) in Hc as [r Hr].
  rewrite Hr. simpl. now rewrite IH.
Qed.

(** A VEVENT with both dates, after VEVENTs with both dates, has its
    record among those of the entry. *)
Lemma leading_records_reach (calendar_url : string)
    (pre post : list Component.t) (c : Component.t) (r : EventInfo.t) :
  forallb (fun x => negb (is_vevent x) || fully_dated x) pre = true ->
  is_vevent c = true ->
  spec_record calendar_url c = Some r ->
  In r (leading_records calendar_url (pre ++ c :: post)).
Proof.
  intros Hpre Hv Hr. induction pre as [|x pre IH]; simpl.
  - unfold is_vevent in Hv. rewrite Hv, Hr. now left.
  - simpl in Hpre. apply andb_true_iff in Hpre as [Hx Hpre].
    fold (is_vevent x). destruct (is_vevent x); simpl in Hx; [|now apply IH].
    apply (spec_record_fully_dated calendar_url) in Hx as [rx Hrx].
    rewrite Hrx. right. now apply IH.
Qed.

Lemma leading_records_In (calendar_url : string) (comps : list Component.t)
    (r : EventInfo.t) :
  In r (leading_records calendar_url comps) ->
  exists c, In c comps /\ is_vevent c = true /\
    spec_record calendar_url c = Some r.
Proof.
  induction comps as [|c comps IH]; simpl; [intros []|].
  fold (is_vevent c). destruct (is_vevent c) eqn:Ev.
  - destruct (spec_record calendar_url c) as [rc|] eqn:Er; [|intros []].
    intros [<-|H]; [exists c; auto|].
    destruct (IH H) as (c' & Hin & Hv & Hr). exists c'. auto.
  - intros H. destruct (IH H) as (c' & Hin & Hv & Hr). exists c'. auto.
Qed.

(** The fields of the record of a VEVENT, read off its properties. *)
Lemma spec_record_fields (calendar_url : string) (c : Component.t)
    (r : EventInfo.t) :
  spec_record calendar_url c = Some r ->
  exists vs ve,
    Component.dtstart c = Some vs /\ Component.dtend c = Some ve /\
    (forall d, vs = DtDate d ->
       EventInfo.start r = mkDatetime d (mkTime 0 0 0 0) None) /\
    (forall dt, vs = DtDateTime dt -> EventInfo.start r = dt) /\
    (forall d, ve = DtDate d ->
       EventInfo.end_ r = mkDatetime d (mkTime 0 0 0 0) None) /\
    (forall dt, ve = DtDateTime dt -> EventInfo.end_ r = dt) /\
    (forall n, vs <> DtOther n) /\ (forall n, ve <> DtOther n) /\
    EventInfo.uid r = text_or_empty (Component.uid c) /\
    EventInfo.summary r = text_or_empty (Component.summary c) /\
    EventInfo.calendar_url r = calendar_url /\
    EventInfo.description r = nonempty_text (Component.description c) /\
    EventInfo.location r = nonempty_text (Component.location c).
Proof.
  unfold spec_record.
  destruct (Component.dtstart c) as [vs|]; [|discriminate].
  destruct (Component.dtend c) as [ve|]; [|discriminate].
  destruct (timestamp_of vs) as [s|] eqn:Es; [|discriminate].
  destruct (timestamp_of ve) as [e|] eqn:Ee; [|discriminate].
  intros H. injection H as <-. exists vs, ve. simpl.
  split; [reflexivity|]. split; [reflexivity|].
  split; [intros d ->; simpl in Es; now injection Es as <-|].
  split; [intros dt ->; simpl in Es; now injection Es as <-|].
  split; [intros d ->; simpl in Ee; now injection Ee as <-|].
  split; [intros dt ->; simpl in Ee; now injection Ee as <-|].
  split; [intros n ->; discriminate|].
  split; [intros n ->; discriminate|].
  auto.
Qed.

(** C7 (amended). Once the calendar is found and the server answers
    the search with a sequence of entries, [list_events] returns,
    whatever the entries are: no entry aborts the listing. It returns,
    in the order of the entries, what each entry contributes: nothing
    for an entry whose data does not decode or that has no VEVENT; for an
    entry that decodes and of which every VEVENT has a DTSTART and a
    DTEND that are dates or date-times, the record of each of its
    VEVENTs; for any other entry, the records of the VEVENTs before the
    first one that lacks such a date. One warning is logged for each
    entry that does not decode or has a VEVENT lacking such a date, and
    nothing else is logged. *)
Theorem list_events_skips_unparsable (self : t) (calendar : Calendar)
    (calendar_url : string) (start end_ : datetime) (evs : list Event) :
  get_calendar_by_url py self calendar_url = ([], Ok (Some calendar)) ->
  date_search py calendar start end_ = Ok evs ->
  exists warnings,
    list_events py self calendar_url start end_ =
      (DateSearch calendar start end_ :: warnings,
       Ok (flat_map (entry_records calendar_url) evs)) /\
    forallb is_parse_warning warnings = true /\
    List.length warnings =
      List.length (filter (fun ev => negb (entry_ok ev)) evs) /\
    (forall ev e, ical ev = Raise e ->
       entry_records calendar_url ev = [] /\ entry_ok ev = false) /\
    (forall ev comps, ical ev = Ok comps ->
       existsb is_vevent comps = false ->
       entry_records calendar_url ev = [] /\ entry_ok ev = true) /\
    (forall ev comps, ical ev = Ok comps -> entry_ok ev = true ->
       map Some (entry_records calendar_url ev) =
       map (spec_record calendar_url) (filter is_vevent comps)).
Proof.
  intros Hg Hd.
  exists (flat_map (parse_warning calendar_url) evs).
  split; [|split; [|split; [|split; [|split]]]].
  - unfold list_events. rewrite Hg, mbind_ret_l.
    rewrite (list_events_in_returns _ _ _ _ _ Hd).
    now rewrite flat_map_records_spec.
  - apply parse_warnings_spec.
  - apply parse_warnings_spec.
  - intros ev e He. unfold entry_records, entry_ok. now rewrite He.
  - intros ev comps He Hv. unfold entry_records, entry_ok. rewrite He.
    clear He. induction comps as [|c comps IH]; simpl; [auto|].
    simpl in Hv. apply orb_false_iff in Hv as [Hc Hv].
    unfold is_vevent in Hc. rewrite Hc. simpl. now apply IH.
  - intros ev comps He Hok. unfold entry_records, entry_ok in *.
    rewrite He in *. now apply leading_records_ok.
Qed.

(** C8. When [list_events] returns, the lookup found the calendar and
    the server answered the search on it, and the records are related to the VEVENTs of the answer in both
    directions. A VEVENT that has a DTSTART and a DTEND that are dates
    or date-times, in an entry that decodes and where the VEVENTs before
    it have such dates too, has a record in the result: when its DTSTART
    (or DTEND) is a date without a time, the start (or end) of the
    record is that date at 00:00:00, and when it is a date-time the
    record keeps it as it is. And every record of the result is the
    record of such a VEVENT, with its start and end obtained in that
    way. *)
Theorem list_events_dates_at_midnight (self : t) (calendar_url : string)
    (start end_ : datetime) (tr : list effect) (infos : list EventInfo.t) :
  list_events py self calendar_url start end_ = (tr, Ok infos) ->
  exists calendar evs,
    get_calendar_by_url py self calendar_url = ([], Ok (Some calendar)) /\
    date_search py calendar start end_ = Ok evs /\
    (forall ev pre c post,
       In ev evs -> ical ev = Ok (pre ++ c :: post)%list ->
       forallb (fun x => negb (is_vevent x) || fully_dated x) pre = true ->
       is_vevent c = true -> fully_dated c = true ->
       exists info vs ve,
         In info infos /\
         Component.dtstart c = Some vs /\ Component.dtend c = Some ve /\
         EventInfo.uid info = text_or_empty (Component.uid c) /\
         (forall d, vs = DtDate d ->
            EventInfo.start info = mkDatetime d (mkTime 0 0 0 0) None) /\
         (forall dt, vs = DtDateTime dt -> EventInfo.start info = dt) /\
         (forall d, ve = DtDate d ->
            EventInfo.end_ info = mkDatetime d (mkTime 0 0 0 0) None) /\
         (forall dt, ve = DtDateTime dt -> EventInfo.end_ info = dt)) /\
    (forall info, In info infos ->
       exists ev comps c vs ve,
         In ev evs /\ ical ev = Ok comps /\ In c comps /\
         is_vevent c = true /\
         Component.dtstart c = Some vs /\ Component.dtend c = Some ve /\
         EventInfo.uid info = text_or_empty (Component.uid c) /\
         (forall d, vs = DtDate d ->
            EventInfo.start info = mkDatetime d (mkTime 0 0 0 0) None) /\
         (forall dt, vs = DtDateTime dt -> EventInfo.start info = dt) /\
         (forall d, ve = DtDate d ->
            EventInfo.end_ info = mkDatetime d (mkTime 0 0 0 0) None) /\
         (forall dt, ve = DtDateTime dt -> EventInfo.end_ info = dt) /\
         (forall n, vs <> DtOther n) /\ (forall n, ve <> DtOther n)).
Proof.
  intros H.
  destruct (list_events_ok_inv _ _ _ _ _ _ H)
    as (calendar & evs & Hg & Hd & ->).
  rewrite flat_map_records_spec.
  exists calendar, evs. split; [exact Hg|]. split; [exact Hd|]. split.
  - intros ev pre c post Hev Hi Hpre Hv Hf.
    apply (spec_record_fully_dated calendar_url) in Hf as [r Hr].
    destruct (spec_record_fields _ _ _ Hr)
      as (vs & ve & Hs & He & H1 & H2 & H3 & H4 & _ & _ & Hu & _).
    exists r, vs, ve. split.
    + apply in_flat_map. exists ev. split; [exact Hev|].
      unfold entry_records. rewrite Hi.
      now apply leading_records_reach.
    + auto 10.
  - intros info Hin. apply in_flat_map in Hin as (ev & Hev & Hin).
    unfold entry_records in Hin.
    destruct (ical ev) as [comps|e] eqn:Hi; [|destruct Hin].
    apply leading_records_In in Hin as (c & Hc & Hv & Hr).
    destruct (spec_record_fields _ _ _ Hr)
      as (vs & ve & Hs & He & H1 & H2 & H3 & H4 & H5 & H6 & Hu & _).
    exists ev, comps, c, vs, ve. auto 15.
Qed.

(** Every record that [list_events] returns is the record of a VEVENT
    of an entry of the server's answer. *)
Lemma list_events_records (self : t) (calendar_url : string)
    (start end_ : datetime) (tr : list effect) (infos : list EventInfo.t)
    (info : EventInfo.t) :
  list_events py self calendar_url start end_ = (tr, Ok infos) ->
  In info infos ->
  exists calendar evs ev comps c,
    get_calendar_by_url py self calendar_url = ([], Ok (Some calendar)) /\
    date_search py calendar start end_ = Ok evs /\
    In ev evs /\ ical ev = Ok comps /\ In c comps /\
    is_vevent c = true /\ spec_record calendar_url c = Some info.
Proof.
  intros H Hin.
  destruct (list_events_ok_inv _ _ _ _ _ _ H)
    as (calendar & evs & Hg & Hd & ->).
  rewrite flat_map_records_spec in Hin.
  apply in_flat_map in Hin as (ev & Hev & Hin).
  unfold entry_records in Hin.
  destruct (ical ev) as [comps|e] eqn:Hi; [|destruct Hin].
  apply leading_records_In in Hin as (c & Hc & Hv & Hr).
  exists calendar, evs, ev, comps, c. auto 10.
Qed.

End ListEventsFacts.

(** ** Deleting an event *)

Section DeleteEventFacts.

Import CalDAVAccount.

Variable py : Platform.

(** One iteration on a calendar object without the UID: a warning if it
    does not decode, and the scan goes on. *)
Lemma delete_event_loop_skip (calendar_url uid : string) (ev : Event)
    (rest : list Event) :
  contains_uid uid ev = false ->
  delete_event_loop py calendar_url uid (ev :: rest) =
  let '(t, r) := delete_event_loop py calendar_url uid rest in
  ((deletion_warning ev ++ t)%list, r).
Proof.
  unfold contains_uid, deletion_warning. simpl. unfold delete_if_match.
  destruct (ical ev) as [comps|e]; simpl.
  - intros ->. simpl.
    now destruct (delete_event_loop py calendar_url uid rest).
  - intros _.
    now destruct (delete_event_loop py calendar_url uid rest).
Qed.

Lemma delete_event_loop_prefix (calendar_url uid : string)
    (pre rest : list Event) :
  (forall x, In x pre -> contains_uid uid x = false) ->
  delete_event_loop py calendar_url uid (pre ++ rest) =
  let '(t, r) := delete_event_loop py calendar_url uid rest in
  ((flat_map deletion_warning pre ++ t)%list, r).
Proof.
  induction pre as [|x pre IH]; intros H.
  - simpl. now destruct (delete_event_loop py calendar_url uid rest).
  - change ((x :: pre) ++ rest)%list with (x :: (pre ++ rest))%list.
    rewrite delete_event_loop_skip by (apply H; now left).
    rewrite IH by (intros y Hy; apply H; now right).
    destruct (delete_event_loop py calendar_url uid rest) as [t r].
    simpl. now rewrite app_assoc.
Qed.

(** One iteration on a calendar object with the UID, when the server
    performs the deletion: the function returns at once. *)
Lemma delete_event_loop_hit (calendar_url uid : string) (ev : Event)
    (rest : list Event) :
  contains_uid uid ev = true ->
  delete py ev = Ok tt ->
  delete_event_loop py calendar_url uid (ev :: rest) =
  ([Delete ev;
    Log INFO ("Deleted event " ++ uid ++ " from calendar " ++ calendar_url)],
   Ok tt).
Proof.
  unfold contains_uid. simpl. unfold delete_if_match, perform.
  destruct (ical ev) as [comps|e]; simpl; [|discriminate].
  intros -> ->. reflexivity.
Qed.

Lemma delete_event_loop_none (calendar_url uid : string) (evs : list Event) :
  (forall x, In x evs -> contains_uid uid x = false) ->
  delete_event_loop py calendar_url uid evs =
  (flat_map deletion_warning evs,
   Raise (ValueError ("Event with UID " ++ uid ++ " not found in calendar"))).
Proof.
  intros H. rewrite <- (app_nil_r evs) at 1.
  rewrite (delete_event_loop_prefix _ _ _ _ H). simpl.
  now rewrite app_nil_r.
Qed.

(** When the scan returns normally, it deleted a calendar object that
    has the UID. *)
Lemma delete_event_loop_ok (calendar_url uid : string) (evs : list Event)
    (tr : list effect) :
  delete_event_loop py calendar_url uid evs = (tr, Ok tt) ->
  exists ev, In ev evs /\ contains_uid uid ev = true /\
    delete py ev = Ok tt /\ In (Delete ev) tr.
Proof.
  revert tr. induction evs as [|x evs IH]; intros tr; simpl; [discriminate|].
  unfold delete_if_match, perform.
  destruct (ical x) as [comps|e] eqn:Ei; simpl.
  - destruct (existsb (has_uid uid) comps) eqn:Eu; simpl.
    + destruct (delete py x) as [[]|e] eqn:Ed; simpl.
      * intros H; inversion H; subst.
        exists x. unfold contains_uid. rewrite Ei.
        repeat split; auto; now left.
      * destruct (delete_event_loop py calendar_url uid evs) as [t r] eqn:El.
        intros H; inversion H; subst.
        destruct (IH _ eq_refl) as (ev & Hin & Hu & Hd & Ht).
        exists ev. repeat split; auto. right. right. exact Ht.
    + destruct (delete_event_loop py calendar_url uid evs) as [t r] eqn:El.
      intros H; inversion H; subst.
      destruct (IH _ eq_refl) as (ev & Hin & Hu & Hd & Ht).
      exists ev. repeat split; auto.
  - destruct (delete_event_loop py calendar_url uid evs) as [t r] eqn:El.
    intros H; inversion H; subst.
    destruct (IH _ eq_refl) as (ev & Hin & Hu & Hd & Ht).
    exists ev. repeat split; auto. right. exact Ht.
Qed.

Lemma delete_event_in_events (calendar : Calendar) (calendar_url uid : string)
    (evs : list Event) :
  events py calendar = Ok evs ->
  delete_event_in py calendar calendar_url uid =
  match delete_event_loop py calendar_url uid evs with
  | (t, Ok a) => (Events calendar :: t, Ok a)
  | (t, Raise e) =>
      ((Events calendar :: t
          ++ [Log ERROR ("Failed to delete event: " ++ exn_str e)])%list,
       Raise e)
  end.
Proof.
  intros H. unfold delete_event_in, perform. rewrite H. simpl.
  destruct (delete_event_loop py calendar_url uid evs) as [t [a|e]];
    reflexivity.
Qed.

(** On a calendar that resolves and whose objects the server lists,
    when the server performs the deletion of the first object that has
    a VEVENT with the requested UID: after the warnings for the
    undecodable objects before it the only request is the deletion of
    that object, and the call returns at once. If no object has the UID,
    the call raises the not-found error, after the whole scan. And a
    call that returns normally has deleted an object that has the
    UID. *)
Lemma delete_event_first_performed (self : t) (calendar : Calendar)
    (calendar_url uid : string) (evs : list Event) :
  get_calendar_by_url py self calendar_url = ([], Ok (Some calendar)) ->
  events py calendar = Ok evs ->
  (forall pre ev post,
     evs = (pre ++ ev :: post)%list ->
     (forall x, In x pre -> contains_uid uid x = false) ->
     contains_uid uid ev = true ->
     delete py ev = Ok tt ->
     delete_event py self calendar_url uid =
     ((Events calendar
         :: flat_map deletion_warning pre
         ++ [Delete ev;
             Log INFO ("Deleted event " ++ uid ++ " from calendar "
                       ++ calendar_url)])%list,
      Ok tt)) /\
  ((forall x, In x evs -> contains_uid uid x = false) ->
   delete_event py self calendar_url uid =
   ((Events calendar
       :: flat_map deletion_warning evs
       ++ [Log ERROR ("Failed to delete event: Event with UID " ++ uid
                      ++ " not found in calendar")])%list,
    Raise (ValueError ("Event with UID " ++ uid ++ " not found in calendar")))) /\
  (forall tr,
     delete_event py self calendar_url uid = (tr, Ok tt) ->
     exists ev, In ev evs /\ contains_uid uid ev = true /\
       delete py ev = Ok tt /\ In (Delete ev) tr).
Proof.
  intros Hg He.
  assert (Hd : delete_event py self calendar_url uid =
               delete_event_in py calendar calendar_url uid).
  { unfold delete_event. now rewrite Hg, mbind_ret_l. }
  rewrite Hd, (delete_event_in_events _ _ _ _ He).
  split; [|split].
  - intros pre ev post -> Hpre Hu Hdel.
    rewrite (delete_event_loop_prefix _ _ _ _ Hpre).
    now rewrite (delete_event_loop_hit _ _ _ _ Hu Hdel).
  - intros Hnone. rewrite (delete_event_loop_none _ _ _ Hnone).
    simpl. reflexivity.
  - intros tr.
    destruct (delete_event_loop py calendar_url uid evs) as [t [[]|e]] eqn:El;
      [|discriminate].
    intros H; inversion H; subst.
    destruct (delete_event_loop_ok _ _ _ _ El) as (ev & Hin & Hu & Hdel & Ht).
    exists ev. repeat split; auto. now right.
Qed.

End DeleteEventFacts.

Lemma list_events_skips_unparsable_witness :
  exists warnings,
    CalDAVAccount.list_events sample_py work_account "/cal/work/" nov27 dec27 =
    (DateSearch work_calendar nov27 dec27 :: warnings,
     Ok [holiday_record; standup_record]) /\
    List.length warnings = 1.
Proof.
  destruct (list_events_skips_unparsable sample_py work_account work_calendar
              "/cal/work/" nov27 dec27 sample_events eq_refl eq_refl)
    as (warnings & H & _ & Hl & _).
  exists warnings. split; [exact H | exact Hl].
Defined.

(** C7 as stated fails on an entry that decodes and whose VEVENTs have
    the dates that RFC 5545 allows, one of them without DTEND: the
    listing returns the record of the VEVENT before that one and drops
    the entry from there on, the VEVENT without DTEND and the all-day
    VEVENT after it included, with a warning. *)
Lemma list_events_drops_open_ended :
  date_search series_py work_calendar nov27 dec27 = Ok [series_event] /\
  ical series_event =
    Ok [vcalendar_component; work_component; open_ended_component;
        allday_component] /\
  forallb rfc_dated [work_component; open_ended_component; allday_component]
  = true /\
  CalDAVAccount.list_events series_py work_account "/cal/work/" nov27 dec27 =
  ([DateSearch work_calendar nov27 dec27;
    Log WARNING
      "Failed to parse event: 'NoneType' object has no attribute 'dt'"],
   Ok [standup_record]) /\
  ~ In holiday_record [standup_record].
Proof.
  repeat split. intros [H|[]]. discriminate.
Qed.

Lemma list_events_dates_at_midnight_witness :
  exists tr infos info,
    CalDAVAccount.list_events sample_py work_account "/cal/work/" nov27 dec27
    = (tr, Ok infos) /\
    In info infos /\
    EventInfo.uid info = "uid-holiday" /\
    EventInfo.start info = mkDatetime 739586 (mkTime 0 0 0 0) None /\
    EventInfo.end_ info = mkDatetime 739587 (mkTime 0 0 0 0) None.
Proof.
  destruct (list_events_dates_at_midnight sample_py work_account "/cal/work/"
              nov27 dec27 _ _ eq_refl)
    as (calendar & evs & _ & Hd & Hpos & _).
  simpl in Hd. injection Hd as <-.
  destruct (Hpos holiday_event [vcalendar_component] allday_component []
              (or_intror (or_introl eq_refl)) eq_refl eq_refl eq_refl eq_refl)
    as (info & vs & ve & Hin & Hs & He & Hu & Hsd & _ & Hed & _).
  simpl in Hs, He. injection Hs as <-. injection He as <-.
  eexists _, _, info. split; [reflexivity|]. split; [exact Hin|].
  split; [exact Hu|]. split; [exact (Hsd _ eq_refl) | exact (Hed _ eq_refl)].
Defined.

(** C9. The claim fails where the server refuses a deletion: the call
    of [event.delete()] sits inside the [try] whose handler is meant for
    parse failures, so the refusal is logged as a parse warning and the
    scan goes on. On a calendar that lists two objects with the UID, of
    which the server refuses to delete the first, [delete_event] leaves
    the first object in place, deletes the second and returns normally.
    On a calendar where the only object with the UID cannot be deleted,
    it raises "Event with UID ... not found in calendar" although the
    scan found the event. *)
Theorem delete_event_skips_refused_match :
  events flaky_py work_calendar = Ok [standup_event; standup_copy_event] /\
  contains_uid "uid-standup" standup_event = true /\
  delete flaky_py standup_event = Raise (DAVError "Forbidden") /\
  CalDAVAccount.delete_event flaky_py work_account "/cal/work/" "uid-standup" =
  ([Events work_calendar;
    Delete standup_event;
    Log WARNING "Failed to parse event during deletion: Forbidden";
    Delete standup_copy_event;
    Log INFO "Deleted event uid-standup from calendar /cal/work/"],
   Ok tt) /\
  events readonly_py work_calendar = Ok sample_events /\
  existsb (contains_uid "uid-standup") sample_events = true /\
  CalDAVAccount.delete_event readonly_py work_account "/cal/work/" "uid-standup" =
  ([Events work_calendar;
    Log WARNING "Failed to parse event during deletion: Expected BEGIN:VCALENDAR";
    Delete standup_event;
    Log WARNING "Failed to parse event during deletion: Forbidden";
    Log ERROR "Failed to delete event: Event with UID uid-standup not found in calendar"],
   Raise (ValueError "Event with UID uid-standup not found in calendar")).
Proof. repeat split. Qed.

(** ** The tools *)

Section ToolFacts.

Import CalDAVAccount.

Variable py : Platform.

Lemma mbind_lift_ok {A B : Type} (a : A) (k : A -> M B) :
  mbind (lift (Ok a)) k = k a.
Proof. apply mbind_ret_l. Qed.

Lemma add_days_ok (dt : datetime) (n : Z) :
  (0 < dt_date dt + n <= MAXORDINAL)%Z ->
  add_days dt n = Ok (mkDatetime (dt_date dt + n) (dt_time dt) (dt_tzinfo dt)).
Proof.
  intros [H1 H2]. unfold add_days.
  apply Z.ltb_lt in H1. apply Z.leb_le in H2. now rewrite H1, H2.
Qed.

Lemma add_days_overflow (dt : datetime) (n : Z) :
  (MAXORDINAL < dt_date dt + n)%Z ->
  add_days dt n = Raise (OverflowError "date value out of range").
Proof.
  intros H. unfold add_days.
  replace (dt_date dt + n <=? MAXORDINAL)%Z with false
    by (symmetry; apply Z.leb_gt; exact H).
  now rewrite andb_false_r.
Qed.

(** Beyond 9999-12-01 the default end does not exist: the tool raises
    and sends nothing to the server. *)
Lemma list_events_default_end_overflow (accounts : list t)
    (calendar_url start : string) (account : t) (start_dt : datetime) :
  find_account_for_calendar py accounts calendar_url = Ok (Some account) ->
  parse_date py start = Ok start_dt ->
  (MAXORDINAL < dt_date start_dt + 30)%Z ->
  list_events_tool py accounts calendar_url start None =
  ([], Raise (OverflowError "date value out of range")).
Proof.
  intros Hf Hp Ho. unfold list_events_tool.
  now rewrite Hf, mbind_lift_ok, Hp, mbind_lift_ok, (add_days_overflow _ _ Ho).
Qed.

(** The first effect of [list_events_in] is the search request. *)
Lemma list_events_in_head (calendar : Calendar) (calendar_url : string)
    (start end_ : datetime) :
  exists rest r,
    list_events_in py calendar calendar_url start end_ =
    (DateSearch calendar start end_ :: rest, r).
Proof.
  unfold list_events_in, perform.
  destruct (date_search py calendar start end_) as [evs|e]; simpl.
  - rewrite list_events_loop_spec. simpl. eauto.
  - eauto.
Qed.

Lemma mbind_head {A B : Type} (m : M A) (k : A -> M B) (ef : effect)
    (rest : list effect) (r : result A) :
  m = (ef :: rest, r) ->
  exists rest' r', mbind m k = (ef :: rest', r').
Proof.
  intros ->. unfold mbind. destruct r as [a|e]; [|eauto].
  destruct (k a). simpl. eauto.
Qed.

(** When the resolver finds no account, [list_events_tool] raises with a
    message that lists the URL of every cached calendar, in order;
    [create_event_tool] and [delete_event_tool] raise with a message that
    names the requested URL and nothing else. *)
Lemma not_found_messages (accounts : list t) (calendar_url : string) :
  find_account_for_calendar py accounts calendar_url = Ok None ->
  (forall start end_,
     list_events_tool py accounts calendar_url start end_ =
     ([], Raise (ValueError
        ("No account found for calendar URL: " ++ calendar_url ++ ". "
         ++ "Available URLs: " ++ PyStr.join ", " (available_urls accounts))))) /\
  (forall summary start end_ description location,
     create_event_tool py accounts calendar_url summary start end_
       description location =
     ([], Raise (ValueError
        ("No account found for calendar URL: " ++ calendar_url)))) /\
  (forall uid,
     delete_event_tool py accounts calendar_url uid =
     ([], Raise (ValueError
        ("No account found for calendar URL: " ++ calendar_url)))).
Proof.
  intros H. repeat split; intros;
    unfold list_events_tool, create_event_tool, delete_event_tool;
    now rewrite H, mbind_lift_ok.
Qed.

(** What [list_events_in] leaves in the trace is the search request,
    followed by log entries. *)
Lemma list_events_in_trace (calendar : Calendar) (calendar_url : string)
    (start end_ : datetime) :
  exists rest r,
    list_events_in py calendar calendar_url start end_ =
    (DateSearch calendar start end_ :: rest, r) /\
    forallb (fun ef => negb (is_request ef)) rest = true.
Proof.
  unfold list_events_in, perform.
  destruct (date_search py calendar start end_) as [evs|e]; simpl.
  - rewrite list_events_loop_spec. simpl. eexists _, _.
    split; [reflexivity|].
    apply forallb_forall. intros ef Hef.
    apply in_flat_map in Hef as (ev & _ & Hef). unfold parse_warning in Hef.
    destruct (snd (parse_event calendar_url ev [])); [destruct Hef|].
    destruct Hef as [<-|[]]. reflexivity.
  - eexists _, _. split; reflexivity.
Qed.

(** Every search that [list_events] sends carries the range it was
    given. *)
Lemma list_events_queries (self : t) (calendar_url : string)
    (start end_ : datetime) (cal : Calendar) (s e : datetime) :
  In (DateSearch cal s e) (fst (list_events py self calendar_url start end_)) ->
  s = start /\ e = end_.
Proof.
  unfold list_events.
  destruct (get_calendar_by_url_outcome py self calendar_url)
    as [[o H]|[e0 H]]; rewrite H.
  - destruct o as [calendar|]; [|intros []].
    rewrite mbind_ret_l.
    destruct (list_events_in_trace calendar calendar_url start end_)
      as (rest & r & -> & Hrest).
    simpl. intros [Hq|Hin]; [now injection Hq as _ <- <-|].
    rewrite forallb_forall in Hrest. apply Hrest in Hin. discriminate.
  - simpl. intros [Hq|[]]. discriminate.
Qed.

Lemma mbind_ret_trace {A B : Type} (m : M A) (f : A -> B) :
  fst (x <~ m ;; ret (f x)) = fst m.
Proof.
  destruct m as [t [a|e]]; simpl; [|reflexivity]. apply app_nil_r.
Qed.

(** C5. When [end] is omitted (or empty) and the start parses to a
    datetime whose date is at most 9999-12-01, [list_events_tool] calls
    [list_events] of the resolved account with the range that starts at
    the parsed start and ends exactly 30 days later: the date is 30 days
    on, and the time of day and the time zone are those of the start.
    Every search that the tool sends carries that range; and when the
    lookup of the account finds the calendar, the tool starts by sending
    the search with that range to that calendar. *)
Theorem list_events_default_end (accounts : list t)
    (calendar_url start : string) (account : t) (start_dt : datetime) :
  find_account_for_calendar py accounts calendar_url = Ok (Some account) ->
  parse_date py start = Ok start_dt ->
  (1 <= dt_date start_dt)%Z ->
  (dt_date start_dt + 30 <= MAXORDINAL)%Z ->
  exists end_dt,
    dt_date end_dt = (dt_date start_dt + 30)%Z /\
    dt_time end_dt = dt_time start_dt /\
    dt_tzinfo end_dt = dt_tzinfo start_dt /\
    list_events_tool py accounts calendar_url start None =
      (evs <~ list_events py account calendar_url start_dt end_dt ;;
       ret (map (to_dict py) evs)) /\
    (forall cal s e,
       In (DateSearch cal s e)
          (fst (list_events_tool py accounts calendar_url start None)) ->
       s = start_dt /\ e = end_dt) /\
    (forall calendar,
       get_calendar_by_url py account calendar_url = ([], Ok (Some calendar)) ->
       exists rest r,
         list_events_tool py accounts calendar_url start None =
         (DateSearch calendar start_dt end_dt :: rest, r)) /\
    list_events_tool py accounts calendar_url start (Some "") =
    list_events_tool py accounts calendar_url start None.
Proof.
  intros Hf Hp H1 H2.
  set (end_dt := mkDatetime (dt_date start_dt + 30) (dt_time start_dt)
                   (dt_tzinfo start_dt)).
  assert (Ha : add_days start_dt 30 = Ok end_dt) by (apply add_days_ok; lia).
  assert (Ht : list_events_tool py accounts calendar_url start None =
               (evs <~ list_events py account calendar_url start_dt end_dt ;;
                ret (map (to_dict py) evs))).
  { unfold list_events_tool.
    now rewrite Hf, mbind_lift_ok, Hp, mbind_lift_ok, Ha, mbind_lift_ok. }
  exists end_dt.
  repeat (split; [reflexivity|]).
  split; [exact Ht|]. split; [|split].
  - intros cal s e. rewrite Ht, mbind_ret_trace. apply list_events_queries.
  - intros calendar Hg. rewrite Ht.
    unfold list_events. rewrite Hg, mbind_ret_l.
    destruct (list_events_in_head calendar calendar_url start_dt end_dt)
      as (rest & r & Hh).
    eapply mbind_head; eauto.
  - unfold list_events_tool. now rewrite Hf.
Qed.

(** Replacing 'Z' in pieces without 'Z' that are joined by 'Z' joins
    the pieces by the replacement. *)
Lemma replace_join (pieces : list string) :
  Forall (fun piece => PyStr.contains "Z" piece = false) pieces ->
  PyStr.replace "Z" "+00:00" (PyStr.join "Z" pieces) =
  PyStr.join "+00:00" pieces.
Proof.
  unfold PyStr.join.
  induction pieces as [|x xs IH]; intros H; [reflexivity|].
  inversion H as [|? ? Hx Hxs]; subst.
  destruct xs as [|y ys].
  - simpl. now apply PyStrFacts.replace_no_occurrence.
  - change (String.concat "Z" (x :: y :: ys))
      with (x ++ "Z" ++ String.concat "Z" (y :: ys)).
    change (String.concat "+00:00" (x :: y :: ys))
      with (x ++ "+00:00" ++ String.concat "+00:00" (y :: ys)).
    rewrite PyStrFacts.replace_app, (PyStrFacts.replace_no_occurrence _ _ _ Hx).
    rewrite PyStrFacts.replace_app, (IH Hxs). reflexivity.
Qed.

(** Every string is made of pieces without 'Z', joined by 'Z'. *)
Lemma join_pieces (s : string) :
  exists pieces,
    Forall (fun piece => PyStr.contains "Z" piece = false) pieces /\
    s = PyStr.join "Z" pieces.
Proof.
  unfold PyStr.join.
  assert (H : exists p ps,
            Forall (fun piece => PyStr.contains "Z" piece = false) (p :: ps) /\
            s = String.concat "Z" (p :: ps)).
  { induction s as [|a s (p & ps & Hf & ->)].
    - exists "", []. split; [repeat constructor | reflexivity].
    - destruct (Ascii.eqb a "Z") eqn:Ea.
      + apply Ascii.eqb_eq in Ea as ->.
        exists "", (p :: ps). split; [constructor; auto | reflexivity].
      + exists (String a p), ps. inversion Hf as [|? ? Hp Hps]; subst. split.
        * constructor; [|exact Hps]. cbn [PyStr.contains]. now rewrite Ea.
        * now destruct ps. }
  destruct H as (p & ps & Hf & ->). eauto.
Qed.

(** C6 (amended). In every date argument of [list_events_tool] and
    [create_event_tool], each 'Z', wherever it stands, is replaced by
    "+00:00", and the platform parser is handed the result: for a start
    and an end written as pieces without 'Z' joined by 'Z', which every
    string is, the tools behave as the parser decides on the same pieces
    joined by "+00:00". They raise the parser's exception, sending
    nothing, when it rejects the start or, next, the end; and they run
    the operation of the resolved account on the two datetimes it
    returns. So a trailing 'Z' is read as the offset +00:00, a string
    without 'Z' is handed over unchanged, and a 'Z' inside the string is
    rewritten as well. *)
Theorem parse_date_replaces_every_Z (accounts : list t)
    (calendar_url : string) (account : t) (starts ends : list string) :
  find_account_for_calendar py accounts calendar_url = Ok (Some account) ->
  Forall (fun piece => PyStr.contains "Z" piece = false) starts ->
  Forall (fun piece => PyStr.contains "Z" piece = false) ends ->
  let start := PyStr.join "Z" starts in
  let end_ := PyStr.join "Z" ends in
  let parsed_start := fromisoformat py (PyStr.join "+00:00" starts) in
  let parsed_end := fromisoformat py (PyStr.join "+00:00" ends) in
  parse_date py start = parsed_start /\
  parse_date py end_ = parsed_end /\
  (forall e, parsed_start = Raise e ->
     (forall en,
        list_events_tool py accounts calendar_url start en = ([], Raise e)) /\
     (forall summary description location,
        create_event_tool py accounts calendar_url summary start end_
          description location = ([], Raise e))) /\
  (forall start_dt e, parsed_start = Ok start_dt -> parsed_end = Raise e ->
     (truthy end_ = true ->
      list_events_tool py accounts calendar_url start (Some end_)
      = ([], Raise e)) /\
     (forall summary description location,
        create_event_tool py accounts calendar_url summary start end_
          description location = ([], Raise e))) /\
  (forall start_dt end_dt,
     parsed_start = Ok start_dt -> parsed_end = Ok end_dt ->
     (truthy end_ = true ->
      list_events_tool py accounts calendar_url start (Some end_) =
      (evs <~ list_events py account calendar_url start_dt end_dt ;;
       ret (map (to_dict py) evs))) /\
     (forall summary description location,
        create_event_tool py accounts calendar_url summary start end_
          description location =
        create_event py account calendar_url summary start_dt end_dt
          description location)) /\
  (forall t, PyStr.join "Z" [t; ""] = t ++ "Z" /\
             PyStr.join "+00:00" [t; ""] = t ++ "+00:00") /\
  (forall s, PyStr.join "Z" [s] = s /\ PyStr.join "+00:00" [s] = s) /\
  (forall s, exists pieces,
     Forall (fun piece => PyStr.contains "Z" piece = false) pieces /\
     s = PyStr.join "Z" pieces).
Proof.
  intros Hf Hs He. cbv zeta.
  assert (Ps : parse_date py (PyStr.join "Z" starts)
               = fromisoformat py (PyStr.join "+00:00" starts))
    by (unfold parse_date; now rewrite replace_join).
  assert (Pe : parse_date py (PyStr.join "Z" ends)
               = fromisoformat py (PyStr.join "+00:00" ends))
    by (unfold parse_date; now rewrite replace_join).
  split; [exact Ps|]. split; [exact Pe|].
  unfold list_events_tool, create_event_tool.
  split; [|split; [|split; [|split; [|split]]]].
  - intros e H. split; intros; now rewrite Hf, mbind_lift_ok, Ps, H.
  - intros start_dt e H1 H2. split.
    + intros Ht. now rewrite Hf, mbind_lift_ok, Ps, H1, mbind_lift_ok, Ht, Pe, H2.
    + intros. now rewrite Hf, mbind_lift_ok, Ps, H1, mbind_lift_ok, Pe, H2.
  - intros start_dt end_dt H1 H2. split.
    + intros Ht.
      now rewrite Hf, mbind_lift_ok, Ps, H1, mbind_lift_ok, Ht, Pe, H2,
        mbind_lift_ok.
    + intros.
      now rewrite Hf, mbind_lift_ok, Ps, H1, mbind_lift_ok, Pe, H2,
        mbind_lift_ok.
  - intros t. split; [reflexivity|]. unfold PyStr.join. simpl.
    reflexivity.
  - intros s0. split; reflexivity.
  - apply join_pieces.
Qed.

End ToolFacts.

(** C3. The claim holds for [list_events_tool] and fails for
    [create_event_tool] and [delete_event_tool]: on a URL that no account
    owns, their message names none of the known calendar URLs, while the
    message of [list_events_tool] lists the three of them. *)
Theorem create_and_delete_omit_available_urls :
  let accounts := [work_account; home_account] in
  let msg := "No account found for calendar URL: /cal/home/" in
  find_account_for_calendar sample_py accounts "/cal/home/" = Ok None /\
  create_event_tool sample_py accounts "/cal/home/" "Standup"
    "2025-11-27T09:00:00" "2025-11-27T09:15:00" None None
  = ([], Raise (ValueError msg)) /\
  delete_event_tool sample_py accounts "/cal/home/" "uid-standup"
  = ([], Raise (ValueError msg)) /\
  available_urls accounts =
    ["https://dav.example.org/cal/personal/";
     "https://dav.example.org/cal/work/"; "/cal/work/"] /\
  forallb (fun u => negb (PyStr.has_substring u msg)) (available_urls accounts)
  = true /\
  list_events_tool sample_py accounts "/cal/home/" "2025-11-27T09:00:00" None
  = ([], Raise (ValueError
       (msg ++ ". Available URLs: https://dav.example.org/cal/personal/, "
        ++ "https://dav.example.org/cal/work/, /cal/work/"))).
Proof. cbv zeta. repeat split. Qed.

Lemma list_events_default_end_witness :
  exists end_dt rest r,
    list_events_tool sample_py [work_account; home_account] "/cal/work/"
      "2025-11-27T09:00:00" None
    = (DateSearch work_calendar (mkDatetime 739582 (mkTime 9 0 0 0) None) end_dt
         :: rest, r)
    /\ dt_date end_dt = 739612%Z
    /\ dt_time end_dt = mkTime 9 0 0 0.
Proof.
  destruct (list_events_default_end sample_py [work_account; home_account]
              "/cal/work/" "2025-11-27T09:00:00" work_account
              (mkDatetime 739582 (mkTime 9 0 0 0) None)
              eq_refl eq_refl)
    as (end_dt & Hd & Ht & _ & _ & _ & Hq & _);
    [simpl; lia | unfold MAXORDINAL; simpl; lia |].
  destruct (Hq work_calendar eq_refl) as (rest & r & H).
  exists end_dt, rest, r. auto.
Defined.

Lemma parse_date_replaces_every_Z_witness :
  parse_date sample_py "2025-11-27T00:00:00Z"
  = Ok (mkDatetime 739582 (mkTime 0 0 0 0) (Some (FixedOffset 0)))
  /\ create_event_tool sample_py [work_account; home_account] "/cal/work/"
       "Standup" "2025-11-27T00:00:00Z" "2025-11-27Z10:00:00" None None
     = ([], Raise (ValueError
                     "Invalid isoformat string: '2025-11-27+00:0010:00:00'")).
Proof.
  destruct (parse_date_replaces_every_Z sample_py [work_account; home_account]
              "/cal/work/" work_account ["2025-11-27T00:00:00"; ""]
              ["2025-11-27"; "10:00:00"] eq_refl)
    as (Hs & _ & _ & Hend & _).
  - repeat constructor.
  - repeat constructor.
  - split; [exact Hs|].
    exact (proj2 (Hend _ _ eq_refl eq_refl) "Standup" None None).
Defined.

(** C6 as stated fails on a string that the platform parser accepts and
    in which 'Z' is not the last character: Python's [fromisoformat]
    takes any character between the date and the time, so it reads
    "2025-11-27Z10:00:00" as 10:00 on that day; the tools rewrite the
    string before parsing, and the parser rejects what they hand over. *)
Lemma parse_date_rewrites_inner_Z :
  let s := "2025-11-27Z10:00:00" in
  PyStr.endswith_char "Z" s = false /\
  fromisoformat sample_py s = Ok (mkDatetime 739582 (mkTime 10 0 0 0) None) /\
  PyStr.replace "Z" "+00:00" s = "2025-11-27+00:0010:00:00" /\
  parse_date sample_py s =
    Raise (ValueError "Invalid isoformat string: '2025-11-27+00:0010:00:00'") /\
  parse_date sample_py s <> fromisoformat sample_py s.
Proof. cbv zeta. repeat split. discriminate. Qed.

(** ** More on the operations of an account *)

Section AccountFacts.

Import CalDAVAccount.

Variable py : Platform.

(** What the scan of [get_calendar_by_url] returns is built from a
    cached calendar that normalises to the URL sought. *)
Lemma find_calendar_some (c : DAVClient) (nu : string)
    (cals : list CalendarInfo.t) (cal : Calendar) :
  find_calendar py c nu cals = Ok (Some cal) ->
  exists ci, In ci cals /\ matches py nu ci /\
    join_url py c (CalendarInfo.url ci) = Ok tt /\
    cal = mkCalendar c (CalendarInfo.url ci).
Proof.
  induction cals as [|x cals IH]; simpl; [discriminate|].
  destruct (_normalize_url py (CalendarInfo.url x)) as [n|] eqn:E;
    simpl; [|discriminate].
  destruct (String.eqb n nu) eqn:En.
  - unfold client_calendar.
    destruct (join_url py c (CalendarInfo.url x)) as [[]|e] eqn:Ej;
      simpl; [|discriminate].
    intros H. injection H as <-. apply String.eqb_eq in En as ->.
    exists x. auto.
  - intros H. destruct (IH H) as (ci & Hin & Hm & Hj & Hc). exists ci. auto.
Qed.

Lemma get_calendar_by_url_some (self : t) (url : string) (tr : list effect)
    (cal : Calendar) :
  get_calendar_by_url py self url = (tr, Ok (Some cal)) ->
  tr = [] /\ client self = Some (calendar_client cal) /\
  principal self <> None /\
  exists ci nu, In ci (calendars self) /\
    calendar_url cal = CalendarInfo.url ci /\
    _normalize_url py url = Ok nu /\
    _normalize_url py (CalendarInfo.url ci) = Ok nu.
Proof.
  unfold get_calendar_by_url.
  destruct (client self) as [c|]; [|discriminate].
  destruct (principal self) as [p|]; [|discriminate].
  destruct (_normalize_url py url) as [nu|e]; simpl; [|discriminate].
  destruct (find_calendar py c nu (calendars self)) as [o|e] eqn:Ef;
    simpl; [|discriminate].
  intros H. injection H as <- ->.
  destruct (find_calendar_some _ _ _ _ Ef) as (ci & Hin & Hm & _ & ->).
  split; [reflexivity|]. split; [reflexivity|]. split; [discriminate|].
  exists ci, nu. auto.
Qed.

(** X1. [get_calendar_by_url] never raises. It logs nothing, or it logs
    one error and returns [None]. A calendar that it returns belongs to
    the client of the account, carries the URL of a cached calendar as
    cached, and that URL normalises like the URL asked for. *)
Theorem get_calendar_by_url_never_raises (self : t) (url : string) :
  exists tr o,
    get_calendar_by_url py self url = (tr, Ok o) /\
    (tr = [] \/
     exists e, o = None /\
       tr = [Log ERROR ("Error getting calendar by URL " ++ url ++ ": "
                        ++ exn_str e)]) /\
    (forall cal, o = Some cal ->
       tr = [] /\ client self = Some (calendar_client cal) /\
       exists ci nu, In ci (calendars self) /\
         calendar_url cal = CalendarInfo.url ci /\
         _normalize_url py url = Ok nu /\
         _normalize_url py (CalendarInfo.url ci) = Ok nu).
Proof.
  destruct (get_calendar_by_url_outcome py self url) as [[o H]|[e H]].
  - exists [], o. split; [exact H|]. split; [now left|].
    intros cal ->.
    destruct (get_calendar_by_url_some _ _ _ _ H) as (_ & Hc & _ & Hci).
    auto.
  - eexists _, None. split; [exact H|]. split; [right; eauto|].
    discriminate.
Qed.

(** The three operations on a URL that the lookup does not find. *)
Lemma operations_without_calendar (self : t) (calendar_url : string)
    (tr : list effect) :
  get_calendar_by_url py self calendar_url = (tr, Ok None) ->
  (forall start end_,
     list_events py self calendar_url start end_ =
     (tr, Raise (ValueError ("Calendar not found: " ++ calendar_url)))) /\
  (forall summary start end_ description location,
     create_event py self calendar_url summary start end_ description location =
     (tr, Raise (ValueError ("Calendar not found: " ++ calendar_url)))) /\
  (forall uid,
     delete_event py self calendar_url uid =
     (tr, Raise (ValueError ("Calendar not found: " ++ calendar_url)))).
Proof.
  intros H. unfold list_events, create_event, delete_event. rewrite H.
  simpl. rewrite app_nil_r. auto.
Qed.

(** X2. An account whose client or principal is not set, as
    [CalDAVAccount(config)] builds it before [connect], has no calendar
    for any URL: [list_events], [create_event] and [delete_event] raise
    "Calendar not found" for the URL, and neither log anything nor send
    a request. *)
Theorem unconnected_account_sends_nothing (self : t) (calendar_url : string) :
  client self = None \/ principal self = None ->
  (forall start end_,
     list_events py self calendar_url start end_ =
     ([], Raise (ValueError ("Calendar not found: " ++ calendar_url)))) /\
  (forall summary start end_ description location,
     create_event py self calendar_url summary start end_ description location =
     ([], Raise (ValueError ("Calendar not found: " ++ calendar_url)))) /\
  (forall uid,
     delete_event py self calendar_url uid =
     ([], Raise (ValueError ("Calendar not found: " ++ calendar_url)))).
Proof.
  intros H. apply operations_without_calendar.
  unfold get_calendar_by_url.
  destruct H as [-> | H]; [reflexivity|].
  rewrite H. now destruct (client self).
Qed.

(** The three operations on a URL that the lookup finds. *)
Lemma operations_with_calendar (self : t) (calendar_url : string)
    (calendar : Calendar) :
  get_calendar_by_url py self calendar_url = ([], Ok (Some calendar)) ->
  (forall start end_,
     list_events py self calendar_url start end_ =
     list_events_in py calendar calendar_url start end_) /\
  (forall summary start end_ description location,
     create_event py self calendar_url summary start end_ description location =
     create_event_in py calendar calendar_url summary start end_
       description location) /\
  (forall uid,
     delete_event py self calendar_url uid =
     delete_event_in py calendar calendar_url uid).
Proof.
  intros H. unfold list_events, create_event, delete_event. rewrite H.
  repeat split; intros; now rewrite mbind_ret_l.
Qed.

(** X3. When the server refuses the request of an operation (the
    search of [list_events], the listing of [delete_event], the save of
    [create_event]), the operation logs one error that carries the
    message of the exception and raises that same exception; it sends
    nothing else. *)
Theorem server_failure_is_logged_and_reraised (self : t) (calendar : Calendar)
    (calendar_url : string) (e : exn) :
  get_calendar_by_url py self calendar_url = ([], Ok (Some calendar)) ->
  (forall start end_,
     date_search py calendar start end_ = Raise e ->
     list_events py self calendar_url start end_ =
     ([DateSearch calendar start end_;
       Log ERROR ("Failed to list events: " ++ exn_str e)], Raise e)) /\
  (forall uid,
     events py calendar = Raise e ->
     delete_event py self calendar_url uid =
     ([Events calendar;
       Log ERROR ("Failed to delete event: " ++ exn_str e)], Raise e)) /\
  (forall summary start end_ description location,
     let ev := mkNewEvent (uuid4 py) summary start end_
                 (str_if_truthy description) (str_if_truthy location)
                 (now py) in
     save_event py calendar ev = Raise e ->
     create_event py self calendar_url summary start end_ description location =
     ([SaveEvent calendar ev;
       Log ERROR ("Failed to create event: " ++ exn_str e)], Raise e)).
Proof.
  intros Hg.
  destruct (operations_with_calendar _ _ _ Hg) as (Hl & Hc & Hd).
  split; [|split].
  - intros start end_ H. rewrite Hl. unfold list_events_in, perform.
    now rewrite H.
  - intros uid H. rewrite Hd. unfold delete_event_in, perform.
    now rewrite H.
  - intros summary start end_ description location ev H. rewrite Hc.
    unfold create_event_in, perform. fold (str_if_truthy description).
    fold (str_if_truthy location). fold ev. now rewrite H.
Qed.

(** When [create_event_in] returns, it saved one event and returns the
    UID of that event. *)
Lemma create_event_in_ok (calendar : Calendar) (calendar_url summary : string)
    (start end_ : datetime) (description location : option string)
    (tr : list effect) (uid : string) :
  create_event_in py calendar calendar_url summary start end_
    description location = (tr, Ok uid) ->
  let ev := mkNewEvent (uuid4 py) summary start end_
              (str_if_truthy description) (str_if_truthy location) (now py) in
  uid = uuid4 py /\
  save_event py calendar ev = Ok tt /\
  tr = [SaveEvent calendar ev;
        Log INFO ("Created event " ++ uid ++ " in calendar " ++ calendar_url)].
Proof.
  unfold create_event_in, perform. fold (str_if_truthy description).
  fold (str_if_truthy location).
  destruct (save_event py calendar _) as [[]|e] eqn:Es; simpl; [|discriminate].
  intros H. injection H as <- <-. auto.
Qed.

Lemma str_if_truthy_nonempty (o : option string) :
  str_if_truthy o <> Some "".
Proof.
  unfold str_if_truthy. destruct o as [s|]; simpl; [|discriminate].
  unfold truthy. destruct (String.eqb_spec s ""); simpl; [discriminate|].
  congruence.
Qed.

(** When [create_event] returns, the lookup found a calendar without
    logging. *)
Lemma create_event_ok_inv (self : t) (calendar_url summary : string)
    (start end_ : datetime) (description location : option string)
    (tr : list effect) (uid : string) :
  create_event py self calendar_url summary start end_ description location
  = (tr, Ok uid) ->
  exists calendar,
    get_calendar_by_url py self calendar_url = ([], Ok (Some calendar)) /\
    create_event_in py calendar calendar_url summary start end_
      description location = (tr, Ok uid).
Proof.
  unfold create_event.
  destruct (get_calendar_by_url_outcome py self calendar_url) as [[o H]|[e H]];
    rewrite H.
  - destruct o as [calendar|]; [|discriminate].
    rewrite mbind_ret_l. eauto.
  - discriminate.
Qed.

(** When [delete_event] returns, it deleted a calendar object that has
    the UID. *)
Lemma delete_event_ok_inv (self : t) (calendar_url uid : string)
    (tr : list effect) :
  delete_event py self calendar_url uid = (tr, Ok tt) ->
  exists calendar evs ev,
    get_calendar_by_url py self calendar_url = ([], Ok (Some calendar)) /\
    events py calendar = Ok evs /\ In ev evs /\
    contains_uid uid ev = true /\ delete py ev = Ok tt /\ In (Delete ev) tr.
Proof.
  unfold delete_event.
  destruct (get_calendar_by_url_outcome py self calendar_url) as [[o H]|[e H]];
    rewrite H; [|discriminate].
  destruct o as [calendar|]; [|discriminate].
  rewrite mbind_ret_l.
  destruct (events py calendar) as [evs|e] eqn:Ee.
  - rewrite (delete_event_in_events _ _ _ _ _ Ee).
    destruct (delete_event_loop py calendar_url uid evs) as [t [[]|e]] eqn:El;
      [|discriminate].
    intros Hq. injection Hq as <-.
    destruct (delete_event_loop_ok _ _ _ _ _ El) as (ev & Hin & Hu & Hd & Ht).
    exists calendar, evs, ev. repeat split; auto. now right.
  - unfold delete_event_in, perform. rewrite Ee. discriminate.
Qed.

(** A deletion request of the scan is for a listed calendar object that
    has the UID. *)
Lemma delete_event_loop_requests (calendar_url uid : string)
    (evs : list Event) (ef : effect) :
  In ef (fst (delete_event_loop py calendar_url uid evs)) ->
  is_request ef = true ->
  exists ev, ef = Delete ev /\ In ev evs /\ contains_uid uid ev = true.
Proof.
  induction evs as [|x evs IH]; simpl; [intros []|].
  assert (Hx : forall ev, In ev evs ->
            In ev (x :: evs)) by (intros; now right).
  unfold delete_if_match, perform.
  destruct (ical x) as [comps|e] eqn:Ei; simpl.
  - destruct (existsb (has_uid uid) comps) eqn:Eu; simpl.
    + assert (Hu : contains_uid uid x = true)
        by (unfold contains_uid; now rewrite Ei).
      destruct (delete py x) as [[]|e] eqn:Ed; simpl.
      * intros [<-|[<-|[]]] Hr; [|discriminate].
        exists x. split; [reflexivity|]. split; [now left | exact Hu].
      * destruct (delete_event_loop py calendar_url uid evs) as [t r].
        simpl in *. intros [<-|[<-|H]] Hr; [|discriminate|].
        -- exists x. split; [reflexivity|]. split; [now left | exact Hu].
        -- destruct (IH H Hr) as (ev & -> & Hin & Hu'). exists ev. auto.
    + destruct (delete_event_loop py calendar_url uid evs) as [t r].
      simpl in *. intros H Hr.
      destruct (IH H Hr) as (ev & -> & Hin & Hu). exists ev. auto.
  - destruct (delete_event_loop py calendar_url uid evs) as [t r].
    simpl in *. intros [<-|H] Hr; [discriminate|].
    destruct (IH H Hr) as (ev & -> & Hin & Hu). exists ev. auto.
Qed.

(** X4. [delete_event] asks the server to delete nothing but calendar
    objects that the server listed for the calendar found and that have
    a VEVENT with the requested UID: whatever the account, the URL and
    the answers of the server, every deletion request in the trace of
    the call is for such an object. *)
Theorem delete_event_touches_only_matching (self : t)
    (calendar_url uid : string) (ev : Event) :
  In (Delete ev) (fst (delete_event py self calendar_url uid)) ->
  contains_uid uid ev = true /\
  exists calendar evs,
    get_calendar_by_url py self calendar_url = ([], Ok (Some calendar)) /\
    events py calendar = Ok evs /\ In ev evs.
Proof.
  intros Hin. unfold delete_event in Hin.
  destruct (get_calendar_by_url_outcome py self calendar_url) as [[o H]|[e H]];
    rewrite H in Hin.
  - destruct o as [calendar|]; [|destruct Hin].
    rewrite mbind_ret_l in Hin.
    destruct (events py calendar) as [evs|e] eqn:Ee.
    + rewrite (delete_event_in_events _ _ _ _ _ Ee) in Hin.
      pose proof (delete_event_loop_requests calendar_url uid evs (Delete ev))
        as Hl.
      assert (Ht : In (Delete ev)
                     (fst (delete_event_loop py calendar_url uid evs))).
      { destruct (delete_event_loop py calendar_url uid evs) as [t [[]|e]];
          simpl in *.
        - destruct Hin as [Hq|Hin]; [discriminate | exact Hin].
        - destruct Hin as [Hq|Hin]; [discriminate|].
          apply in_app_or in Hin as [Hin|[Hq|[]]]; [exact Hin | discriminate]. }
      destruct (Hl Ht eq_refl) as (ev' & Hq & Hin' & Hu).
      injection Hq as <-. split; [exact Hu|].
      exists calendar, evs. auto.
    + unfold delete_event_in, perform in Hin. rewrite Ee in Hin. simpl in Hin.
      destruct Hin as [Hq|[Hq|[]]]; discriminate.
  - simpl in Hin. destruct Hin as [Hq|[]]. discriminate.
Qed.

(** One iteration of the scan on a calendar object that has the UID and
    whose deletion the server refuses: the refusal is logged as a
    warning and the scan goes on. *)
Lemma delete_event_loop_refused (calendar_url uid : string) (ev : Event)
    (rest : list Event) (e : exn) :
  contains_uid uid ev = true ->
  delete py ev = Raise e ->
  delete_event_loop py calendar_url uid (ev :: rest) =
  let '(t, r) := delete_event_loop py calendar_url uid rest in
  ((refused_attempt py uid ev ++ t)%list, r).
Proof.
  unfold refused_attempt. intros Hu Hd. rewrite Hu, Hd.
  unfold contains_uid in Hu. simpl. unfold delete_if_match, perform.
  destruct (ical ev) as [comps|e']; simpl; [|discriminate].
  rewrite Hu, Hd. simpl.
  now destruct (delete_event_loop py calendar_url uid rest).
Qed.

Lemma delete_event_loop_all_refused (calendar_url uid : string)
    (evs : list Event) :
  (forall ev, In ev evs -> contains_uid uid ev = true ->
     exists e, delete py ev = Raise e) ->
  delete_event_loop py calendar_url uid evs =
  (flat_map (refused_attempt py uid) evs,
   Raise (ValueError ("Event with UID " ++ uid ++ " not found in calendar"))).
Proof.
  induction evs as [|x evs IH]; intros H; [reflexivity|].
  assert (IH' := IH (fun ev Hin => H ev (or_intror Hin))).
  destruct (contains_uid uid x) eqn:Eu.
  - destruct (H x (or_introl eq_refl) Eu) as [e Hd].
    rewrite (delete_event_loop_refused _ _ _ _ _ Eu Hd), IH'. reflexivity.
  - assert (Hx : refused_attempt py uid x = deletion_warning x)
      by (unfold refused_attempt; now rewrite Eu).
    rewrite (delete_event_loop_skip _ _ _ _ _ Eu), IH'.
    cbn [flat_map]. now rewrite Hx.
Qed.

(** X5. When the server refuses the deletion of every calendar object
    that has the UID, [delete_event] tries each of them in order, logs
    each refusal as a warning that speaks of a parse failure, and ends
    by raising "Event with UID ... not found in calendar", although such
    objects exist. *)
Theorem delete_event_refused_reports_not_found (self : t)
    (calendar : Calendar) (calendar_url uid : string) (evs : list Event) :
  get_calendar_by_url py self calendar_url = ([], Ok (Some calendar)) ->
  events py calendar = Ok evs ->
  (forall ev, In ev evs -> contains_uid uid ev = true ->
     exists e, delete py ev = Raise e) ->
  delete_event py self calendar_url uid =
  ((Events calendar
      :: flat_map (refused_attempt py uid) evs
      ++ [Log ERROR ("Failed to delete event: Event with UID " ++ uid
                     ++ " not found in calendar")])%list,
   Raise (ValueError ("Event with UID " ++ uid ++ " not found in calendar")))
  /\ (forall ev e, In ev evs -> contains_uid uid ev = true ->
        delete py ev = Raise e ->
        refused_attempt py uid ev =
        [Delete ev;
         Log WARNING ("Failed to parse event during deletion: " ++ exn_str e)]).
Proof.
  intros Hg He Hall. split.
  - destruct (operations_with_calendar _ _ _ Hg) as (_ & _ & Hd).
    rewrite Hd, (delete_event_in_events _ _ _ _ _ He).
    now rewrite (delete_event_loop_all_refused _ _ _ Hall).
  - intros ev e _ Hu Hd. unfold refused_attempt. now rewrite Hu, Hd.
Qed.

(** X6. Every record that [list_events] returns is the record of a
    VEVENT of an entry that the server returned for the search: its UID
    and its summary are those of that VEVENT, or the empty string when
    the VEVENT has none; its description and its location are those of
    the VEVENT, and are absent, never empty, when the VEVENT has none or
    has an empty one; and its calendar URL is the URL that the caller
    passed, not the cached URL of the calendar. *)
Theorem list_events_record_fields (self : t) (calendar_url : string)
    (start end_ : datetime) (tr : list effect) (infos : list EventInfo.t)
    (info : EventInfo.t) :
  list_events py self calendar_url start end_ = (tr, Ok infos) ->
  In info infos ->
  exists calendar evs ev comps c,
    get_calendar_by_url py self calendar_url = ([], Ok (Some calendar)) /\
    date_search py calendar start end_ = Ok evs /\
    In ev evs /\ ical ev = Ok comps /\ In c comps /\
    is_vevent c = true /\
    spec_record calendar_url c = Some info /\
    EventInfo.uid info = text_or_empty (Component.uid c) /\
    EventInfo.summary info = text_or_empty (Component.summary c) /\
    EventInfo.description info = nonempty_text (Component.description c) /\
    EventInfo.location info = nonempty_text (Component.location c) /\
    EventInfo.calendar_url info = calendar_url /\
    EventInfo.description info <> Some "" /\
    EventInfo.location info <> Some "".
Proof.
  intros H Hin.
  destruct (list_events_records py _ _ _ _ _ _ _ H Hin)
    as (calendar & evs & ev & comps & c & Hg & Hd & Hev & Hi & Hc & Hv & Hr).
  destruct (spec_record_fields _ _ _ Hr)
    as (vs & ve & _ & _ & _ & _ & _ & _ & _ & _ & Hu & Hs & Hcu & Hde & Hlo).
  exists calendar, evs, ev, comps, c.
  repeat (split; [assumption|]).
  split; [rewrite Hde, <- nonempty_text_spec; apply str_if_truthy_nonempty|].
  rewrite Hlo, <- nonempty_text_spec. apply str_if_truthy_nonempty.
Qed.

End AccountFacts.

Lemma unconnected_account_sends_nothing_witness :
  CalDAVAccount.delete_event sample_py (new_account work_config)
    "https://dav.example.org/cal/work/" "uid-standup"
  = ([], Raise (ValueError "Calendar not found: https://dav.example.org/cal/work/")).
Proof.
  exact (proj2 (proj2 (unconnected_account_sends_nothing sample_py
                         (new_account work_config)
                         "https://dav.example.org/cal/work/"
                         (or_introl eq_refl))) "uid-standup").
Defined.

Lemma server_failure_is_logged_and_reraised_witness :
  CalDAVAccount.list_events offline_py work_account "/cal/work/" nov27 dec27 =
  ([DateSearch work_calendar nov27 dec27;
    Log ERROR "Failed to list events: Service Unavailable"],
   Raise (DAVError "Service Unavailable")).
Proof.
  exact (proj1 (server_failure_is_logged_and_reraised offline_py work_account
                  work_calendar "/cal/work/" (DAVError "Service Unavailable")
                  eq_refl) nov27 dec27 eq_refl).
Defined.

Lemma delete_event_touches_only_matching_witness :
  contains_uid "uid-standup" standup_event = true.
Proof.
  refine (proj1 (delete_event_touches_only_matching readonly_py work_account
                   "/cal/work/" "uid-standup" standup_event _)).
  simpl. tauto.
Defined.

Lemma delete_event_refused_reports_not_found_witness :
  CalDAVAccount.delete_event readonly_py work_account "/cal/work/" "uid-standup" =
  ([Events work_calendar;
    Log WARNING "Failed to parse event during deletion: Expected BEGIN:VCALENDAR";
    Delete standup_event;
    Log WARNING "Failed to parse event during deletion: Forbidden";
    Log ERROR "Failed to delete event: Event with UID uid-standup not found in calendar"],
   Raise (ValueError "Event with UID uid-standup not found in calendar")).
Proof.
  refine (proj1 (delete_event_refused_reports_not_found readonly_py work_account
                   work_calendar "/cal/work/" "uid-standup" sample_events
                   eq_refl eq_refl _)).
  intros ev _ _. exists (DAVError "Forbidden"). reflexivity.
Defined.

Lemma list_events_record_fields_witness :
  exists ev comps c,
    In ev sample_events /\ ical ev = Ok comps /\ In c comps /\
    EventInfo.uid holiday_record = text_or_empty (Component.uid c) /\
    EventInfo.summary holiday_record = text_or_empty (Component.summary c) /\
    EventInfo.description holiday_record
    = nonempty_text (Component.description c).
Proof.
  destruct (list_events_record_fields sample_py work_account "/cal/work/"
              nov27 dec27 _ _ holiday_record eq_refl (or_introl eq_refl))
    as (calendar & evs & ev & comps & c & _ & Hd & Hev & Hi & Hc & _ & _ & Hu
        & Hs & Hde & _).
  simpl in Hd. injection Hd as <-.
  exists ev, comps, c. auto 10.
Defined.

(** ** More on the resolver and the tools *)

Section MoreToolFacts.

Import CalDAVAccount.

Variable py : Platform.

Lemma find_account_loop_app (nu : string) (xs ys : list t) :
  find_account_loop py nu (xs ++ ys) =
  match find_account_loop py nu xs with
  | Ok None => find_account_loop py nu ys
  | r => r
  end.
Proof.
  induction xs as [|x xs IH]; simpl; [now destruct (find_account_loop _ _ _) as [[|]|]|].
  destruct (has_calendar py nu (calendars x)) as [[|]|e]; simpl; auto.
Qed.

(** X7. The resolver on a list of accounts followed by a second list
    answers as on the first list, unless that finds no account, in which
    case it answers as on the second list. So registering more accounts
    after the existing ones never changes the account of a URL that
    already resolves, nor the exception of a URL on which the resolver
    raises. *)
Theorem find_account_for_calendar_app (xs ys : list t) (calendar_url : string) :
  find_account_for_calendar py (xs ++ ys) calendar_url =
  match find_account_for_calendar py xs calendar_url with
  | Ok None => find_account_for_calendar py ys calendar_url
  | r => r
  end.
Proof.
  unfold find_account_for_calendar.
  destruct (_normalize_url py calendar_url) as [nu|e]; simpl; [|reflexivity].
  apply find_account_loop_app.
Qed.

(** What [_normalize_url] returns for "http://" or "https://" followed
    by an authority that the parser accepts, a path, parameters and a
    query or fragment: the path. *)
Lemma normalize_absolute_parts (pre rest : string) (q : url_parts) :
  pre = "http://" \/ pre = "https://" ->
  Urllib.remove_unsafe rest = unparse q ->
  well_formed q = true ->
  netloc_accepted py (u_netloc q) ->
  _normalize_url py (pre ++ rest) = Ok (u_path q).
Proof.
  intros Hpre Hrest Hwf (Hb & Hcb & Hck).
  destruct (UrllibFacts.urlparse_parts _ _ pre rest q Hpre Hrest Hwf Hb Hcb Hck)
    as (pr & Hpr & Hpath).
  unfold _normalize_url.
  replace (PyStr.startswith "http://" (pre ++ rest)
           || PyStr.startswith "https://" (pre ++ rest)) with true
    by (destruct Hpre as [-> | ->]; reflexivity).
  rewrite Hpr. simpl. now rewrite Hpath.
Qed.

(** X8. The resolver and the lookup of an account see a URL only
    through what [_normalize_url] returns for it: two URLs that
    normalise to the same string get the same answer of the resolver
    and the same calendar, or none, from the lookup of every account,
    and so does that string itself. In particular two URLs that start
    with "http://" or "https://", whose authority the parser accepts
    and whose paths are equal, are interchangeable whatever their
    scheme, authority, parameters, query and fragment. A URL without
    one of these two prefixes is taken as it is, query included. *)
Theorem normalized_url_resolves_alike (accounts : list t) :
  (forall u1 u2 p,
     _normalize_url py u1 = Ok p -> _normalize_url py u2 = Ok p ->
     find_account_for_calendar py accounts u1 =
     find_account_for_calendar py accounts u2 /\
     find_account_for_calendar py accounts u1 =
     find_account_for_calendar py accounts p /\
     forall self,
       snd (get_calendar_by_url py self u1) =
       snd (get_calendar_by_url py self u2) /\
       snd (get_calendar_by_url py self u1) =
       snd (get_calendar_by_url py self p)) /\
  (forall pre1 pre2 rest1 rest2 q1 q2,
     pre1 = "http://" \/ pre1 = "https://" ->
     pre2 = "http://" \/ pre2 = "https://" ->
     Urllib.remove_unsafe rest1 = unparse q1 ->
     Urllib.remove_unsafe rest2 = unparse q2 ->
     well_formed q1 = true -> well_formed q2 = true ->
     netloc_accepted py (u_netloc q1) -> netloc_accepted py (u_netloc q2) ->
     u_path q1 = u_path q2 ->
     find_account_for_calendar py accounts (pre1 ++ rest1) =
     find_account_for_calendar py accounts (pre2 ++ rest2) /\
     forall self,
       snd (get_calendar_by_url py self (pre1 ++ rest1)) =
       snd (get_calendar_by_url py self (pre2 ++ rest2))) /\
  (forall u,
     PyStr.startswith "http://" u || PyStr.startswith "https://" u = false ->
     _normalize_url py u = Ok u).
Proof.
  assert (Hres : forall u p, _normalize_url py u = Ok p ->
            find_account_for_calendar py accounts u
            = find_account_loop py p accounts).
  { intros u p H. unfold find_account_for_calendar. now rewrite H. }
  assert (Hget : forall self u p, _normalize_url py u = Ok p ->
            snd (get_calendar_by_url py self u) =
            match client self, principal self with
            | Some c, Some _ =>
                match find_calendar py c p (calendars self) with
                | Ok o => Ok o
                | Raise _ => Ok None
                end
            | _, _ => Ok None
            end).
  { intros self u p H. unfold get_calendar_by_url.
    destruct (client self) as [c|]; [|reflexivity].
    destruct (principal self) as [pr|]; [|reflexivity].
    rewrite H. simpl.
    now destruct (find_calendar py c p (calendars self)). }
  assert (Hsame : forall u1 u2 p,
            _normalize_url py u1 = Ok p -> _normalize_url py u2 = Ok p ->
            find_account_for_calendar py accounts u1 =
            find_account_for_calendar py accounts u2 /\
            forall self,
              snd (get_calendar_by_url py self u1) =
              snd (get_calendar_by_url py self u2)).
  { intros u1 u2 p H1 H2. split.
    - now rewrite (Hres _ _ H1), (Hres _ _ H2).
    - intros self. now rewrite (Hget _ _ _ H1), (Hget _ _ _ H2). }
  split; [|split].
  - intros u1 u2 p H1 H2.
    pose proof (normalize_fixes_result py _ _ H1) as Hp.
    destruct (Hsame u1 u2 p H1 H2) as [Ha Hb].
    destruct (Hsame u1 p p H1 Hp) as [Hc Hd].
    split; [exact Ha|]. split; [exact Hc|].
    intros self. split; [apply Hb | apply Hd].
  - intros pre1 pre2 rest1 rest2 q1 q2 Hp1 Hp2 Hr1 Hr2 Hw1 Hw2 Ha1 Ha2 Hq.
    apply (Hsame _ _ (u_path q1)).
    + now apply normalize_absolute_parts.
    + rewrite Hq. now apply normalize_absolute_parts.
  - apply normalize_no_scheme.
Qed.

Lemma find_account_for_calendar_found (accounts : list t)
    (calendar_url : string) (a : t) :
  find_account_for_calendar py accounts calendar_url = Ok (Some a) ->
  In a accounts.
Proof.
  unfold find_account_for_calendar.
  destruct (_normalize_url py calendar_url) as [nu|e]; simpl; [|discriminate].
  intros H. now apply find_account_loop_found in H.
Qed.

(** X9. When the resolver finds the account and a date argument does
    not parse, [list_events_tool] and [create_event_tool] raise the
    exception of the date parser and send nothing to the server, nor log
    anything. The start is parsed before the end. *)
Theorem unparsable_date_sends_nothing (accounts : list t)
    (calendar_url : string) (account : t) (e : exn) :
  find_account_for_calendar py accounts calendar_url = Ok (Some account) ->
  (forall start end_,
     parse_date py start = Raise e ->
     list_events_tool py accounts calendar_url start end_ = ([], Raise e)) /\
  (forall start end_ start_dt,
     parse_date py start = Ok start_dt ->
     truthy end_ = true ->
     parse_date py end_ = Raise e ->
     list_events_tool py accounts calendar_url start (Some end_)
     = ([], Raise e)) /\
  (forall summary start end_ description location,
     parse_date py start = Raise e ->
     create_event_tool py accounts calendar_url summary start end_
       description location = ([], Raise e)) /\
  (forall summary start end_ description location start_dt,
     parse_date py start = Ok start_dt ->
     parse_date py end_ = Raise e ->
     create_event_tool py accounts calendar_url summary start end_
       description location = ([], Raise e)).
Proof.
  intros Hf. unfold list_events_tool, create_event_tool.
  split; [|split; [|split]].
  - intros start end_ H. now rewrite Hf, mbind_lift_ok, H.
  - intros start end_ start_dt Hs Ht He.
    now rewrite Hf, mbind_lift_ok, Hs, mbind_lift_ok, Ht, He.
  - intros summary start end_ description location H.
    now rewrite Hf, mbind_lift_ok, H.
  - intros summary start end_ description location start_dt Hs He.
    now rewrite Hf, mbind_lift_ok, Hs, mbind_lift_ok, He.
Qed.

(** X10. When [delete_event_tool] returns, what it returns is the
    message "Event <uid> deleted successfully", and the server has
    performed the deletion of a calendar object of the resolved
    calendar that has a VEVENT with that UID. *)
Theorem delete_event_tool_success_means_deleted (accounts : list t)
    (calendar_url uid : string) (tr : list effect) (msg : string) :
  delete_event_tool py accounts calendar_url uid = (tr, Ok msg) ->
  msg = "Event " ++ uid ++ " deleted successfully" /\
  exists account calendar evs ev,
    find_account_for_calendar py accounts calendar_url = Ok (Some account) /\
    In account accounts /\
    get_calendar_by_url py account calendar_url = ([], Ok (Some calendar)) /\
    events py calendar = Ok evs /\ In ev evs /\
    contains_uid uid ev = true /\ delete py ev = Ok tt /\ In (Delete ev) tr.
Proof.
  unfold delete_event_tool.
  destruct (find_account_for_calendar py accounts calendar_url)
    as [[account|]|e] eqn:Ef; try discriminate.
  rewrite mbind_lift_ok.
  destruct (delete_event py account calendar_url uid) as [t [[]|e]] eqn:Ed;
    simpl; [|discriminate].
  intros H. injection H as <- <-. split; [reflexivity|].
  destruct (delete_event_ok_inv _ _ _ _ _ Ed)
    as (calendar & evs & ev & Hg & He & Hin & Hu & Hd & Ht).
  exists account, calendar, evs, ev.
  split; [reflexivity|].
  split; [eapply find_account_for_calendar_found; eauto|].
  rewrite app_nil_r. auto 10.
Qed.

(** X11. When [create_event_tool] returns a UID, the only request it
    sent is the save of one event on the resolved calendar, and the
    server accepted it. The saved event has the returned UID, the
    summary passed, the start and the end that the date arguments parse
    to, and the current time as its stamp; its description and its
    location are those passed, and are left out when they are [None] or
    empty. *)
Theorem create_event_tool_saves_parsed_dates (accounts : list t)
    (calendar_url summary start end_ : string)
    (description location : option string) (tr : list effect) (uid : string) :
  create_event_tool py accounts calendar_url summary start end_
    description location = (tr, Ok uid) ->
  exists account calendar ev,
    find_account_for_calendar py accounts calendar_url = Ok (Some account) /\
    get_calendar_by_url py account calendar_url = ([], Ok (Some calendar)) /\
    tr = [SaveEvent calendar ev;
          Log INFO ("Created event " ++ uid ++ " in calendar " ++ calendar_url)] /\
    save_event py calendar ev = Ok tt /\
    new_uid ev = uid /\ uid = uuid4 py /\
    new_summary ev = summary /\
    parse_date py start = Ok (new_dtstart ev) /\
    parse_date py end_ = Ok (new_dtend ev) /\
    new_dtstamp ev = now py /\
    new_description ev = nonempty_text description /\
    new_location ev = nonempty_text location /\
    (description = None \/ description = Some "" ->
     new_description ev = None) /\
    (location = None \/ location = Some "" -> new_location ev = None) /\
    new_description ev <> Some "" /\ new_location ev <> Some "" /\
    (truthy_opt description = true -> new_description ev = description) /\
    (truthy_opt location = true -> new_location ev = location).
Proof.
  unfold create_event_tool.
  destruct (find_account_for_calendar py accounts calendar_url)
    as [[account|]|e] eqn:Ef; try discriminate.
  rewrite mbind_lift_ok.
  destruct (parse_date py start) as [start_dt|e] eqn:Es; [|discriminate].
  rewrite mbind_lift_ok.
  destruct (parse_date py end_) as [end_dt|e] eqn:Ee; [|discriminate].
  rewrite mbind_lift_ok. intros H.
  destruct (create_event_ok_inv _ _ _ _ _ _ _ _ _ _ H) as (calendar & Hg & Hc).
  destruct (create_event_in_ok _ _ _ _ _ _ _ _ _ _ Hc) as (Hu & Hs & Ht).
  exists account, calendar.
  eexists. split; [reflexivity|]. split; [exact Hg|].
  split; [exact Ht|]. split; [exact Hs|]. simpl.
  split; [now symmetry|]. split; [exact Hu|].
  split; [reflexivity|]. split; [reflexivity|]. split; [reflexivity|].
  split; [reflexivity|].
  split; [apply nonempty_text_spec|].
  split; [apply nonempty_text_spec|].
  split; [intros [-> | ->]; reflexivity|].
  split; [intros [-> | ->]; reflexivity|].
  split; [apply str_if_truthy_nonempty|].
  split; [apply str_if_truthy_nonempty|].
  unfold str_if_truthy. split; intros ->; reflexivity.
Qed.

(** X12. With an explicit end, [list_events_tool] hands the range as
    parsed to [list_events] of the resolved account, whether or not the
    end comes after the start: every search that the tool sends carries
    the start and the end that the two arguments parse to, and when the
    lookup of the account finds the calendar, the tool starts by sending
    the search with that range to that calendar. *)
Theorem list_events_tool_explicit_end (accounts : list t)
    (calendar_url start end_ : string) (account : t)
    (start_dt end_dt : datetime) :
  find_account_for_calendar py accounts calendar_url = Ok (Some account) ->
  parse_date py start = Ok start_dt ->
  truthy end_ = true ->
  parse_date py end_ = Ok end_dt ->
  list_events_tool py accounts calendar_url start (Some end_) =
    (evs <~ list_events py account calendar_url start_dt end_dt ;;
     ret (map (to_dict py) evs)) /\
  (forall cal s e,
     In (DateSearch cal s e)
        (fst (list_events_tool py accounts calendar_url start (Some end_))) ->
     s = start_dt /\ e = end_dt) /\
  (forall calendar,
     get_calendar_by_url py account calendar_url = ([], Ok (Some calendar)) ->
     exists rest r,
       list_events_tool py accounts calendar_url start (Some end_) =
       (DateSearch calendar start_dt end_dt :: rest, r)).
Proof.
  intros Hf Hs Ht He.
  assert (Hq : list_events_tool py accounts calendar_url start (Some end_) =
               (evs <~ list_events py account calendar_url start_dt end_dt ;;
                ret (map (to_dict py) evs))).
  { unfold list_events_tool.
    now rewrite Hf, mbind_lift_ok, Hs, mbind_lift_ok, Ht, He, mbind_lift_ok. }
  split; [exact Hq|]. split.
  - intros cal s e. rewrite Hq, mbind_ret_trace. apply list_events_queries.
  - intros calendar Hg. rewrite Hq.
    unfold list_events. rewrite Hg, mbind_ret_l.
    destruct (list_events_in_head py calendar calendar_url start_dt end_dt)
      as (rest & r & Hh).
    eapply mbind_head; eauto.
Qed.

(** ** Listing the calendars *)

(** X13. [list_calendars_tool] returns one dict per cached calendar,
    account after account in registration order and, within an account,
    in cached order. The URLs of the dicts are, in order, the URLs that
    the error message of [list_events_tool] offers as available; and a
    dict is in the listing exactly when it is made of the account name,
    the name and the URL of a cached calendar of some account. *)
Theorem list_calendars_tool_urls (accounts : list t) :
  map c_url (list_calendars_tool accounts) = available_urls accounts /\
  List.length (list_calendars_tool accounts) =
    list_sum (map (fun a => List.length (calendars a)) accounts) /\
  forall d, In d (list_calendars_tool accounts) <->
    exists a c, In a accounts /\ In c (calendars a) /\
      d = mkCalendarDict (CalendarInfo.account_name c) (CalendarInfo.name c)
            (CalendarInfo.url c).
Proof.
  unfold list_calendars_tool, available_urls. split; [|split].
  - induction accounts as [|a accounts IH]; simpl; [reflexivity|].
    now rewrite map_app, map_map, IH.
  - induction accounts as [|a accounts IH]; simpl; [reflexivity|].
    now rewrite length_app, length_map, IH.
  - intros d. rewrite in_flat_map. split.
    + intros (a & Ha & Hd). apply in_map_iff in Hd as (c & <- & Hc).
      exists a, c. auto.
    + intros (a & c & Ha & Hc & ->). exists a. split; [exact Ha|].
      apply in_map_iff. exists c. auto.
Qed.




End MoreToolFacts.

Lemma normalized_url_resolves_alike_witness :
  find_account_for_calendar sample_py [work_account; home_account]
    "https://other.example.com:8443/cal/work/?expand=1"
  = find_account_for_calendar sample_py [work_account; home_account]
      "http://dav.example.org/cal/work/;v=2#top".
Proof.
  destruct (normalized_url_resolves_alike sample_py
              [work_account; home_account]) as (_ & H & _).
  refine (proj1 (H "https://" "http://"
                   "other.example.com:8443/cal/work/?expand=1"
                   "dav.example.org/cal/work/;v=2#top"
                   (mkParts "other.example.com:8443" "/cal/work/" "" ""
                      "?expand=1")
                   (mkParts "dav.example.org" "/cal/work/" "" ";v=2" "#top")
                   (or_intror eq_refl) (or_introl eq_refl)
                   eq_refl eq_refl eq_refl eq_refl _ _ eq_refl));
    unfold netloc_accepted, Urllib.checknetloc; simpl;
    repeat split; discriminate.
Defined.

Lemma unparsable_date_sends_nothing_witness :
  list_events_tool sample_py [work_account; home_account] "/cal/work/"
    "tomorrow" None
  = ([], Raise (ValueError "Invalid isoformat string: 'tomorrow'")).
Proof.
  exact (proj1 (unparsable_date_sends_nothing sample_py
                  [work_account; home_account] "/cal/work/" work_account
                  (ValueError "Invalid isoformat string: 'tomorrow'") eq_refl)
           "tomorrow" None eq_refl).
Defined.

Lemma delete_event_tool_success_means_deleted_witness :
  exists ev,
    contains_uid "uid-standup" ev = true /\ delete sample_py ev = Ok tt.
Proof.
  destruct (delete_event_tool_success_means_deleted sample_py
              [work_account; home_account] "/cal/work/" "uid-standup" _ _
              eq_refl)
    as (_ & account & calendar & evs & ev & _ & _ & _ & _ & _ & Hu & Hd & _).
  exists ev. auto.
Defined.

Lemma create_event_tool_saves_parsed_dates_witness :
  exists calendar ev,
    fst (create_event_tool sample_py [work_account; home_account] "/cal/work/"
           "Standup" "2025-11-27T09:00:00" "2025-11-27" (Some "") None)
    = [SaveEvent calendar ev;
       Log INFO ("Created event 1b4e28ba-2fa1-41d2-883f-0016d3cca427"
                 ++ " in calendar /cal/work/")] /\
    new_description ev = None /\ new_location ev = None.
Proof.
  destruct (create_event_tool_saves_parsed_dates sample_py
              [work_account; home_account] "/cal/work/"
              "Standup" "2025-11-27T09:00:00" "2025-11-27" (Some "") None
              _ _ eq_refl)
    as (account & calendar & ev & _ & _ & Ht & _ & _ & _ & _ & _ & _ & _
        & _ & _ & Hd & Hl & _).
  exists calendar, ev.
  split; [exact Ht|].
  split; [apply Hd; now right | apply Hl; now left].
Defined.

Lemma list_events_tool_explicit_end_witness :
  exists rest r,
    list_events_tool sample_py [work_account; home_account] "/cal/work/"
      "2025-11-27T09:00:00" (Some "2025-11-27")
    = (DateSearch work_calendar (mkDatetime 739582 (mkTime 9 0 0 0) None)
         (mkDatetime 739582 (mkTime 0 0 0 0) None) :: rest, r).
Proof.
  destruct (list_events_tool_explicit_end sample_py
              [work_account; home_account] "/cal/work/"
              "2025-11-27T09:00:00" "2025-11-27" work_account _ _
              eq_refl eq_refl eq_refl eq_refl)
    as (_ & _ & H).
  exact (H work_calendar eq_refl).
Defined.


(** ** The configuration *)

Section ConfigFacts.

Variable getenv : string -> option string.

Lemma account_config_some (name : string) (b u p : option string)
    (c : CalDAVAccountConfig.t) :
  account_config name b u p = Some c ->
  b = Some (CalDAVAccountConfig.base_url c) /\
  u = Some (CalDAVAccountConfig.username c) /\
  p = Some (CalDAVAccountConfig.password c) /\
  CalDAVAccountConfig.name c = name /\ complete c = true.
Proof.
  unfold account_config, complete.
  destruct b as [b|], u as [u|], p as [p|]; simpl; try discriminate.
  destruct (truthy b && truthy u && truthy p) eqn:E; [|discriminate].
  intros H. injection H as <-. simpl. auto.
Qed.

Lemma account_config_none (name : string) (b u p : option string) :
  account_config name b u p = None <->
  truthy_opt b && truthy_opt u && truthy_opt p = false.
Proof.
  unfold account_config.
  destruct b as [b|], u as [u|], p as [p|]; simpl;
    repeat match goal with
           | |- context [truthy ?x] => destruct (truthy x)
           end;
    simpl; split; congruence.
Qed.

Lemma numbered_account_none (i : nat) :
  numbered_account getenv i = None <->
  configured getenv (numbered_prefix i) = false.
Proof. apply account_config_none. Qed.

Lemma legacy_account_none :
  legacy_account getenv = None <-> configured getenv "CALDAV_" = false.
Proof. apply account_config_none. Qed.

Lemma numbered_account_some (i : nat) (c : CalDAVAccountConfig.t) :
  numbered_account getenv i = Some c ->
  getenv (numbered_prefix i ++ "BASE_URL")
    = Some (CalDAVAccountConfig.base_url c) /\
  getenv (numbered_prefix i ++ "USERNAME")
    = Some (CalDAVAccountConfig.username c) /\
  getenv (numbered_prefix i ++ "PASSWORD")
    = Some (CalDAVAccountConfig.password c) /\
  complete c = true.
Proof.
  intros H. apply account_config_some in H as (Hb & Hu & Hp & _ & Hc). auto.
Qed.

Lemma legacy_account_some (c : CalDAVAccountConfig.t) :
  legacy_account getenv = Some c ->
  getenv ("CALDAV_" ++ "BASE_URL") = Some (CalDAVAccountConfig.base_url c) /\
  getenv ("CALDAV_" ++ "USERNAME") = Some (CalDAVAccountConfig.username c) /\
  getenv ("CALDAV_" ++ "PASSWORD") = Some (CalDAVAccountConfig.password c) /\
  complete c = true.
Proof.
  intros H. apply account_config_some in H as (Hb & Hu & Hp & _ & Hc). auto.
Qed.

(** The loop appends, in the order of the indices, the account of each
    index that has one. *)
Lemma numbered_loop_spec (indices : list nat)
    (accounts : list CalDAVAccountConfig.t) :
  numbered_loop getenv indices accounts =
  (accounts ++ numbered_accounts getenv indices)%list.
Proof.
  unfold numbered_accounts. revert accounts.
  induction indices as [|i indices IH]; intros accounts;
    cbn [numbered_loop flat_map].
  - now rewrite app_nil_r.
  - rewrite IH. destruct (numbered_account getenv i); [|reflexivity].
    now rewrite <- app_assoc.
Qed.

Lemma parse_accounts_spec :
  parse_accounts getenv =
  match numbered_accounts getenv (seq 1 10) with
  | [] => match legacy_account getenv with
          | Some config => Ok [config]
          | None => Raise (ValueError no_accounts_message)
          end
  | _ :: _ => Ok (numbered_accounts getenv (seq 1 10))
  end.
Proof.
  unfold parse_accounts. rewrite numbered_loop_spec. cbn [app].
  destruct (numbered_accounts getenv (seq 1 10)); [|reflexivity].
  now destruct (legacy_account getenv).
Qed.

Lemma numbered_accounts_length (indices : list nat) :
  List.length (numbered_accounts getenv indices) <= List.length indices.
Proof.
  unfold numbered_accounts.
  induction indices as [|i indices IH]; cbn [flat_map List.length]; [lia|].
  rewrite length_app. destruct (numbered_account getenv i); simpl; lia.
Qed.

Lemma numbered_accounts_In (indices : list nat) (c : CalDAVAccountConfig.t) :
  In c (numbered_accounts getenv indices) <->
  exists i, In i indices /\ numbered_account getenv i = Some c.
Proof.
  unfold numbered_accounts. rewrite in_flat_map. split.
  - intros (i & Hi & Hc). exists i. split; [exact Hi|].
    destruct (numbered_account getenv i) as [c'|]; [|destruct Hc].
    destruct Hc as [->|[]]. reflexivity.
  - intros (i & Hi & Hc). exists i. split; [exact Hi|].
    rewrite Hc. now left.
Qed.

Lemma numbered_accounts_nil (indices : list nat) :
  numbered_accounts getenv indices = [] <->
  forall i, In i indices -> numbered_account getenv i = None.
Proof.
  split.
  - intros H i Hi. destruct (numbered_account getenv i) as [c|] eqn:E;
      [|reflexivity].
    assert (Hc : In c (numbered_accounts getenv indices))
      by (apply numbered_accounts_In; eauto).
    rewrite H in Hc. destruct Hc.
  - intros H. destruct (numbered_accounts getenv indices) as [|c l] eqn:E;
      [reflexivity|].
    assert (Hc : In c (numbered_accounts getenv indices))
      by (rewrite E; now left).
    apply numbered_accounts_In in Hc as (i & Hi & Hc).
    rewrite (H i Hi) in Hc. discriminate.
Qed.

Lemma numbered_prefix_In (i : nat) :
  In i (seq 1 10) -> In (numbered_prefix i) account_prefixes.
Proof.
  intros H. unfold account_prefixes. apply in_or_app. left.
  now apply in_map.
Qed.

Lemma parse_accounts_nonempty (l : list CalDAVAccountConfig.t) :
  parse_accounts getenv = Ok l -> l <> [].
Proof.
  rewrite parse_accounts_spec.
  destruct (numbered_accounts getenv (seq 1 10)) as [|c l'].
  - destruct (legacy_account getenv); [|discriminate].
    intros H. injection H as <-. discriminate.
  - intros H. injection H as <-. discriminate.
Qed.

(** X15. What [parse_accounts] returns is never empty and has at most
    ten accounts, and each account has a non-empty base URL, user name
    and password, which are the values of the three variables of one of
    the prefixes CALDAV_1_ to CALDAV_10_ or of the legacy prefix
    CALDAV_. *)
Theorem parse_accounts_invariant (l : list CalDAVAccountConfig.t) :
  parse_accounts getenv = Ok l ->
  l <> [] /\ List.length l <= 10 /\
  forall c, In c l ->
    complete c = true /\
    exists prefix,
      In prefix account_prefixes /\
      getenv (prefix ++ "BASE_URL") = Some (CalDAVAccountConfig.base_url c) /\
      getenv (prefix ++ "USERNAME") = Some (CalDAVAccountConfig.username c) /\
      getenv (prefix ++ "PASSWORD") = Some (CalDAVAccountConfig.password c).
Proof.
  intros H. split; [now apply parse_accounts_nonempty in H|].
  rewrite parse_accounts_spec in H.
  destruct (numbered_accounts getenv (seq 1 10)) as [|c0 l0] eqn:E.
  - destruct (legacy_account getenv) as [c0|] eqn:El; [|discriminate].
    injection H as <-. split; [simpl; lia|].
    intros c [<-|[]].
    destruct (legacy_account_some _ El) as (Hb & Hu & Hp & Hc).
    split; [exact Hc|]. exists "CALDAV_".
    split; [|auto]. unfold account_prefixes. apply in_or_app. right. now left.
  - injection H as <-. split.
    + rewrite <- E. pose proof (numbered_accounts_length (seq 1 10)) as Hl.
      now rewrite length_seq in Hl.
    + intros c Hc. rewrite <- E in Hc.
      apply numbered_accounts_In in Hc as (i & Hi & Hc).
      destruct (numbered_account_some _ _ Hc) as (Hb & Hu & Hp & Hco).
      split; [exact Hco|]. exists (numbered_prefix i).
      split; [now apply numbered_prefix_In | auto].
Qed.

Lemma numbered_account_ext (getenv' : string -> option string) (i : nat) :
  (forall k, In k (numbered_keys i) -> getenv k = getenv' k) ->
  numbered_account getenv i = numbered_account getenv' i.
Proof.
  intros H. unfold numbered_account, getenv_or.
  pose proof (H _ (or_introl eq_refl)) as H1.
  pose proof (H _ (or_intror (or_introl eq_refl))) as H2.
  pose proof (H _ (or_intror (or_intror (or_introl eq_refl)))) as H3.
  pose proof (H _ (or_intror (or_intror (or_intror (or_introl eq_refl)))))
    as H4.
  cbv zeta. now rewrite H1, H2, H3, H4.
Qed.

Lemma legacy_account_ext (getenv' : string -> option string) :
  (forall k, In k legacy_keys -> getenv k = getenv' k) ->
  legacy_account getenv = legacy_account getenv'.
Proof.
  intros H. unfold legacy_account, getenv_or.
  pose proof (H _ (or_introl eq_refl)) as H1.
  pose proof (H _ (or_intror (or_introl eq_refl))) as H2.
  pose proof (H _ (or_intror (or_intror (or_introl eq_refl)))) as H3.
  pose proof (H _ (or_intror (or_intror (or_intror (or_introl eq_refl)))))
    as H4.
  cbv zeta. now rewrite H1, H2, H3, H4.
Qed.

Lemma numbered_accounts_ext (getenv' : string -> option string)
    (indices : list nat) :
  (forall i k, In i indices -> In k (numbered_keys i) ->
     getenv k = getenv' k) ->
  numbered_accounts getenv indices = numbered_accounts getenv' indices.
Proof.
  unfold numbered_accounts.
  induction indices as [|i indices IH]; intros H; [reflexivity|].
  cbn [flat_map].
  rewrite (numbered_account_ext getenv' i
             (fun k => H i k (or_introl eq_refl))).
  rewrite IH; [reflexivity|].
  intros j k Hj. apply H. now right.
Qed.

End ConfigFacts.

(** X16. Numbered accounts shadow the legacy one: as soon as the three
    mandatory variables of one of the prefixes CALDAV_1_ to CALDAV_10_
    are set and not empty, [parse_accounts] returns the numbered
    accounts, in the order of their indices, and the result does not
    depend on any variable other than the numbered ones; the legacy
    variables CALDAV_BASE_URL, CALDAV_USERNAME, CALDAV_PASSWORD and
    CALDAV_NAME are ignored. *)
Theorem numbered_accounts_shadow_legacy
    (getenv getenv' : string -> option string) (i : nat) :
  In i (seq 1 10) ->
  configured getenv (numbered_prefix i) = true ->
  (forall j k, In j (seq 1 10) -> In k (numbered_keys j) ->
     getenv k = getenv' k) ->
  parse_accounts getenv = Ok (numbered_accounts getenv (seq 1 10)) /\
  parse_accounts getenv' = parse_accounts getenv.
Proof.
  intros Hi Hc Hk.
  assert (Hne : numbered_accounts getenv (seq 1 10) <> []).
  { intros Hnil. rewrite numbered_accounts_nil in Hnil.
    apply Hnil, numbered_account_none in Hi. rewrite Hi in Hc. discriminate. }
  rewrite !parse_accounts_spec.
  rewrite <- (numbered_accounts_ext getenv getenv' (seq 1 10) Hk).
  destruct (numbered_accounts getenv (seq 1 10)); [now elim Hne|].
  split; reflexivity.
Qed.

(** X17. [parse_accounts] raises exactly when none of the eleven
    prefixes (CALDAV_1_ to CALDAV_10_ and the legacy CALDAV_) has its
    three mandatory variables set and not empty; what it raises then is
    the ValueError that asks for the variables of the first account. A
    variable that is set to the empty string counts as missing. *)
Theorem parse_accounts_raises_iff (getenv : string -> option string)
    (e : exn) :
  parse_accounts getenv = Raise e <->
  e = ValueError no_accounts_message /\
  forall prefix, In prefix account_prefixes -> configured getenv prefix = false.
Proof.
  rewrite parse_accounts_spec. split.
  - destruct (numbered_accounts getenv (seq 1 10)) as [|c l] eqn:E;
      [|discriminate].
    destruct (legacy_account getenv) as [c|] eqn:El; [discriminate|].
    intros H. injection H as <-. split; [reflexivity|].
    intros prefix Hp. unfold account_prefixes in Hp.
    apply in_app_or in Hp as [Hp|[<-|[]]].
    + apply in_map_iff in Hp as (i & <- & Hi).
      apply numbered_account_none.
      now apply (proj1 (numbered_accounts_nil _ _) E).
    + now apply legacy_account_none.
  - intros [-> H].
    assert (Hn : numbered_accounts getenv (seq 1 10) = []).
    { apply numbered_accounts_nil. intros i Hi.
      apply numbered_account_none, H. now apply numbered_prefix_In. }
    assert (Hl : legacy_account getenv = None).
    { apply legacy_account_none, H. unfold account_prefixes.
      apply in_or_app. right. now left. }
    now rewrite Hn, Hl.
Qed.

(** X18. The result of [parse_accounts] depends on the environment only
    through the four variables of each of the prefixes CALDAV_1_ to
    CALDAV_10_ and the four legacy variables: two environments that
    agree on these forty-four variables give the same result. So the
    variables of an eleventh account are never read. *)
Theorem parse_accounts_reads_only_its_keys
    (getenv getenv' : string -> option string) :
  (forall k, In k (flat_map numbered_keys (seq 1 10) ++ legacy_keys)%list ->
     getenv k = getenv' k) ->
  parse_accounts getenv = parse_accounts getenv'.
Proof.
  intros H. rewrite !parse_accounts_spec.
  assert (Hn : numbered_accounts getenv (seq 1 10)
               = numbered_accounts getenv' (seq 1 10)).
  { apply numbered_accounts_ext. intros i k Hi Hk. apply H.
    apply in_or_app. left. apply in_flat_map. eauto. }
  assert (Hl : legacy_account getenv = legacy_account getenv').
  { apply legacy_account_ext. intros k Hk. apply H.
    apply in_or_app. now right. }
  now rewrite Hn, Hl.
Qed.

Lemma parse_accounts_invariant_witness :
  List.length
    [CalDAVAccountConfig.mk "Account 2" "https://dav.example.org/" "alice" "secret";
     CalDAVAccountConfig.mk "Home" "https://home.example.net/" "bob" "secret"]
  <= 10.
Proof.
  exact (proj1 (proj2 (parse_accounts_invariant sample_getenv _ eq_refl))).
Defined.

Lemma numbered_accounts_shadow_legacy_witness :
  parse_accounts sample_getenv =
  Ok [CalDAVAccountConfig.mk "Account 2" "https://dav.example.org/" "alice" "secret";
      CalDAVAccountConfig.mk "Home" "https://home.example.net/" "bob" "secret"]
  /\ parse_accounts numbered_getenv = parse_accounts sample_getenv.
Proof.
  refine (numbered_accounts_shadow_legacy sample_getenv numbered_getenv 2
            _ eq_refl _).
  - simpl. tauto.
  - intros j k Hj Hk. simpl in Hj.
    repeat (destruct Hj as [<-|Hj];
            [vm_compute in Hk;
             repeat (destruct Hk as [<-|Hk]; [reflexivity|]); destruct Hk|]).
    destruct Hj.
Defined.

Lemma parse_accounts_raises_iff_witness :
  parse_accounts (fun _ => None) = Raise (ValueError no_accounts_message).
Proof.
  apply (proj2 (parse_accounts_raises_iff (fun _ => None)
                  (ValueError no_accounts_message))).
  split; [reflexivity|]. intros prefix _. reflexivity.
Defined.

Lemma parse_accounts_reads_only_its_keys_witness :
  parse_accounts sample_getenv = parse_accounts trimmed_getenv.
Proof.
  apply parse_accounts_reads_only_its_keys.
  intros k Hk. vm_compute in Hk.
  repeat (destruct Hk as [<-|Hk]; [reflexivity|]).
  destruct Hk.
Defined.

(** ** Connecting and starting up *)

Section StartupFacts.

Import CalDAVAccount.

Variable host : Host.

(** The four ways through [connect]. *)
Lemma connect_cases (self : t) :
  (exists e,
     dav_client host (client_of self) = Raise e /\
     connect host self =
     (self,
      ([connecting self;
        Log ERROR ("Failed to connect to " ++ name self ++ ": " ++ exn_str e)],
       Raise e))) \/
  (exists e,
     dav_client host (client_of self) = Ok tt /\
     dav_principal host (client_of self) = Raise e /\
     connect host self =
     (set_client self (client_of self),
      ([connecting self;
        Log ERROR ("Failed to connect to " ++ name self ++ ": " ++ exn_str e)],
       Raise e))) \/
  (exists p e,
     dav_client host (client_of self) = Ok tt /\
     dav_principal host (client_of self) = Ok p /\
     dav_calendars host p = Raise e /\
     connect host self =
     (set_principal (set_client self (client_of self)) p,
      ([connecting self;
        Log ERROR ("Failed to connect to " ++ name self ++ ": " ++ exn_str e)],
       Raise e))) \/
  (exists p cals,
     dav_client host (client_of self) = Ok tt /\
     dav_principal host (client_of self) = Ok p /\
     dav_calendars host p = Ok cals /\
     connect host self =
     (set_calendars (set_principal (set_client self (client_of self)) p)
        (map (calendar_info (name self)) cals),
      ([connecting self;
        Log INFO ("Connected to " ++ name self ++ ": found "
                  ++ str_of_nat (List.length cals) ++ " calendars")],
       Ok tt))).
Proof.
  unfold connect, client_of, connecting.
  destruct (dav_client host _) as [[]|e]; [|left; eauto].
  right. destruct (dav_principal host _) as [p|e] eqn:Ep; [|left; eauto].
  right. destruct (dav_calendars host p) as [cals|e] eqn:Ec.
  - right. exists p, cals. cbv zeta. cbn [calendars set_calendars].
    rewrite length_map. auto.
  - left. exists p, e. auto.
Qed.


Lemma connect_ok_inv (self : t) :
  snd (snd (connect host self)) = Ok tt ->
  exists p cals,
    dav_principal host (client_of self) = Ok p /\
    dav_calendars host p = Ok cals /\
    connect host self =
    (set_calendars (set_principal (set_client self (client_of self)) p)
       (map (calendar_info (name self)) cals),
     ([connecting self;
       Log INFO ("Connected to " ++ name self ++ ": found "
                 ++ str_of_nat (List.length cals) ++ " calendars")],
      Ok tt)).
Proof.
  destruct (connect_cases self)
    as [(e & _ & ->)|[(e & _ & _ & ->)|[(p & e & _ & _ & _ & ->)
        |(p & cals & _ & Hp & Hc & ->)]]];
    try discriminate.
  intros _. exists p, cals. auto.
Qed.


(** X20. When [connect] raises, the exception is that of the step
    that failed: the constructor of the caldav client, which parses the
    base URL, or the request for the principal, or the request for the
    calendars. It is logged once as an error, after the log of the
    attempt; the cached calendars, the name and the credentials of the
    account are what they were. The client is assigned only when the
    constructor returned, and the principal only when the server
    returned it. An account without cached calendars stays without any:
    its lookup finds no calendar for any URL. *)
Theorem connect_failure (self : t) (e : exn) :
  snd (snd (connect host self)) = Raise e ->
  let self' := fst (connect host self) in
  calendars self' = calendars self /\
  name self' = name self /\ base_url self' = base_url self /\
  username self' = username self /\ password self' = password self /\
  fst (snd (connect host self)) =
    [connecting self;
     Log ERROR ("Failed to connect to " ++ name self ++ ": " ++ exn_str e)] /\
  (dav_client host (client_of self) = Raise e /\
   client self' = client self /\ principal self' = principal self \/
   dav_client host (client_of self) = Ok tt /\
   dav_principal host (client_of self) = Raise e /\
   client self' = Some (client_of self) /\
   principal self' = principal self \/
   exists p,
     dav_client host (client_of self) = Ok tt /\
     dav_principal host (client_of self) = Ok p /\
     dav_calendars host p = Raise e /\
     client self' = Some (client_of self) /\ principal self' = Some p) /\
  (calendars self = [] ->
   forall py url, snd (get_calendar_by_url py self' url) = Ok None).
Proof.
  destruct (connect_cases self)
    as [(e' & Hk & ->)|[(e' & Hk & Hp & ->)|[(p & e' & Hk & Hp & Hc & ->)
        |(p & cals & _ & _ & _ & ->)]]];
    try discriminate;
    cbn [fst snd]; intros H; injection H as <-;
    repeat (split; [reflexivity|]).
  - split; [left; auto|].
    intros Hnil py url. unfold get_calendar_by_url.
    destruct (client self); [|reflexivity].
    destruct (principal self); [|reflexivity].
    rewrite Hnil. now destruct (_normalize_url py url).
  - split; [right; left; auto|].
    intros Hnil py url. unfold get_calendar_by_url.
    cbn [client principal calendars set_client].
    destruct (principal self); [|reflexivity].
    rewrite Hnil. now destruct (_normalize_url py url).
  - split; [right; right; exists p; auto|].
    intros Hnil py url. unfold get_calendar_by_url.
    cbn [client principal calendars set_client set_principal].
    rewrite Hnil. now destruct (_normalize_url py url).
Qed.

(** [connect] sends no request of the event operations: what it leaves
    in the trace are log entries. *)
Lemma connect_logs_only (self : t) :
  forallb (fun ef => negb (is_request ef)) (fst (snd (connect host self)))
  = true.
Proof.
  destruct (connect_cases self)
    as [(e & _ & ->)|[(e & _ & _ & ->)|[(p & e & _ & _ & _ & ->)
        |(p & cals & _ & _ & _ & ->)]]];
    reflexivity.
Qed.

(** The account that [initialize_accounts] appends for a configuration
    and the trace of its connection. *)
Lemma connect_all_acc (configs : list CalDAVAccountConfig.t)
    (accounts : list t) :
  connect_all host configs accounts =
  match connect_all host configs [] with
  | (tr, Ok l) => (tr, Ok (accounts ++ l)%list)
  | (tr, Raise e) => (tr, Raise e)
  end.
Proof.
  revert accounts. induction configs as [|c configs IH]; intros accounts.
  - simpl. now rewrite app_nil_r.
  - cbn [connect_all].
    destruct (connect host (new_account c)) as [account [t [[]|e]]];
      [|reflexivity].
    rewrite (IH (accounts ++ [account])%list), (IH ([] ++ [account])%list).
    destruct (connect_all host configs []) as [t' [l|e]]; simpl;
      [|reflexivity].
    now rewrite <- app_assoc.
Qed.

Lemma connect_all_cons (c : CalDAVAccountConfig.t)
    (configs : list CalDAVAccountConfig.t) :
  connect_all host (c :: configs) [] =
  match snd (snd (connect host (new_account c))) with
  | Ok _ =>
      match connect_all host configs [] with
      | (tr, Ok l) =>
          ((fst (snd (connect host (new_account c))) ++ tr)%list,
           Ok (fst (connect host (new_account c)) :: l))
      | (tr, Raise e) =>
          ((fst (snd (connect host (new_account c))) ++ tr)%list, Raise e)
      end
  | Raise e => (fst (snd (connect host (new_account c))), Raise e)
  end.
Proof.
  cbn [connect_all].
  destruct (connect host (new_account c)) as [account [t [[]|e]]];
    [|reflexivity].
  cbn [fst snd]. rewrite connect_all_acc.
  now destruct (connect_all host configs []) as [t' [l|e]].
Qed.

(** When every configuration connects, the loop returns the connected
    accounts in the order of the configurations. *)
Lemma connect_all_returns (configs : list CalDAVAccountConfig.t) :
  Forall (connects host) configs ->
  connect_all host configs [] =
  (flat_map (fun c => fst (snd (connect host (new_account c)))) configs,
   Ok (map (fun c => fst (connect host (new_account c))) configs)).
Proof.
  induction configs as [|c configs IH]; intros H; [reflexivity|].
  inversion H as [|? ? Hc Hr]; subst.
  rewrite connect_all_cons. unfold connects in Hc. rewrite Hc.
  now rewrite (IH Hr).
Qed.


(** When the loop raises, a configuration failed to connect after those
    before it connected, and those after it were not tried. *)
Lemma connect_all_raise (configs : list CalDAVAccountConfig.t)
    (tr : list effect) (e : exn) :
  connect_all host configs [] = (tr, Raise e) ->
  exists pre c post,
    configs = (pre ++ c :: post)%list /\
    Forall (connects host) pre /\
    snd (snd (connect host (new_account c))) = Raise e /\
    tr = flat_map (fun c => fst (snd (connect host (new_account c))))
           (pre ++ [c]).
Proof.
  revert tr. induction configs as [|c configs IH]; intros tr;
    [discriminate|].
  rewrite connect_all_cons.
  destruct (snd (snd (connect host (new_account c)))) as [[]|e'] eqn:Ec.
  - destruct (connect_all host configs []) as [t' [l'|e']] eqn:El;
      [discriminate|].
    intros H. injection H as <- <-.
    destruct (IH _ eq_refl) as (pre & c' & post & -> & Hpre & Hc' & ->).
    exists (c :: pre), c', post.
    split; [reflexivity|]. split; [now constructor|].
    split; [exact Hc' | reflexivity].
  - intros H. injection H as <- <-.
    exists [], c, configs. simpl. rewrite app_nil_r. auto.
Qed.

Lemma connected_accounts (configs : list CalDAVAccountConfig.t) :
  Forall (connects host) configs ->
  let accounts := map (fun c => fst (connect host (new_account c))) configs in
  Forall connected accounts /\
  map name accounts = map CalDAVAccountConfig.name configs /\
  Forall (fun a =>
            Forall (fun ci => CalendarInfo.account_name ci = name a)
                   (calendars a))
         accounts.
Proof.
  intros H. cbv zeta. rewrite Forall_forall in H.
  split; [|split].
  - apply Forall_forall. intros a Ha.
    apply in_map_iff in Ha as (c & <- & Hc).
    destruct (connect_ok_inv _ (H c Hc)) as (p & cals & _ & _ & ->).
    split; discriminate.
  - rewrite map_map. apply map_ext_in. intros c Hc.
    destruct (connect_ok_inv _ (H c Hc)) as (p & cals & _ & _ & ->).
    reflexivity.
  - apply Forall_forall. intros a Ha.
    apply in_map_iff in Ha as (c & <- & Hc).
    destruct (connect_ok_inv _ (H c Hc)) as (p & cals & _ & _ & ->).
    cbn [fst calendars set_calendars name new_account].
    apply Forall_forall. intros ci Hci.
    apply in_map_iff in Hci as (cal & <- & _). reflexivity.
Qed.

End StartupFacts.

(** ** Initialising the accounts *)

Section InitializeFacts.

Import CalDAVAccount.

Variable host : Host.

Lemma initialize_spec :
  initialize host =
  match settings_init host with
  | Raise e => ([], Raise e)
  | Ok _ =>
      match parse_accounts (host_getenv host) with
      | Raise e => ([], Raise e)
      | Ok configs =>
          let '(tr, r) := connect_all host configs [] in
          (Log INFO ("Initializing " ++ str_of_nat (List.length configs)
                     ++ " CalDAV account(s)") :: tr, r)
      end
  end.
Proof.
  unfold initialize.
  destruct (settings_init host) as [[]|e]; [|reflexivity].
  rewrite mbind_lift_ok.
  destruct (parse_accounts (host_getenv host)) as [configs|e]; [|reflexivity].
  rewrite mbind_lift_ok. unfold log, mbind.
  now destruct (connect_all host configs []) as [tr [l|e]].
Qed.



(** X21. A cold start that goes well: when the settings build, the
    configuration is read and every configured account connects,
    [initialize_accounts] on an empty registry returns the accounts, one
    per configuration and in the order of the configurations, and stores
    them in the registry. The list is not empty, every account in it is
    connected and bears the name of its configuration, and every cached
    calendar bears the name of its account. The call logs the number of
    accounts, then what each [connect] logs. *)
Theorem initialize_accounts_success (configs : list CalDAVAccountConfig.t) :
  settings_init host = Ok tt ->
  parse_accounts (host_getenv host) = Ok configs ->
  Forall (connects host) configs ->
  let accounts := map (fun c => fst (connect host (new_account c))) configs in
  initialize_accounts host [] =
  (accounts,
   (Log INFO ("Initializing " ++ str_of_nat (List.length configs)
              ++ " CalDAV account(s)")
      :: flat_map (fun c => fst (snd (connect host (new_account c)))) configs,
    Ok accounts)) /\
  accounts <> [] /\
  List.length accounts = List.length configs /\
  Forall connected accounts /\
  map name accounts = map CalDAVAccountConfig.name configs /\
  Forall (fun a =>
            Forall (fun ci => CalendarInfo.account_name ci = name a)
                   (calendars a))
         accounts.
Proof.
  intros Hs Hp Hc. cbv zeta.
  split; [|split; [|split]].
  - unfold initialize_accounts.
    now rewrite initialize_spec, Hs, Hp, (connect_all_returns _ _ Hc).
  - apply parse_accounts_nonempty in Hp.
    destruct configs; [now elim Hp | discriminate].
  - apply length_map.
  - apply (connected_accounts host configs Hc).
Qed.

(** X22. A cold start that fails: when [initialize_accounts] on an
    empty registry raises, the registry stays empty, so that the next
    call starts over. The exception is that of the first step that
    failed: building the settings, reading the configuration, or
    connecting one account after those before it connected; the
    accounts after that one are not tried, and those that had connected
    are dropped. Nothing but log entries is in the trace. *)
Theorem initialize_accounts_failure (e : exn) :
  snd (snd (initialize_accounts host [])) = Raise e ->
  fst (initialize_accounts host []) = [] /\
  forallb (fun ef => negb (is_request ef))
    (fst (snd (initialize_accounts host []))) = true /\
  (settings_init host = Raise e /\
   fst (snd (initialize_accounts host [])) = [] \/
   settings_init host = Ok tt /\
   parse_accounts (host_getenv host) = Raise e /\
   fst (snd (initialize_accounts host [])) = [] \/
   exists pre c post,
     settings_init host = Ok tt /\
     parse_accounts (host_getenv host) = Ok (pre ++ c :: post)%list /\
     Forall (connects host) pre /\
     snd (snd (connect host (new_account c))) = Raise e /\
     fst (snd (initialize_accounts host [])) =
     Log INFO ("Initializing "
               ++ str_of_nat (List.length (pre ++ c :: post))
               ++ " CalDAV account(s)")
       :: flat_map (fun c => fst (snd (connect host (new_account c))))
            (pre ++ [c])).
Proof.
  unfold initialize_accounts. rewrite initialize_spec.
  destruct (settings_init host) as [[]|e'].
  - destruct (parse_accounts (host_getenv host)) as [configs|e'].
    + destruct (connect_all host configs []) as [t [l|e']] eqn:Ec;
        cbn [fst snd]; [discriminate|].
      intros H. injection H as <-.
      destruct (connect_all_raise _ _ _ _ Ec)
        as (pre & c & post & -> & Hpre & Hc & ->).
      split; [reflexivity|]. split.
      * cbn [forallb is_request negb andb].
        apply forallb_forall. intros ef Hef.
        apply in_flat_map in Hef as (c' & _ & Hef).
        pose proof (connect_logs_only host (new_account c')) as Hl.
        rewrite forallb_forall in Hl. now apply Hl.
      * right. right. exists pre, c, post. auto.
    + cbn [fst snd]. intros H. injection H as <-.
      split; [reflexivity|]. split; [reflexivity|]. right. left. auto.
  - cbn [fst snd]. intros H. injection H as <-.
    split; [reflexivity|]. split; [reflexivity|]. left. auto.
Qed.


End InitializeFacts.

Section ServerFacts.

Import CalDAVAccount.

Variable host : Host.


(** X24. When the cold start fails, each of the four server tools
    raises the exception of the start-up, with the trace of the
    start-up, without calling its tool function; the registry stays
    empty. *)
Theorem server_tools_propagate_startup_failure (e : exn) :
  snd (snd (initialize_accounts host [])) = Raise e ->
  let tr := fst (snd (initialize_accounts host [])) in
  Server.list_calendars host [] = ([], (tr, Raise e)) /\
  forall py calendar_url,
    (forall start end_,
       Server.list_events host py [] calendar_url start end_
       = ([], (tr, Raise e))) /\
    (forall summary start end_ description location,
       Server.create_event host py [] calendar_url summary start end_
         description location = ([], (tr, Raise e))) /\
    (forall uid,
       Server.delete_event host py [] calendar_url uid = ([], (tr, Raise e))).
Proof.
  unfold Server.list_calendars, Server.list_events, Server.create_event,
    Server.delete_event, initialize_accounts.
  destruct (initialize host) as [t [l|e']]; cbn [fst snd]; [discriminate|].
  intros H. injection H as <-. repeat split.
Qed.


End ServerFacts.


Lemma connect_failure_witness :
  fst (snd (connect failing_host (new_account home_config))) =
  [Log INFO "Connecting to CalDAV account: Home (https://home.example.net/)";
   Log ERROR "Failed to connect to Home: Unauthorized"]
  /\ CalDAVAccount.client (fst (connect sample_host (new_account bracket_config)))
     = None.
Proof.
  destruct (connect_failure failing_host (new_account home_config)
              (DAVError "Unauthorized") eq_refl)
    as (_ & _ & _ & _ & _ & H & _).
  split; [exact H|].
  destruct (connect_failure sample_host (new_account bracket_config)
              (ValueError "Invalid IPv6 URL") eq_refl)
    as (_ & _ & _ & _ & _ & _ & [(_ & Hc & _)|[(Hk & _)|(p & Hk & _)]] & _).
  - exact Hc.
  - discriminate Hk.
  - discriminate Hk.
Defined.

Lemma initialize_accounts_success_witness :
  map CalDAVAccount.name started_accounts = ["Account 2"; "Home"]
  /\ Forall connected started_accounts.
Proof.
  assert (Hc : Forall (connects sample_host)
                 [CalDAVAccountConfig.mk "Account 2" "https://dav.example.org/"
                    "alice" "secret"; home_config])
    by (repeat constructor).
  destruct (initialize_accounts_success sample_host _ eq_refl eq_refl Hc)
    as (Hi & _ & _ & Hcon & Hn & _).
  unfold started_accounts. rewrite Hi. cbn [fst].
  split; [exact Hn | exact Hcon].
Defined.

Lemma initialize_accounts_failure_witness :
  fst (initialize_accounts failing_host []) = [].
Proof.
  exact (proj1 (initialize_accounts_failure failing_host
                  (DAVError "Unauthorized") eq_refl)).
Defined.


Lemma server_tools_propagate_startup_failure_witness :
  Server.delete_event empty_host sample_py [] "/cal/work/" "uid-standup" =
  ([], ([], Raise (ValueError no_accounts_message))).
Proof.
  destruct (server_tools_propagate_startup_failure empty_host
              (ValueError no_accounts_message) eq_refl) as (_ & H).
  exact (proj2 (proj2 (H sample_py "/cal/work/")) "uid-standup").
Defined.



Lemma get_calendar_by_url_never_raises_witness :
  exists tr o,
    CalDAVAccount.get_calendar_by_url sample_py work_account
      "https://[::1/cal/work/" = (tr, Ok o).
Proof.
  destruct (get_calendar_by_url_never_raises sample_py work_account
              "https://[::1/cal/work/") as (tr & o & H & _).
  exists tr, o. exact H.
Defined.

Lemma find_account_for_calendar_app_witness :
  find_account_for_calendar sample_py ([home_account] ++ [work_account])
    "/cal/personal/"
  = find_account_for_calendar sample_py [work_account] "/cal/personal/".
Proof.
  exact (find_account_for_calendar_app sample_py [home_account] [work_account]
           "/cal/personal/").
Defined.

Lemma list_calendars_tool_urls_witness :
  map c_url (list_calendars_tool [work_account; home_account]) =
  ["https://dav.example.org/cal/personal/";
   "https://dav.example.org/cal/work/"; "/cal/work/"].
Proof.
  exact (proj1 (list_calendars_tool_urls [work_account; home_account])).
Defined.
